(** * SecureExamEnvironment: the proctoring state machine of SecureEnv.tsx

    A shallow embedding of the React component [SecureExamEnvironment]:
    its state hooks, its refs, the closures that its callbacks capture, the
    listeners and timers that its effects attach, and the calls it makes to
    the browser and to the housing page.  Every function keeps the name it
    has in the source.

    Calls to [alert], to the console and to the props are recorded in a log
    and return; the one exception the component handles, [onStartExam]
    throwing, is an input of [startExam].  An asynchronous function runs to
    its end in one turn of the event loop: the answers of the browser are
    its inputs. *)

From Stdlib Require Import List String Ascii Bool Arith ZArith Lia.
From Stdlib Require Import Floats DecimalString.
Import ListNotations.
#[local] Set Warnings "-inexact-float".
Local Open Scope string_scope.
Local Open Scope bool_scope.
Local Open Scope list_scope.

(* ================================================================== *)
(** ** Data model *)

(** [currentStep] of the component. *)
Inductive Step := agreement | setup | verification | exam.

(** ["warning" | "critical"]. *)
Inductive Severity := warning | critical.

(** [interface SecurityViolation]; [type] is a keyword, hence [vtype]. *)
Record SecurityViolation := mkViolation {
  vtype : string;
  timestamp : nat;
  severity : Severity;
  description : string
}.

(** The object held by the [systemChecks] state hook. *)
Record SystemChecks := mkChecks {
  camera : bool;
  microphone : bool;
  fullscreen : bool;
  networkStable : bool;
  batteryLevel : bool;
  noOtherApps : bool
}.

(** A [MediaStream]: what the component uses of it is [getTracks()]. *)
Record MediaStream := mkStream { getTracks : list nat }.

(** The values of the [useState] hooks. *)
Record State := mkState {
  currentStep : Step;
  isSecureMode : bool;
  cameraStream : option MediaStream;
  screenStream : option MediaStream;
  violations : list SecurityViolation;
  systemChecks : SystemChecks;
  examStartTime : option nat;
  isLoading : bool;
  agreementAccepted : bool
}.

(** The state variables that [cleanupSecureMode] reads.  A function created
    during a render sees the values of that render, whatever the hooks hold
    when it is called later. *)
Record Closure := mkClosure {
  c_cameraStream : option MediaStream;
  c_screenStream : option MediaStream
}.

Definition closureOf (s : State) : Closure :=
  mkClosure (cameraStream s) (screenStream s).

(** [battery.charging] and [battery.level]: a Number, that is a binary64
    float (the platform reports a fraction between 0 and 1). *)
Record Battery := mkBattery { charging : bool; level : float }.

(** What the component reads from [document], [window] and [navigator]. *)
Record Browser := mkBrowser {
  fullscreenElement : bool;   (* document.fullscreenElement is not null *)
  hidden : bool;              (* document.hidden *)
  onLine : bool;              (* navigator.onLine *)
  hasExitFullscreen : bool;   (* document.exitFullscreen is defined *)
  hasGetBattery : bool;       (* "getBattery" in navigator *)
  battery : Battery;
  now : nat                   (* new Date() *)
}.

(** The two [alert] texts of the component. *)
Inductive AlertMsg :=
| SecurityViolationDetected (reason : string)
| SetupFailed.

Definition newline : string := String (ascii_of_nat 10) EmptyString.

Definition alert_text (a : AlertMsg) : string :=
  match a with
  | SecurityViolationDetected reason =>
      ("Security violation detected: " ++ reason ++ newline
        ++ "Exam will be terminated.")%string
  | SetupFailed => "Failed to setup secure environment. Please try again."
  end.

(** Calls that leave the component: to the browser and to the props. *)
Inductive Effect :=
| Alert (a : AlertMsg)
| ConsoleError (msg : string)
| TrackStop (track : nat)
| ExitFullscreen
| ClearTimeout (id : nat)
| ClearInterval (id : nat)
| PreventDefault
| StopPropagation
| ConsoleLog (msg : string)
| FetchHeartbeat
| OnSecurityViolation (descr : string) (sev : Severity)
| OnExitSecure
| OnStartExam
| SrcObject (s : MediaStream)   (* cameraRef.current.srcObject = s *)
| VideoPlay.                    (* cameraRef.current.play() *)

(** Event names of the listeners the effects attach. *)
Inductive Signal :=
| fullscreenchange | visibilitychange | blur | keydown | contextmenu
| mouseleave | online | offline | chargingchange | levelchange.

Definition Signal_eqb (a b : Signal) : bool :=
  match a, b with
  | fullscreenchange, fullscreenchange | visibilitychange, visibilitychange
  | blur, blur | keydown, keydown | contextmenu, contextmenu
  | mouseleave, mouseleave | online, online | offline, offline
  | chargingchange, chargingchange | levelchange, levelchange => true
  | _, _ => false
  end.

Definition isBatterySignal (s : Signal) : bool :=
  match s with chargingchange | levelchange => true | _ => false end.

(** An attached listener: its event name and the closure of the
    [addViolation] it was built from. *)
Record Listener := mkListener { l_signal : Signal; l_closure : Closure }.

(** The component instance and its surroundings. *)
Record Machine := mkMachine {
  st : State;
  mounted : bool;
  memo : Closure;                        (* captured by useCallback *)
  effSecure : bool;                      (* isSecureMode at the last effect run *)
  listeners : list Listener;
  timers : list (nat * Closure);         (* running setInterval timers *)
  nextTimer : nat;
  heartbeatRef : option nat;
  violationTimeoutRef : option nat;
  browser : Browser;
  log : list Effect
}.

(* ================================================================== *)
(** ** A state monad over [Machine] *)

Definition M (A : Type) : Type := Machine -> A * Machine.

Definition ret {A} (a : A) : M A := fun m => (a, m).

Definition bind {A B} (c : M A) (k : A -> M B) : M B :=
  fun m => let (a, m') := c m in k a m'.

Declare Scope m_scope.
Delimit Scope m_scope with M.
Notation "x <- c ;; k" := (bind c (fun x => k))
  (at level 61, c at next level, right associativity) : m_scope.
Notation "c ;; k" := (bind c (fun _ => k))
  (at level 61, right associativity) : m_scope.
Local Open Scope m_scope.

Definition exec {A} (c : M A) (m : Machine) : Machine := snd (c m).
Definition eval {A} (c : M A) (m : Machine) : A := fst (c m).

Definition gets {A} (f : Machine -> A) : M A := fun m => (f m, m).
Definition modify (f : Machine -> Machine) : M unit := fun m => (tt, f m).

Definition when (b : bool) (c : M unit) : M unit := if b then c else ret tt.

Fixpoint forEach {A} (l : list A) (f : A -> M unit) : M unit :=
  match l with
  | [] => ret tt
  | a :: l' => f a ;; forEach l' f
  end.

(** *** Field updates *)

Definition with_st (f : State -> State) (m : Machine) : Machine :=
  mkMachine (f (st m)) (mounted m) (memo m) (effSecure m) (listeners m)
    (timers m) (nextTimer m) (heartbeatRef m) (violationTimeoutRef m)
    (browser m) (log m).

Definition with_log (f : list Effect -> list Effect) (m : Machine) : Machine :=
  mkMachine (st m) (mounted m) (memo m) (effSecure m) (listeners m)
    (timers m) (nextTimer m) (heartbeatRef m) (violationTimeoutRef m)
    (browser m) (f (log m)).

Definition with_browser (f : Browser -> Browser) (m : Machine) : Machine :=
  mkMachine (st m) (mounted m) (memo m) (effSecure m) (listeners m)
    (timers m) (nextTimer m) (heartbeatRef m) (violationTimeoutRef m)
    (f (browser m)) (log m).

Definition with_listeners (f : list Listener -> list Listener) (m : Machine)
  : Machine :=
  mkMachine (st m) (mounted m) (memo m) (effSecure m) (f (listeners m))
    (timers m) (nextTimer m) (heartbeatRef m) (violationTimeoutRef m)
    (browser m) (log m).

Definition with_timers (f : list (nat * Closure) -> list (nat * Closure))
    (m : Machine) : Machine :=
  mkMachine (st m) (mounted m) (memo m) (effSecure m) (listeners m)
    (f (timers m)) (nextTimer m) (heartbeatRef m) (violationTimeoutRef m)
    (browser m) (log m).

(** A state setter.  React drops updates of an unmounted component. *)
Definition setState (f : State -> State) : M unit :=
  modify (fun m => if mounted m then with_st f m else m).

(** A call that leaves the component. *)
Definition emit (e : Effect) : M unit :=
  modify (with_log (fun l => l ++ [e])).

Definition setCurrentStep (x : Step) : M unit :=
  setState (fun s => mkState x (isSecureMode s) (cameraStream s)
    (screenStream s) (violations s) (systemChecks s) (examStartTime s)
    (isLoading s) (agreementAccepted s)).

Definition setIsSecureMode (x : bool) : M unit :=
  setState (fun s => mkState (currentStep s) x (cameraStream s)
    (screenStream s) (violations s) (systemChecks s) (examStartTime s)
    (isLoading s) (agreementAccepted s)).

Definition setCameraStream (x : option MediaStream) : M unit :=
  setState (fun s => mkState (currentStep s) (isSecureMode s) x
    (screenStream s) (violations s) (systemChecks s) (examStartTime s)
    (isLoading s) (agreementAccepted s)).

Definition setScreenStream (x : option MediaStream) : M unit :=
  setState (fun s => mkState (currentStep s) (isSecureMode s) (cameraStream s)
    x (violations s) (systemChecks s) (examStartTime s)
    (isLoading s) (agreementAccepted s)).

Definition setViolations (f : list SecurityViolation -> list SecurityViolation)
  : M unit :=
  setState (fun s => mkState (currentStep s) (isSecureMode s) (cameraStream s)
    (screenStream s) (f (violations s)) (systemChecks s)
    (examStartTime s) (isLoading s) (agreementAccepted s)).

Definition setSystemChecks (f : SystemChecks -> SystemChecks) : M unit :=
  setState (fun s => mkState (currentStep s) (isSecureMode s) (cameraStream s)
    (screenStream s) (violations s) (f (systemChecks s))
    (examStartTime s) (isLoading s) (agreementAccepted s)).

Definition setExamStartTime (x : option nat) : M unit :=
  setState (fun s => mkState (currentStep s) (isSecureMode s) (cameraStream s)
    (screenStream s) (violations s) (systemChecks s) x
    (isLoading s) (agreementAccepted s)).

Definition setIsLoading (x : bool) : M unit :=
  setState (fun s => mkState (currentStep s) (isSecureMode s) (cameraStream s)
    (screenStream s) (violations s) (systemChecks s) (examStartTime s)
    x (agreementAccepted s)).

Definition setAgreementAccepted (x : bool) : M unit :=
  setState (fun s => mkState (currentStep s) (isSecureMode s) (cameraStream s)
    (screenStream s) (violations s) (systemChecks s) (examStartTime s)
    (isLoading s) x).

(** [stream.getTracks().forEach((track) => track.stop())]: one [stop] per
    track, in the order of the tracks. *)
Definition stopTracks (s : MediaStream) : M unit :=
  modify (with_log (fun l => l ++ map TrackStop (getTracks s))).

(** [clearInterval(id)]: the call, and the timer it stops. *)
Definition clearInterval (id : nat) : M unit :=
  emit (ClearInterval id) ;;
  modify (with_timers (filter (fun t => negb (Nat.eqb (fst t) id)))).

(* ================================================================== *)
(** ** Termination and cleanup *)

(** [cleanupSecureMode]: [c] holds the [cameraStream] and [screenStream] of
    the render in which this instance of the function was created. *)
Definition cleanupSecureMode (c : Closure) : M unit :=
  match c_cameraStream c with
  | Some s =>
      stopTracks s ;;
      setCameraStream None
  | None => ret tt
  end ;;
  match c_screenStream c with
  | Some s =>
      stopTracks s ;;
      setScreenStream None
  | None => ret tt
  end ;;
  b <- gets browser ;;
  when (hasExitFullscreen b && fullscreenElement b) (emit ExitFullscreen) ;;
  h <- gets heartbeatRef ;;
  match h with
  | Some id => clearInterval id
  | None => ret tt
  end ;;
  setIsSecureMode false.

(** [handleSecurityTermination]. *)
Definition handleSecurityTermination (c : Closure) (reason : string) : M unit :=
  t <- gets violationTimeoutRef ;;
  match t with
  | Some id => emit (ClearTimeout id)
  | None => ret tt
  end ;;
  emit (Alert (SecurityViolationDetected reason)) ;;
  cleanupSecureMode c ;;
  emit OnExitSecure.

(** [addViolation]: a [useCallback] whose only dependency is the
    [onSecurityViolation] prop, so the [handleSecurityTermination] it calls
    is the one of the render in which the callback was last rebuilt. *)
Definition addViolation (c : Closure) (type : string) (sev : Severity)
    (descr : string) : M unit :=
  t <- gets (fun m => now (browser m)) ;;
  setViolations (fun prev => prev ++ [mkViolation type t sev descr]) ;;
  emit (OnSecurityViolation descr sev) ;;
  match sev with
  | critical => handleSecurityTermination c descr
  | warning => ret tt
  end.

(* ================================================================== *)
(** ** Acquisition of the monitored resources *)

(** How a promise of the browser settles. *)
Inductive Settled (A : Type) := Fulfilled (a : A) | Rejected.
Arguments Fulfilled {A} a.
Arguments Rejected {A}.

(** What the browser answers during one run of [startSecureSetup].  An
    entry point of the fullscreen API is [None] when the element does not
    define it; [play] is how [play()] settles if the preview is started. *)
Record SetupEnv := mkSetupEnv {
  getUserMedia : Settled MediaStream;
  play : Settled unit;
  requestFullscreen : option (Settled unit);
  webkitRequestFullscreen : option (Settled unit);
  msRequestFullscreen : option (Settled unit);
  getDisplayMedia : Settled MediaStream
}.

Definition setCameraMicrophone (p : SystemChecks) : SystemChecks :=
  mkChecks true true (fullscreen p) (networkStable p) (batteryLevel p)
    (noOtherApps p).

Definition setFullscreen (p : SystemChecks) : SystemChecks :=
  mkChecks (camera p) (microphone p) true (networkStable p) (batteryLevel p)
    (noOtherApps p).

Definition setNetworkStable (x : bool) (p : SystemChecks) : SystemChecks :=
  mkChecks (camera p) (microphone p) (fullscreen p) x (batteryLevel p)
    (noOtherApps p).

Definition setBatteryLevel (x : bool) (p : SystemChecks) : SystemChecks :=
  mkChecks (camera p) (microphone p) (fullscreen p) (networkStable p) x
    (noOtherApps p).

(** The object literal of step 4 of [startSecureSetup]. *)
Definition setFinalChecks (online : bool) (p : SystemChecks) : SystemChecks :=
  mkChecks (camera p) (microphone p) (fullscreen p) online (batteryLevel p)
    true.

(** [cameraRef.current] is not null.  The ref belongs to the [<video>] that
    only [renderVerification] draws: React sets it while the mounted
    component shows the verification step, and clears it otherwise. *)
Definition cameraRef (m : Machine) : bool :=
  mounted m &&
  match currentStep (st m) with verification => true | _ => false end.

(** [setupCamera]; [a] is the closure of the [addViolation] in scope. *)
Definition setupCamera (a : Closure) (o : SetupEnv) : M (Settled bool) :=
  let onError :=
    emit (ConsoleError "Camera setup failed:") ;;
    addViolation a "camera-denied" critical
      "Camera access denied or unavailable" ;;
    ret (Fulfilled false) in
  match getUserMedia o with
  | Fulfilled stream =>
      setCameraStream (Some stream) ;;
      video <- gets cameraRef ;;
      played <- (if video
                 then emit (SrcObject stream) ;; emit VideoPlay ;; ret (play o)
                 else ret (Fulfilled tt)) ;;
      match played with
      | Fulfilled _ =>
          setSystemChecks setCameraMicrophone ;;
          ret (Fulfilled true)
      | Rejected => onError
      end
  | Rejected => onError
  end.

(** [setupScreenShare]. *)
Definition setupScreenShare (a : Closure) (o : SetupEnv) : M (Settled bool) :=
  match getDisplayMedia o with
  | Fulfilled stream =>
      setScreenStream (Some stream) ;;
      ret (Fulfilled true)
  | Rejected =>
      emit (ConsoleError "Screen share failed:") ;;
      addViolation a "screen-denied" critical "Screen sharing denied" ;;
      ret (Fulfilled false)
  end.

(** The entry point [enterFullscreen] awaits, if there is one. *)
Definition fullscreenRequest (o : SetupEnv) : option (Settled unit) :=
  match requestFullscreen o with
  | Some r => Some r
  | None =>
      match webkitRequestFullscreen o with
      | Some r => Some r
      | None => msRequestFullscreen o
      end
  end.

Definition setFullscreenElement (x : bool) (b : Browser) : Browser :=
  mkBrowser x (hidden b) (onLine b) (hasExitFullscreen b) (hasGetBattery b)
    (battery b) (now b).

(** [enterFullscreen].  A granted request puts the document in fullscreen. *)
Definition enterFullscreen (a : Closure) (o : SetupEnv) : M (Settled bool) :=
  match fullscreenRequest o with
  | Some Rejected =>
      emit (ConsoleError "Fullscreen failed:") ;;
      addViolation a "fullscreen-denied" critical "Fullscreen mode denied" ;;
      ret (Fulfilled false)
  | Some (Fulfilled _) =>
      modify (with_browser (setFullscreenElement true)) ;;
      setSystemChecks setFullscreen ;;
      ret (Fulfilled true)
  | None =>
      setSystemChecks setFullscreen ;;
      ret (Fulfilled true)
  end.

(** How a [try] block ends. *)
Inductive Completion := Normal | Throw (msg : string).

(** The [try] block of [startSecureSetup]. *)
Definition trySecureSetup (a : Closure) (o : SetupEnv) : M Completion :=
  cameraOk <- setupCamera a o ;;
  match cameraOk with
  | Rejected => ret (Throw "")
  | Fulfilled false => ret (Throw "Camera setup failed")
  | Fulfilled true =>
      fullscreenOk <- enterFullscreen a o ;;
      match fullscreenOk with
      | Rejected => ret (Throw "")
      | Fulfilled false => ret (Throw "Fullscreen setup failed")
      | Fulfilled true =>
          screen <- setupScreenShare a o ;;
          match screen with
          | Rejected =>
              addViolation a "screen-share-optional" warning
                "Screen sharing not available"
          | Fulfilled _ => ret tt
          end ;;
          b <- gets browser ;;
          setSystemChecks (setFinalChecks (onLine b)) ;;
          setIsSecureMode true ;;
          setCurrentStep verification ;;
          ret Normal
      end
  end.

(** [startSecureSetup], run to its end.  Its [cleanupSecureMode] and its
    [addViolation] are those of the render whose button was clicked. *)
Definition startSecureSetup (o : SetupEnv) : M unit :=
  accepted <- gets (fun m => agreementAccepted (st m)) ;;
  if negb accepted then ret tt
  else
    c <- gets (fun m => closureOf (st m)) ;;
    a <- gets memo ;;
    setIsLoading true ;;
    setCurrentStep setup ;;
    r <- trySecureSetup a o ;;
    match r with
    | Throw _ =>
        emit (ConsoleError "Secure setup failed:") ;;
        cleanupSecureMode c ;;
        emit (Alert SetupFailed) ;;
        setCurrentStep agreement
    | Normal => ret tt
    end ;;
    setIsLoading false.

(** [startExam]; [throws] tells whether the [onStartExam] prop throws. *)
Definition startExam (throws : bool) : M unit :=
  c <- gets (fun m => closureOf (st m)) ;;
  a <- gets memo ;;
  setIsLoading true ;;
  setCurrentStep exam ;;
  t <- gets (fun m => now (browser m)) ;;
  setExamStartTime (Some t) ;;
  emit (ConsoleLog "Questions fetched successfully:") ;;
  emit OnStartExam ;;
  when throws
    (emit (ConsoleError "Error starting exam:") ;;
     addViolation a "exam-start-failed" critical "Failed to start exam" ;;
     handleSecurityTermination c "Exam initialization failed") ;;
  setIsLoading false.

(* ================================================================== *)
(** ** The listeners of the monitoring effects *)

(** The fields of a [KeyboardEvent] that [handleKeyDown] reads. *)
Record KeyboardEvent := mkKey {
  key : string;
  ctrlKey : bool;
  shiftKey : bool;
  altKey : bool
}.

Definition blockedKeys : list string :=
  [ "F11"; "F12"; "Escape"; "PrintScreen"; "Insert"; "Delete"; "Meta";
    "Alt+Tab"; "Ctrl+Shift+I"; "Ctrl+Shift+J"; "Ctrl+U" ].

(** [Array.prototype.includes] on strings. *)
Definition includes (l : list string) (x : string) : bool :=
  existsb (String.eqb x) l.

(** The template literal that builds [combo]. *)
Definition combo (e : KeyboardEvent) : string :=
  ((if ctrlKey e then "Ctrl+" else "")
   ++ (if shiftKey e then "Shift+" else "")
   ++ (if altKey e then "Alt+" else "")
   ++ key e)%string.

Definition isBlocked (e : KeyboardEvent) : bool :=
  includes blockedKeys (key e) || includes blockedKeys (combo e).

Definition handleFullscreenChange (a : Closure) : M unit :=
  b <- gets browser ;;
  when (negb (fullscreenElement b))
    (addViolation a "fullscreen-exit" critical "Exited fullscreen mode").

Definition handleVisibilityChange (a : Closure) : M unit :=
  b <- gets browser ;;
  when (hidden b)
    (addViolation a "tab-switch" critical "Switched tabs or minimized window").

Definition handleBlur (a : Closure) : M unit :=
  addViolation a "focus-loss" warning "Lost window focus".

Definition handleKeyDown (e : KeyboardEvent) (a : Closure) : M unit :=
  when (isBlocked e)
    (emit PreventDefault ;;
     emit StopPropagation ;;
     addViolation a "blocked-key" warning
       ("Attempted to use blocked key: " ++ combo e)%string).

Definition handleContextMenu (a : Closure) : M unit :=
  emit PreventDefault ;;
  addViolation a "context-menu" warning "Attempted to open context menu".

Definition handleMouseLeave (a : Closure) : M unit :=
  addViolation a "mouse-leave" warning "Mouse left the exam window".

Definition handleOnline (a : Closure) : M unit :=
  setSystemChecks (setNetworkStable true).

Definition handleOffline (a : Closure) : M unit :=
  setSystemChecks (setNetworkStable false) ;;
  addViolation a "network-loss" critical "Internet connection lost".

(** The callback of the 30 s [setInterval]; [fetchRejects] tells whether
    the probe of [/api/heartbeat] rejects. *)
Definition heartbeat (fetchRejects : bool) (a : Closure) : M unit :=
  emit FetchHeartbeat ;;
  when fetchRejects
    (addViolation a "network-unstable" warning "Network connection unstable").

(** *** Numbers as text *)

(** The decimal digits of a natural number. *)
Definition digits (n : Z) : string := NilZero.string_of_int (Z.to_int n).

(** Whether the real number [v] rounds to the float [m * 2^e], a normal one
    with [2 <= e]: it lies between the midpoints to the neighbouring floats,
    the midpoints included when [m] is even. *)
Definition roundsTo (m : positive) (e : Z) (v : Z) : bool :=
  let x := Z.shiftl (Zpos m) e in
  let up := (x + Z.shiftl 1 (e - 1))%Z in
  let below := if (Zpos m =? 2 ^ 52)%Z then (e - 2)%Z else (e - 1)%Z in
  let down := (x - Z.shiftl 1 below)%Z in
  if Z.even (Zpos m) then (down <=? v)%Z && (v <=? up)%Z
  else (down <? v)%Z && (v <? up)%Z.

(** The digits [s] and the exponent [j] of the shortest decimal [s * 10^j]
    that rounds to [m * 2^e]: among those of [k] digits the one closest to
    the float, [s] even on a tie; one digit more when there is none. *)
Fixpoint shortest (fuel : nat) (k : Z) (m : positive) (e : Z) : Z * Z :=
  let x := Z.shiftl (Zpos m) e in
  match fuel with
  | O => (x, 0%Z)
  | S fuel' =>
      let j := (Z.of_nat (String.length (digits x)) - k)%Z in
      let p := (10 ^ j)%Z in
      let s1 := (x / p)%Z in
      let s2 := (s1 + 1)%Z in
      let in1 := roundsTo m e (s1 * p) in
      let in2 := roundsTo m e (s2 * p) in
      let d1 := (x - s1 * p)%Z in
      let d2 := (s2 * p - x)%Z in
      if in1 && in2 then
        if (d1 <? d2)%Z then (s1, j)
        else if (d2 <? d1)%Z then (s2, j)
        else if Z.even s1 then (s1, j) else (s2, j)
      else if in1 then (s1, j)
      else if in2 then (s2, j)
      else shortest fuel' (k + 1)%Z m e
  end.

(** Without the zeros at the end. *)
Fixpoint stripZeros (s : string) : string :=
  match s with
  | EmptyString => EmptyString
  | String c r =>
      match stripZeros r with
      | EmptyString => if Ascii.eqb c "0" then EmptyString else String c ""
      | r' => String c r'
      end
  end.

(** [Number::toString] of the float [m * 2^e], at least [10^21]: the
    shortest digits, in exponential notation. *)
Definition exponential (m : positive) (e : Z) : string :=
  let (s, j) := shortest 17 1 m e in
  let n := (Z.of_nat (String.length (digits s)) + j)%Z in
  match stripZeros (digits s) with
  | EmptyString => EmptyString
  | String c EmptyString => String c ("e+" ++ digits (n - 1))
  | String c r => String c ("." ++ r ++ "e+" ++ digits (n - 1))
  end.

(** The integer nearest to [m * 2^e], the larger one on a tie. *)
Definition nearestInteger (m : positive) (e : Z) : Z :=
  if (0 <=? e)%Z then Z.shiftl (Zpos m) e
  else Z.shiftr (Zpos m + Z.shiftl 1 (- e - 1)) (- e).

(** [Number.prototype.toFixed(0)]: the text of a float that is not finite;
    else the sign, and for a magnitude below [10^21] the digits of the
    nearest integer, above it the text of [Number::toString]. *)
Definition toFixed0 (x : float) : string :=
  match Prim2SF x with
  | S754_nan => "NaN"
  | S754_infinity s => if s then "-Infinity" else "Infinity"
  | S754_zero _ => "0"
  | S754_finite s m e =>
      (if s then "-" else "") ++
      (if (10 ^ 21 <=? Z.shiftl (Zpos m) e)%Z then exponential m e
       else digits (nearestInteger m e))
  end.

(** [battery.level * 100], a product of binary64 floats. *)
Definition percent (b : Battery) : float := PrimFloat.mul (level b) 100.

(** [!isCharging && level < 20], with [level = battery.level * 100]. *)
Definition lowAndUnplugged (b : Battery) : bool :=
  negb (charging b) && PrimFloat.ltb (percent b) 20.

(** [updateBatteryStatus]. *)
Definition updateBatteryStatus (a : Closure) : M unit :=
  bat <- gets (fun m => battery (browser m)) ;;
  let isCharging := charging bat in
  let lvl := PrimFloat.mul (level bat) 100 in
  setSystemChecks (setBatteryLevel (isCharging || PrimFloat.ltb 20 lvl)) ;;
  when (negb isCharging && PrimFloat.ltb lvl 20)
    (addViolation a "battery-low" warning
       ("Battery level low: " ++ toFixed0 lvl ++ "%")%string).

(** Every listener attached for [sig] is called. *)
Definition dispatch (sig : Signal) (h : Closure -> M unit) : M unit :=
  ls <- gets listeners ;;
  forEach (filter (fun l => Signal_eqb (l_signal l) sig) ls)
    (fun l => h (l_closure l)).

(* ================================================================== *)
(** ** Effects *)

Definition with_effSecure (x : bool) (m : Machine) : Machine :=
  mkMachine (st m) (mounted m) (memo m) x (listeners m)
    (timers m) (nextTimer m) (heartbeatRef m) (violationTimeoutRef m)
    (browser m) (log m).

Definition with_memo (x : Closure) (m : Machine) : Machine :=
  mkMachine (st m) (mounted m) x (effSecure m) (listeners m)
    (timers m) (nextTimer m) (heartbeatRef m) (violationTimeoutRef m)
    (browser m) (log m).

Definition with_mounted (x : bool) (m : Machine) : Machine :=
  mkMachine (st m) x (memo m) (effSecure m) (listeners m)
    (timers m) (nextTimer m) (heartbeatRef m) (violationTimeoutRef m)
    (browser m) (log m).

(** [heartbeatRef.current = setInterval(...)]. *)
Definition setHeartbeat (a : Closure) (m : Machine) : Machine :=
  mkMachine (st m) (mounted m) (memo m) (effSecure m) (listeners m)
    (timers m ++ [(nextTimer m, a)]) (S (nextTimer m)) (Some (nextTimer m))
    (violationTimeoutRef m) (browser m) (log m).

Definition addEventListener (sig : Signal) (a : Closure) : M unit :=
  modify (with_listeners (fun ls => ls ++ [mkListener sig a])).

(** The [removeEventListener] calls of the two cleanup functions take away
    what their effect run attached: every listener but the battery ones. *)
Definition removeEventListeners : M unit :=
  modify (with_listeners (filter (fun l => isBatterySignal (l_signal l)))).

(** The cleanup functions returned by the security and network effects. *)
Definition cleanupEffects : M unit :=
  removeEventListeners ;;
  h <- gets heartbeatRef ;;
  match h with
  | Some id => clearInterval id
  | None => ret tt
  end.

(** The bodies of the three monitoring effects, for [isSecureMode] true. *)
Definition runEffects (a : Closure) : M unit :=
  addEventListener fullscreenchange a ;;
  addEventListener visibilitychange a ;;
  addEventListener blur a ;;
  addEventListener keydown a ;;
  addEventListener contextmenu a ;;
  addEventListener mouseleave a ;;
  addEventListener online a ;;
  addEventListener offline a ;;
  modify (setHeartbeat a) ;;
  b <- gets browser ;;
  when (hasGetBattery b)
    (addEventListener chargingchange a ;;
     addEventListener levelchange a ;;
     updateBatteryStatus a).

(** After a render: the effects whose dependencies [isSecureMode] and
    [addViolation] changed run again, cleanup first.  The battery effect
    returns no cleanup function. *)
Definition commitEffects (propsChanged : bool) : M unit :=
  mnt <- gets mounted ;;
  secure <- gets (fun m => isSecureMode (st m)) ;;
  prev <- gets effSecure ;;
  when (mnt && (propsChanged || negb (Bool.eqb secure prev)))
    (when prev cleanupEffects ;;
     modify (with_effSecure secure) ;;
     a <- gets memo ;;
     when secure (runEffects a)).

(** The first render: nothing captured yet. *)
Definition closure0 : Closure := mkClosure None None.

(** Unmounting runs the cleanup of every effect; the last effect has no
    dependencies, so its [cleanupSecureMode] is the one of the first render. *)
Definition unmount : M unit :=
  prev <- gets effSecure ;;
  when prev cleanupEffects ;;
  cleanupSecureMode closure0 ;;
  modify (with_mounted false).

(* ================================================================== *)
(** ** Events *)

Inductive Event :=
| ChangeAgreement (checked : bool)
| ClickEnterSecureMode (o : SetupEnv)
| ClickStartExam (throws : bool)
| ClickCancel
| FullscreenChange (element : bool)
| VisibilityChange (hid : bool)
| Blur
| KeyDown (e : KeyboardEvent)
| ContextMenu
| MouseLeave
| Online
| Offline
| HeartbeatTick (fetchRejects : bool)
| ChargingChange (b : Battery)
| LevelChange (b : Battery)
| ClockTick (t : nat)
| PropsChange
| Unmount.

Definition setHidden (x : bool) (b : Browser) : Browser :=
  mkBrowser (fullscreenElement b) x (onLine b) (hasExitFullscreen b)
    (hasGetBattery b) (battery b) (now b).

Definition setOnLine (x : bool) (b : Browser) : Browser :=
  mkBrowser (fullscreenElement b) (hidden b) x (hasExitFullscreen b)
    (hasGetBattery b) (battery b) (now b).

Definition setBattery (x : Battery) (b : Browser) : Browser :=
  mkBrowser (fullscreenElement b) (hidden b) (onLine b) (hasExitFullscreen b)
    (hasGetBattery b) x (now b).

Definition setNow (x : nat) (b : Browser) : Browser :=
  mkBrowser (fullscreenElement b) (hidden b) (onLine b) (hasExitFullscreen b)
    (hasGetBattery b) (battery b) x.

Definition Step_eqb (a b : Step) : bool :=
  match a, b with
  | agreement, agreement | setup, setup | verification, verification
  | exam, exam => true
  | _, _ => false
  end.

(** [disabled] of the "Enter Secure Mode" button. *)
Definition enterDisabled (s : State) : bool :=
  negb (agreementAccepted s) || isLoading s.

(** [disabled] of the "Start Exam" button. *)
Definition startExamDisabled (s : State) : bool :=
  isLoading s || negb (camera (systemChecks s))
  || negb (networkStable (systemChecks s)).

(** Whether a control drawn for step [x] can be operated. *)
Definition shown (x : Step) (m : Machine) : bool :=
  mounted m && Step_eqb (currentStep (st m)) x.

(** The reaction of the component to one event. *)
Definition handle (e : Event) : M unit :=
  match e with
  | ChangeAgreement checked =>
      ok <- gets (shown agreement) ;;
      when ok (setAgreementAccepted checked)
  | ClickEnterSecureMode o =>
      ok <- gets (fun m => shown agreement m && negb (enterDisabled (st m))) ;;
      when ok (startSecureSetup o)
  | ClickStartExam throws =>
      ok <- gets (fun m =>
                    shown verification m && negb (startExamDisabled (st m))) ;;
      when ok (startExam throws)
  | ClickCancel =>
      ok <- gets (shown agreement) ;;
      when ok (emit OnExitSecure)
  | FullscreenChange element =>
      modify (with_browser (setFullscreenElement element)) ;;
      dispatch fullscreenchange handleFullscreenChange
  | VisibilityChange hid =>
      modify (with_browser (setHidden hid)) ;;
      dispatch visibilitychange handleVisibilityChange
  | Blur => dispatch blur handleBlur
  | KeyDown k => dispatch keydown (handleKeyDown k)
  | ContextMenu => dispatch contextmenu handleContextMenu
  | MouseLeave => dispatch mouseleave handleMouseLeave
  | Online =>
      modify (with_browser (setOnLine true)) ;;
      dispatch online handleOnline
  | Offline =>
      modify (with_browser (setOnLine false)) ;;
      dispatch offline handleOffline
  | HeartbeatTick fetchRejects =>
      ts <- gets timers ;;
      forEach ts (fun t => heartbeat fetchRejects (snd t))
  | ChargingChange b =>
      modify (with_browser (setBattery b)) ;;
      dispatch chargingchange updateBatteryStatus
  | LevelChange b =>
      modify (with_browser (setBattery b)) ;;
      dispatch levelchange updateBatteryStatus
  | ClockTick t => modify (with_browser (setNow t))
  | PropsChange =>
      mnt <- gets mounted ;;
      when mnt (modify (fun m => with_memo (closureOf (st m)) m))
  | Unmount =>
      mnt <- gets mounted ;;
      when mnt unmount
  end.

Definition isPropsChange (e : Event) : bool :=
  match e with PropsChange => true | _ => false end.

(** One turn of the event loop: the handler, then the render it causes. *)
Definition step (e : Event) : M unit :=
  handle e ;; commitEffects (isPropsChange e).

Definition run (m : Machine) (evs : list Event) : Machine :=
  fold_left (fun m e => exec (step e) m) evs m.

Definition checks0 : SystemChecks :=
  mkChecks false false false false false false.

Definition state0 : State :=
  mkState agreement false None None [] checks0 None false false.

(** The component right after it is mounted in browser [b]. *)
Definition init (b : Browser) : Machine :=
  mkMachine state0 true closure0 false [] [] 1 None None b [].

(* ================================================================== *)
(** * Properties *)

(** ** Observations *)

Definition isCritical (v : SecurityViolation) : bool :=
  match severity v with critical => true | warning => false end.


(** The alert that only [handleSecurityTermination] shows. *)
Definition isTermination (e : Effect) : bool :=
  match e with Alert (SecurityViolationDetected _) => true | _ => false end.

Definition terminated (m : Machine) : bool :=
  existsb isTermination (log m).

Definition isExit (e : Effect) : bool :=
  match e with OnExitSecure => true | _ => false end.

(** Number of exit-secure-mode signals sent to the housing page. *)
Definition exits (l : list Effect) : nat := List.length (filter isExit l).

Definition isStopOf (t : nat) (e : Effect) : bool :=
  match e with TrackStop t' => Nat.eqb t t' | _ => false end.

(** Number of [stop()] calls on track [t]. *)
Definition stops (t : nat) (l : list Effect) : nat :=
  List.length (filter (isStopOf t) l).

Definition hasType (ty : string) (v : SecurityViolation) : bool :=
  String.eqb (vtype v) ty.

(** Number of logged violations of type [ty]. *)
Definition countType (ty : string) (m : Machine) : nat :=
  List.length (filter (hasType ty) (violations (st m))).

(** The signals of the security and network effects, in attachment order. *)
Definition domSignals : list Signal :=
  [ fullscreenchange; visibilitychange; blur; keydown; contextmenu;
    mouseleave; online; offline ].

Definition isDomListener (l : Listener) : bool :=
  negb (isBatterySignal (l_signal l)).

(** The attached listeners other than the battery ones. *)
Definition domListeners (m : Machine) : list Listener :=
  filter isDomListener (listeners m).

(** Camera acquisition fails: [getUserMedia] rejects.  (During setup the
    preview is not in the document, so [play()] is not called.) *)
Definition cameraFails (o : SetupEnv) : bool :=
  match getUserMedia o with
  | Rejected => true
  | Fulfilled _ => false
  end.

(** Fullscreen acquisition succeeds (or no entry point exists). *)
Definition fullscreenOk (o : SetupEnv) : bool :=
  match fullscreenRequest o with Some Rejected => false | _ => true end.

(** ** Symbolic execution *)

Lemma exec_bind {A B} (c : M A) (k : A -> M B) m :
  exec (bind c k) m = exec (k (eval c m)) (exec c m).
Proof. unfold exec, eval, bind. destruct (c m). reflexivity. Qed.

Lemma eval_bind {A B} (c : M A) (k : A -> M B) m :
  eval (bind c k) m = eval (k (eval c m)) (exec c m).
Proof. unfold exec, eval, bind. destruct (c m). reflexivity. Qed.

Lemma exec_gets {A} (f : Machine -> A) m : exec (gets f) m = m.
Proof. reflexivity. Qed.

Lemma eval_gets {A} (f : Machine -> A) m : eval (gets f) m = f m.
Proof. reflexivity. Qed.

Lemma forEach_inv {A} (P : Machine -> Prop) (f : A -> M unit) :
  forall l,
    (forall a m, In a l -> P m -> P (exec (f a) m)) ->
    forall m, P m -> P (exec (forEach l f) m).
Proof.
  induction l as [|a l IH]; intros Hf m Hm; [exact Hm|].
  cbn [forEach]. rewrite exec_bind. apply IH.
  - intros a' m' Hin. apply Hf. right. exact Hin.
  - apply Hf; [left; reflexivity | exact Hm].
Qed.

(** Evaluation of the model on a machine whose fields are known. *)
Ltac eval_m :=
  cbv -[app existsb forallb filter map forEach append toFixed0
        Nat.eqb List.length In String.eqb isCritical isTermination isExit
        isStopOf hasType isBatterySignal Signal_eqb isDomListener l_signal
        l_closure].

(** The same, when the lists at hand are known too. *)
Ltac eval_all := cbv -[append toFixed0 String.eqb].

Ltac break_machine m :=
  let s := fresh "s" in
  let b := fresh "b" in
  let c := fresh "c" in
  destruct m as [s ? c ? ? ? ? ? ? b ?]; destruct s; destruct b; destruct c.

(** ** Frame reasoning *)

(** [c] keeps [P]: the tool for what a piece of code leaves alone. *)
Definition preserves {A} (P : Machine -> Prop) (c : M A) : Prop :=
  forall m, P m -> P (exec c m).

Section Preserves.
Variable P : Machine -> Prop.

Lemma pres_ret {A} (a : A) : preserves P (ret a).
Proof. intros m H. exact H. Qed.

Lemma pres_gets {A} (f : Machine -> A) : preserves P (gets f).
Proof. intros m H. exact H. Qed.

Lemma pres_bind {A B} (c : M A) (k : A -> M B) :
  preserves P c -> (forall a, preserves P (k a)) -> preserves P (bind c k).
Proof. intros Hc Hk m H. rewrite exec_bind. apply Hk, Hc, H. Qed.

Lemma pres_when b (c : M unit) : preserves P c -> preserves P (when b c).
Proof. intros Hc. destruct b; [exact Hc | apply pres_ret]. Qed.

Lemma pres_forEach {A} (l : list A) (f : A -> M unit) :
  (forall a, preserves P (f a)) -> preserves P (forEach l f).
Proof.
  intros Hf m H. apply forEach_inv; [|exact H].
  intros a m' _. apply Hf.
Qed.

Lemma pres_modify f : (forall m, P m -> P (f m)) -> preserves P (modify f).
Proof. intros Hf m H. apply Hf, H. Qed.
End Preserves.

(** Unfolds one function of the model, callers before callees. *)
Ltac unfold_model :=
  first
    [ progress unfold step
    | progress unfold handle
    | progress unfold commitEffects
    | progress unfold unmount
    | progress unfold runEffects
    | progress unfold cleanupEffects
    | progress unfold removeEventListeners
    | progress unfold addEventListener
    | progress unfold dispatch
    | progress unfold startExam
    | progress unfold startSecureSetup
    | progress unfold trySecureSetup
    | progress unfold setupCamera
    | progress unfold setupScreenShare
    | progress unfold enterFullscreen
    | progress unfold heartbeat
    | progress unfold updateBatteryStatus
    | progress unfold handleOffline
    | progress unfold handleOnline
    | progress unfold handleMouseLeave
    | progress unfold handleContextMenu
    | progress unfold handleKeyDown
    | progress unfold handleBlur
    | progress unfold handleVisibilityChange
    | progress unfold handleFullscreenChange
    | progress unfold addViolation
    | progress unfold handleSecurityTermination
    | progress unfold cleanupSecureMode
    | progress unfold clearInterval
    | progress unfold stopTracks
    | progress unfold emit
    | progress unfold setCurrentStep
    | progress unfold setIsSecureMode
    | progress unfold setCameraStream
    | progress unfold setScreenStream
    | progress unfold setViolations
    | progress unfold setSystemChecks
    | progress unfold setExamStartTime
    | progress unfold setIsLoading
    | progress unfold setAgreementAccepted
    | progress unfold setState ].

(** Closes [P m -> P (f m)] when the update [f] does not touch what [P]
    reads, or sets it to what [P] asks. *)
Ltac frame_leaf :=
  intros [[? ? ? ? ? [] ? ? ?] [] ? ? ? ? ? ? ? ? ?] ?;
  first [assumption | reflexivity].

(** Walks through the code of a computation: [known] is tried first on
    every piece, [leaf] closes the primitive updates. *)
Ltac pres_walk known leaf :=
  repeat (cbv beta iota zeta;
    lazymatch goal with
    | |- preserves _ ?c =>
        first
          [ known
          | lazymatch c with
            | ret _ => apply pres_ret
            | gets _ => apply pres_gets
            | bind _ _ => apply pres_bind; [|intro]
            | when _ _ => apply pres_when
            | forEach _ _ => apply pres_forEach; intro
            | modify _ => apply pres_modify; solve [leaf]
            | match ?x with _ => _ end => destruct x
            | _ => unfold_model
            end ]
    end).

Ltac pres_frame := pres_walk ltac:(fail) ltac:(frame_leaf).

(** What the code leaves alone. *)

Lemma commit_keeps_step x b :
  preserves (fun m => currentStep (st m) = x) (commitEffects b).
Proof. pres_frame. Qed.

Lemma cleanup_keeps_checks x c :
  preserves (fun m => systemChecks (st m) = x) (cleanupSecureMode c).
Proof. pres_frame. Qed.

(* ================================================================== *)
(** ** The gate of the Verification step *)

Lemma handle_disabled_start m throws :
  startExamDisabled (st m) = true ->
  exec (handle (ClickStartExam throws)) m = m.
Proof.
  intros H. unfold handle, exec, bind, gets, when. cbn.
  rewrite H. rewrite andb_false_r. reflexivity.
Qed.

(** C9: in the verification step, while the camera check or the
    networkStable check is false the "Start Exam" button is disabled, a
    click on it does nothing and the step stays verification; so a click
    that leads to the exam step found both checks true. *)
Theorem start_exam_needs_camera_and_network m throws :
  currentStep (st m) = verification ->
  let m' := exec (step (ClickStartExam throws)) m in
  (camera (systemChecks (st m)) = false \/
   networkStable (systemChecks (st m)) = false ->
   startExamDisabled (st m) = true /\
   exec (handle (ClickStartExam throws)) m = m /\
   currentStep (st m') = verification) /\
  (currentStep (st m') = exam ->
   camera (systemChecks (st m)) = true /\
   networkStable (systemChecks (st m)) = true).
Proof.
  intros Hv m'.
  assert (Hoff : camera (systemChecks (st m)) = false \/
                 networkStable (systemChecks (st m)) = false ->
                 startExamDisabled (st m) = true /\
                 exec (handle (ClickStartExam throws)) m = m /\
                 currentStep (st m') = verification).
  { intros Hc.
    assert (Hd : startExamDisabled (st m) = true).
    { unfold startExamDisabled.
      destruct Hc as [Hc|Hc]; rewrite Hc; cbn;
        rewrite ?orb_true_r; reflexivity. }
    split; [exact Hd|]. split; [apply handle_disabled_start; exact Hd|].
    subst m'. unfold step. rewrite exec_bind.
    rewrite handle_disabled_start by exact Hd.
    apply commit_keeps_step. exact Hv. }
  split; [exact Hoff|].
  intros He.
  destruct (camera (systemChecks (st m))) eqn:Hcam;
    destruct (networkStable (systemChecks (st m))) eqn:Hnet;
    try (split; reflexivity).
  all: destruct Hoff as (_ & _ & Hs); [auto|]; rewrite Hs in He; discriminate.
Qed.

(** A machine waiting in the verification step with the network down. *)
Definition offlineVerification : Machine :=
  mkMachine
    (mkState verification true None None []
       (mkChecks true true true false false true) None false true)
    true closure0 true [] [] 1 None None
    (mkBrowser true false false true false (mkBattery true 1) 0) [].

Lemma start_exam_needs_camera_and_network_witness :
  currentStep (st offlineVerification) = verification /\
  networkStable (systemChecks (st offlineVerification)) = false /\
  currentStep (st (exec (step (ClickStartExam false)) offlineVerification))
    = verification.
Proof.
  split; [reflexivity|]. split; [reflexivity|].
  apply (start_exam_needs_camera_and_network offlineVerification false);
    [reflexivity | right; reflexivity].
Defined.

(* ================================================================== *)
(** ** Concrete sessions *)

(** A laptop on battery, online, with every optional API. *)
Definition laptop : Browser :=
  mkBrowser false false true true true (mkBattery false 0.5) 0.

Definition webcam : MediaStream := mkStream [1; 2].
Definition display : MediaStream := mkStream [3].

(** Every permission granted. *)
Definition allGranted : SetupEnv :=
  mkSetupEnv (Fulfilled webcam) (Fulfilled tt) (Some (Fulfilled tt)) None None
    (Fulfilled display).

(** Camera and fullscreen granted, screen share refused. *)
Definition screenRefused (cam : MediaStream) : SetupEnv :=
  mkSetupEnv (Fulfilled cam) (Fulfilled tt) (Some (Fulfilled tt)) None None
    Rejected.

(** The session after the agreement was accepted and setup went through. *)
Definition enterSecureMode : list Event :=
  [ChangeAgreement true; ClickEnterSecureMode allGranted].

Definition verifying : Machine := run (init laptop) enterSecureMode.

(* ================================================================== *)
(** ** Screen-share failure during Setup *)

(** [setupScreenShare] catches the rejection itself: the promise it returns
    never rejects, so the [.catch] of [startSecureSetup] cannot run. *)
Lemma setupScreenShare_never_rejects a o m :
  eval (setupScreenShare a o) m <> Rejected.
Proof.
  unfold setupScreenShare.
  destruct (getDisplayMedia o); repeat rewrite eval_bind; discriminate.
Qed.

(** C1, what the code does: with camera and fullscreen granted and screen
    share refused, setup does reach the verification step, but the refusal
    is logged as a Critical [screen-denied] that runs the termination (alert,
    cleanup, exit signal); no [screen-share-optional] warning is logged. *)
Theorem screen_share_failure_is_critical b cam :
  let m' := run (init b)
              [ChangeAgreement true; ClickEnterSecureMode (screenRefused cam)] in
  currentStep (st m') = verification /\
  hd_error (violations (st m')) =
    Some (mkViolation "screen-denied" (now b) critical
            "Screen sharing denied") /\
  countType "screen-share-optional" m' = 0 /\
  terminated m' = true /\
  In OnExitSecure (log m').
Proof.
  destruct b as [fe hid onl hasExit hasBat [chg lvl] t].
  destruct fe, hasExit, hasBat, chg; eval_m;
    repeat match goal with
    | |- context [PrimFloat.ltb ?x ?y] => destruct (PrimFloat.ltb x y)
    end;
    repeat split; try reflexivity; cbn; auto 10.
Qed.

(* ================================================================== *)
(** ** Termination *)

(** The calls [cleanupSecureMode] makes, for closure [c] in machine [m]. *)
Definition cleanupCalls (c : Closure) (m : Machine) : list Effect :=
  match c_cameraStream c with
  | Some s => map TrackStop (getTracks s)
  | None => []
  end ++
  match c_screenStream c with
  | Some s => map TrackStop (getTracks s)
  | None => []
  end ++
  (if hasExitFullscreen (browser m) && fullscreenElement (browser m)
   then [ExitFullscreen] else []) ++
  match heartbeatRef m with
  | Some id => [ClearInterval id]
  | None => []
  end.

(** The calls [handleSecurityTermination] makes. *)
Definition terminationCalls (c : Closure) (reason : string) (m : Machine)
  : list Effect :=
  match violationTimeoutRef m with
  | Some id => [ClearTimeout id]
  | None => []
  end ++
  [Alert (SecurityViolationDetected reason)] ++
  cleanupCalls c m ++ [OnExitSecure].

Ltac log_eq :=
  repeat rewrite <- app_assoc; cbn [app]; rewrite ?app_nil_r; reflexivity.

Lemma cleanup_log c m :
  log (exec (cleanupSecureMode c) m) = log m ++ cleanupCalls c m.
Proof.
  break_machine m.
  destruct c as [[?|] [?|]], mounted0, heartbeatRef0,
    hasExitFullscreen0, fullscreenElement0; eval_m; log_eq.
Qed.

Lemma termination_log c reason m :
  log (exec (handleSecurityTermination c reason) m) =
  log m ++ terminationCalls c reason m.
Proof.
  break_machine m.
  destruct c as [[?|] [?|]], mounted0, heartbeatRef0, violationTimeoutRef0,
    hasExitFullscreen0, fullscreenElement0; eval_m; log_eq.
Qed.

Lemma exits_app l1 l2 : exits (l1 ++ l2) = exits l1 + exits l2.
Proof. unfold exits. rewrite filter_app, length_app. reflexivity. Qed.

Lemma exits_TrackStop l : exits (map TrackStop l) = 0.
Proof. induction l; [reflexivity | exact IHl]. Qed.

Lemma exits_terminationCalls c reason m :
  exits (terminationCalls c reason m) = 1.
Proof.
  unfold terminationCalls, cleanupCalls.
  repeat rewrite exits_app.
  destruct (violationTimeoutRef m), (c_cameraStream c), (c_screenStream c),
    (hasExitFullscreen (browser m) && fullscreenElement (browser m)),
    (heartbeatRef m); rewrite ?exits_TrackStop; reflexivity.
Qed.

(** [n] calls in a row, all from the same render. *)
Fixpoint times (n : nat) (c : M unit) : M unit :=
  match n with
  | 0 => ret tt
  | S n' => c ;; times n' c
  end.

(** A session whose closure holds the camera stream. *)
Definition holdingCamera : Closure := mkClosure (Some webcam) None.

(** C3, as claimed, fails: a second call of [handleSecurityTermination]
    during the teardown of the first stops the tracks a second time and
    sends a second exit signal. *)
Lemma second_termination_repeats_effects :
  let once := exec (handleSecurityTermination holdingCamera "tab") verifying in
  let twice := exec (handleSecurityTermination holdingCamera "tab") once in
  exits (log once) = 1 /\ exits (log twice) = 2 /\
  stops 1 (log once) = 1 /\ stops 1 (log twice) = 2 /\
  log twice <> log once.
Proof. vm_compute. repeat split; discriminate. Qed.

(** C3, amended: [handleSecurityTermination] has no guard.  Every call,
    whatever ran before it, clears the violation timeout if one is set,
    shows the alert, makes the calls of [cleanupSecureMode] for the streams
    its closure holds and sends one exit signal; [n] calls send [n] exit
    signals.  The function is total: it does not throw. *)
Theorem termination_runs_on_every_call c reason m n :
  log (exec (handleSecurityTermination c reason) m) =
    log m ++ terminationCalls c reason m /\
  exits (log (exec (times n (handleSecurityTermination c reason)) m)) =
    exits (log m) + n.
Proof.
  split; [apply termination_log|].
  revert m. induction n as [|n IH]; intros m.
  - cbn. rewrite Nat.add_0_r. reflexivity.
  - cbn [times]. rewrite exec_bind, IH, termination_log, exits_app,
      exits_terminationCalls. lia.
Qed.

(* ================================================================== *)
(** ** Cleanup and the system checks *)

Definition isEnterSecureMode (e : Event) : bool :=
  match e with ClickEnterSecureMode _ => true | _ => false end.

(** No event of the list starts Setup. *)
Definition neverSetup (evs : list Event) : bool :=
  forallb (fun e => negb (isEnterSecureMode e)) evs.

(** Before Setup nothing is attached and nothing has been checked. *)
Definition pristine (m : Machine) : Prop :=
  systemChecks (st m) = checks0 /\
  currentStep (st m) = agreement /\
  isSecureMode (st m) = false /\
  effSecure m = false /\
  listeners m = [] /\
  timers m = [].

Lemma pristine_step e m :
  isEnterSecureMode e = false -> pristine m -> pristine (exec (step e) m).
Proof.
  intros He (Hc & Hs & Hm & Hf & Hl & Ht).
  break_machine m. cbn in Hc, Hs, Hm, Hf, Hl, Ht. subst.
  destruct e; try discriminate He;
    destruct mounted0, agreementAccepted0, isLoading0, heartbeatRef0,
      hasExitFullscreen0, fullscreenElement0;
    eval_all; repeat split.
Qed.

Lemma pristine_run evs :
  forall m, neverSetup evs = true -> pristine m -> pristine (run m evs).
Proof.
  induction evs as [|e evs IH]; intros m Hn Hp; [exact Hp|].
  cbn in Hn. apply andb_true_iff in Hn. destruct Hn as [He Hn].
  apply negb_true_iff in He.
  cbn [run fold_left]. apply IH; [exact Hn|].
  apply pristine_step; assumption.
Qed.

Lemma pristine_init b : pristine (init b).
Proof. repeat split. Qed.

(** C4, as claimed, fails: after a setup that went through, two cleanups
    in a row leave the camera, microphone and fullscreen checks true. *)
Lemma cleanup_twice_keeps_flags_true :
  let c := closureOf (st verifying) in
  systemChecks
    (st (exec (cleanupSecureMode c ;; cleanupSecureMode c) verifying)) =
  mkChecks true true true true true true.
Proof. vm_compute. reflexivity. Qed.

(** C4, amended: [cleanupSecureMode] is total and never writes the system
    checks: called once or twice in a row, from any state, it leaves every
    flag as it was.  So the flags are all false afterwards on a session
    that never started Setup, where they still have their initial value. *)
Theorem cleanup_leaves_system_checks c :
  (forall m,
     systemChecks (st (exec (cleanupSecureMode c) m)) = systemChecks (st m) /\
     systemChecks (st (exec (cleanupSecureMode c ;; cleanupSecureMode c) m))
       = systemChecks (st m)) /\
  (forall b evs,
     neverSetup evs = true ->
     systemChecks
       (st (exec (cleanupSecureMode c ;; cleanupSecureMode c)
              (run (init b) evs))) = checks0).
Proof.
  assert (H2 : forall m,
    systemChecks (st (exec (cleanupSecureMode c ;; cleanupSecureMode c) m))
      = systemChecks (st m)).
  { intros m. rewrite exec_bind.
    apply (cleanup_keeps_checks (systemChecks (st m)) c).
    apply (cleanup_keeps_checks (systemChecks (st m)) c).
    reflexivity. }
  split.
  - intros m. split; [|apply H2].
    apply (cleanup_keeps_checks (systemChecks (st m)) c). reflexivity.
  - intros b evs Hn. rewrite H2.
    apply (pristine_run evs (init b) Hn (pristine_init b)).
Qed.

Lemma cleanup_leaves_system_checks_witness :
  neverSetup [ChangeAgreement true; Blur; ClickCancel; Unmount] = true /\
  systemChecks
    (st (exec (cleanupSecureMode closure0 ;; cleanupSecureMode closure0)
           (run (init laptop)
              [ChangeAgreement true; Blur; ClickCancel; Unmount]))) = checks0.
Proof.
  split; [reflexivity|].
  apply (cleanup_leaves_system_checks closure0). reflexivity.
Defined.

(* ================================================================== *)
(** ** Listeners after teardown *)

(** A tab switch during verification: a Critical violation, so the session
    is torn down and the next render runs the effect cleanups. *)
Definition afterTeardown : Machine := run verifying [VisibilityChange true].

Definition lowBattery : Battery := mkBattery false 0.1.

(** One event of every signal that the first two effects listen to. *)
Definition detachedSignals : list Event :=
  [ FullscreenChange false; VisibilityChange true; Blur;
    KeyDown (mkKey "F12" false false false); ContextMenu; MouseLeave;
    Online; Offline; HeartbeatTick true ].

Definition silent (m : Machine) (e : Event) : bool :=
  Nat.eqb (List.length (violations (st (run m [e]))))
          (List.length (violations (st m))).

Definition isReport (e : Effect) : bool :=
  match e with OnSecurityViolation _ _ => true | _ => false end.

(** Number of violations reported to the housing page. *)
Definition reports (m : Machine) : nat :=
  List.length (filter isReport (log m)).

(** C7, what the code does: after the teardown the listeners and the
    timer of the security and network effects are gone and their signals
    log nothing, but the two battery listeners are still attached (the
    battery effect returns no cleanup), and a level change on a low battery
    logs one more [battery-low] violation.  Unmounting the component does
    not detach them either: the violation is still reported. *)
Theorem battery_listeners_survive_teardown :
  isSecureMode (st afterTeardown) = false /\
  map l_signal (listeners afterTeardown) = [chargingchange; levelchange] /\
  timers afterTeardown = [] /\
  forallb (silent afterTeardown) detachedSignals = true /\
  countType "battery-low" (run afterTeardown [LevelChange lowBattery]) =
    S (countType "battery-low" afterTeardown) /\
  silent afterTeardown (ChargingChange lowBattery) = false /\
  map l_signal (listeners (run afterTeardown [Unmount])) =
    [chargingchange; levelchange] /\
  reports (run afterTeardown [Unmount; LevelChange lowBattery]) =
    S (reports (run afterTeardown [Unmount])).
Proof. vm_compute. repeat split. Qed.

(* ================================================================== *)
(** ** Battery monitoring *)

(** Modelled on the words of the specification: the number of entries into
    the low-and-unplugged condition along a sequence of readings, [prev]
    telling whether the condition held before the first one. *)
Fixpoint transitionsIntoLow (prev : bool) (rs : list Battery) : nat :=
  match rs with
  | [] => 0
  | r :: rs' =>
      (if lowAndUnplugged r && negb prev then 1 else 0)
      + transitionsIntoLow (lowAndUnplugged r) rs'
  end.

(** The battery keeps draining, unplugged: 15%, 14%, 13%. *)
Definition draining : list Battery :=
  [mkBattery false 0.15; mkBattery false 0.14; mkBattery false 0.13].

(** C6, as claimed, fails: the condition is entered once and holds without
    interruption, yet each of the three level changes logs a warning. *)
Lemma battery_low_fires_on_every_event :
  lowAndUnplugged (battery (browser verifying)) = false /\
  forallb lowAndUnplugged draining = true /\
  transitionsIntoLow false draining = 1 /\
  countType "battery-low" verifying = 0 /\
  countType "battery-low" (run verifying (map LevelChange draining)) = 3.
Proof. vm_compute. repeat split. Qed.

(** Number of listeners attached for [sig]. *)
Definition attached (sig : Signal) (m : Machine) : nat :=
  List.length (filter (fun l => Signal_eqb (l_signal l) sig) (listeners m)).

Lemma countType_app ty vs v :
  List.length (filter (hasType ty) (vs ++ [v])) =
  List.length (filter (hasType ty) vs) + (if hasType ty v then 1 else 0).
Proof.
  rewrite filter_app, length_app. cbn [filter].
  destruct (hasType ty v); reflexivity.
Qed.

(** What [updateBatteryStatus] logs at the reading [r], at time [t]. *)
Definition batteryLowViolation (r : Battery) (t : nat) : SecurityViolation :=
  mkViolation "battery-low" t warning
    ("Battery level low: " ++ toFixed0 (percent r) ++ "%").

(** What [n] calls of [updateBatteryStatus] log at the reading [r]. *)
Definition batteryLowLogged (r : Battery) (t n : nat)
  : list SecurityViolation :=
  if lowAndUnplugged r then repeat (batteryLowViolation r t) n else [].

Lemma batteryLowLogged_S r t n :
  batteryLowLogged r t 1 ++ batteryLowLogged r t n = batteryLowLogged r t (S n).
Proof. unfold batteryLowLogged. destruct (lowAndUnplugged r); reflexivity. Qed.

Lemma batteryLowLogged_count r t n vs :
  List.length (filter (hasType "battery-low") (vs ++ batteryLowLogged r t n)) =
  List.length (filter (hasType "battery-low") vs)
  + (if lowAndUnplugged r then n else 0).
Proof.
  unfold batteryLowLogged. rewrite filter_app, length_app.
  destruct (lowAndUnplugged r); [|reflexivity].
  f_equal. induction n as [|n IH]; [reflexivity|].
  cbn [repeat filter]. change (hasType "battery-low" (batteryLowViolation r t))
    with true. cbn [List.length]. rewrite IH. reflexivity.
Qed.

Lemma updateBatteryStatus_logs a m :
  mounted m = true ->
  let m' := exec (updateBatteryStatus a) m in
  violations (st m') =
    violations (st m)
    ++ batteryLowLogged (battery (browser m)) (now (browser m)) 1 /\
  mounted m' = true /\
  browser m' = browser m /\
  isSecureMode (st m') = isSecureMode (st m) /\
  effSecure m' = effSecure m.
Proof.
  intros Hm. break_machine m. cbn in Hm. subst.
  destruct battery0 as [chg lvl].
  unfold batteryLowLogged, batteryLowViolation, lowAndUnplugged, percent.
  cbn [battery browser charging level now repeat].
  destruct chg; eval_m;
    repeat match goal with
    | |- context [PrimFloat.ltb ?x ?y] => destruct (PrimFloat.ltb x y)
    end;
    rewrite ?app_nil_r; repeat split.
Qed.

Lemma battery_listeners_log r l :
  forall m,
    mounted m = true ->
    battery (browser m) = r ->
    let m' := exec (forEach l (fun x => updateBatteryStatus (l_closure x))) m in
    violations (st m') =
      violations (st m) ++ batteryLowLogged r (now (browser m)) (List.length l) /\
    mounted m' = true /\
    isSecureMode (st m') = isSecureMode (st m) /\
    effSecure m' = effSecure m.
Proof.
  induction l as [|x l IH]; intros m Hm Hr; cbn zeta.
  - cbn [forEach List.length]. change (exec (ret tt) m) with m.
    unfold batteryLowLogged. cbn [repeat].
    destruct (lowAndUnplugged r); rewrite app_nil_r; auto.
  - cbn [forEach]. rewrite exec_bind.
    destruct (updateBatteryStatus_logs (l_closure x) m Hm)
      as (Hv & Hm' & Hb & Hs & He).
    specialize (IH (exec (updateBatteryStatus (l_closure x)) m) Hm').
    rewrite Hb in IH. specialize (IH Hr). cbn zeta in IH.
    destruct IH as (Hv2 & Hm2 & Hs2 & He2).
    rewrite Hv2, Hv, Hr, Hs2, He2, Hs, He. repeat split; try assumption.
    cbn [List.length]. rewrite <- app_assoc, batteryLowLogged_S. reflexivity.
Qed.

(** With nothing to commit, the render after an event changes nothing. *)
Lemma commit_noop m :
  effSecure m = isSecureMode (st m) -> exec (commitEffects false) m = m.
Proof.
  intros H. break_machine m. cbn in H. subst.
  destruct mounted0, isSecureMode0; reflexivity.
Qed.

Lemma battery_event_log sig r m :
  mounted m = true ->
  effSecure m = isSecureMode (st m) ->
  let m' :=
    exec (modify (with_browser (setBattery r)) ;;
          dispatch sig updateBatteryStatus ;;
          commitEffects false) m in
  violations (st m') =
    violations (st m) ++ batteryLowLogged r (now (browser m)) (attached sig m).
Proof.
  intros Hm He. cbn zeta.
  rewrite exec_bind. unfold dispatch at 1.
  rewrite exec_bind, exec_bind.
  set (m1 := exec (modify (with_browser (setBattery r))) m).
  assert (H1 : mounted m1 = true /\ battery (browser m1) = r /\
               violations (st m1) = violations (st m) /\
               now (browser m1) = now (browser m) /\
               isSecureMode (st m1) = isSecureMode (st m) /\
               effSecure m1 = effSecure m /\ listeners m1 = listeners m).
  { subst m1. break_machine m. cbn in Hm. subst. repeat split. }
  destruct H1 as (Hm1 & Hb1 & Hv1 & Hn1 & Hs1 & He1 & Hl1).
  change (exec (gets listeners) m1) with m1.
  change (eval (gets listeners) m1) with (listeners m1).
  cbn beta.
  destruct (battery_listeners_log r
              (filter (fun l => Signal_eqb (l_signal l) sig) (listeners m1))
              m1 Hm1 Hb1) as (Hv & Hm2 & Hs2 & He2).
  rewrite commit_noop by congruence.
  rewrite Hv, Hv1, Hn1, Hl1. reflexivity.
Qed.

Lemma battery_event_count sig r m :
  mounted m = true ->
  effSecure m = isSecureMode (st m) ->
  let m' :=
    exec (modify (with_browser (setBattery r)) ;;
          dispatch sig updateBatteryStatus ;;
          commitEffects false) m in
  countType "battery-low" m' =
    countType "battery-low" m
    + (if lowAndUnplugged r then attached sig m else 0).
Proof.
  intros Hm He. cbn zeta. unfold countType.
  rewrite (battery_event_log sig r m Hm He).
  apply batteryLowLogged_count.
Qed.

(** C6, amended: there is no debouncing.  In a mounted, rendered session
    every charging or level change event at which the battery is not
    charging and [battery.level * 100], the product of floats that the code
    compares, is below 20 logs one [battery-low] violation of severity
    Warning per attached battery listener, whatever the reading before it
    was; an event at which that does not hold logs nothing. *)
Theorem battery_low_on_every_low_event m r :
  mounted m = true ->
  effSecure m = isSecureMode (st m) ->
  let low :=
    mkViolation "battery-low" (now (browser m)) warning
      ("Battery level low: " ++ toFixed0 (PrimFloat.mul (level r) 100) ++ "%") in
  let logged n := if lowAndUnplugged r then repeat low n else [] in
  violations (st (exec (step (LevelChange r)) m)) =
    violations (st m) ++ logged (attached levelchange m) /\
  violations (st (exec (step (ChargingChange r)) m)) =
    violations (st m) ++ logged (attached chargingchange m) /\
  countType "battery-low" (exec (step (LevelChange r)) m) =
    countType "battery-low" m
    + (if lowAndUnplugged r then attached levelchange m else 0) /\
  countType "battery-low" (exec (step (ChargingChange r)) m) =
    countType "battery-low" m
    + (if lowAndUnplugged r then attached chargingchange m else 0).
Proof.
  intros Hm He. cbv zeta. repeat split.
  - apply (battery_event_log levelchange r m Hm He).
  - apply (battery_event_log chargingchange r m Hm He).
  - apply (battery_event_count levelchange r m Hm He).
  - apply (battery_event_count chargingchange r m Hm He).
Qed.

Lemma battery_low_on_every_low_event_witness :
  mounted verifying = true /\
  effSecure verifying = isSecureMode (st verifying) /\
  lowAndUnplugged lowBattery = true /\
  attached levelchange verifying = 1 /\
  violations (st (exec (step (LevelChange lowBattery)) verifying)) =
    violations (st verifying) ++
    (if lowAndUnplugged lowBattery
     then repeat
            (mkViolation "battery-low" (now (browser verifying)) warning
               ("Battery level low: "
                ++ toFixed0 (PrimFloat.mul (level lowBattery) 100) ++ "%"))
            (attached levelchange verifying)
     else []).
Proof.
  split; [reflexivity|]. split; [reflexivity|].
  split; [reflexivity|]. split; [reflexivity|].
  assert (Hm : mounted verifying = true) by reflexivity.
  assert (He : effSecure verifying = isSecureMode (st verifying))
    by reflexivity.
  exact (proj1 (battery_low_on_every_low_event verifying lowBattery Hm He)).
Defined.

(* ================================================================== *)
(** ** Blocked keys *)

(** Modelled on the words of the specification: the blocked set it lists. *)
Definition listedBlockedKeys : list string :=
  [ "F11"; "F12"; "Escape"; "PrintScreen"; "Insert"; "Delete"; "Meta";
    "Ctrl+Shift+I"; "Ctrl+Shift+J"; "Ctrl+U" ].

(** A keydown matches the listed set by its bare key or by its combo. *)
Definition matchesListed (e : KeyboardEvent) : bool :=
  includes listedBlockedKeys (key e) || includes listedBlockedKeys (combo e).

Definition altTab : KeyboardEvent := mkKey "Tab" false false true.

(** C8, as claimed, fails: Alt+Tab matches the listed set in neither form,
    yet its keydown is suppressed and logs a [blocked-key] warning. *)
Lemma alt_tab_is_blocked_too :
  matchesListed altTab = false /\
  let m' := run verifying [KeyDown altTab] in
  countType "blocked-key" m' = S (countType "blocked-key" verifying) /\
  In PreventDefault (log m').
Proof. vm_compute. repeat split; auto 20. Qed.

(** The set of the code is the listed one plus ["Alt+Tab"]. *)
Lemma includes_blockedKeys x :
  includes blockedKeys x =
  includes listedBlockedKeys x || String.eqb x "Alt+Tab".
Proof.
  unfold includes, blockedKeys, listedBlockedKeys. cbn [existsb].
  repeat match goal with
  | |- context [String.eqb x ?s] => destruct (String.eqb x s)
  end; reflexivity.
Qed.

(** What a blocked keydown logs. *)
Definition blockedKeyViolation (e : KeyboardEvent) (t : nat)
  : SecurityViolation :=
  mkViolation "blocked-key" t warning
    ("Attempted to use blocked key: " ++ combo e)%string.

Lemma handleKeyDown_spec e a m :
  mounted m = true ->
  let m' := exec (handleKeyDown e a) m in
  (isBlocked e = true ->
   violations (st m') =
     violations (st m) ++ [blockedKeyViolation e (now (browser m))] /\
   log m' =
     log m ++ [PreventDefault; StopPropagation;
               OnSecurityViolation (description
                 (blockedKeyViolation e (now (browser m)))) warning] /\
   isSecureMode (st m') = isSecureMode (st m) /\
   effSecure m' = effSecure m) /\
  (isBlocked e = false -> m' = m).
Proof.
  intros Hm. break_machine m. cbn in Hm. subst.
  cbn zeta. unfold handleKeyDown.
  split; intros Hb; rewrite Hb; [|reflexivity].
  eval_m. repeat split. log_eq.
Qed.

(** *** The listeners of a rendered session *)

(** The listeners match the last effect run. *)
Definition wiredListeners (m : Machine) : Prop :=
  map l_signal (domListeners m) =
  if mounted m && effSecure m then domSignals else [].

(** A rendered session: the effects have seen the current [isSecureMode]. *)
Definition wired (m : Machine) : Prop :=
  wiredListeners m /\ (mounted m = true -> effSecure m = isSecureMode (st m)).

Lemma filter_dom_battery ls :
  filter isDomListener
    (filter (fun l => isBatterySignal (l_signal l)) ls) = [].
Proof.
  induction ls as [|l ls IH]; [reflexivity|].
  cbn [filter]. destruct (isBatterySignal (l_signal l)) eqn:E; [|exact IH].
  cbn [filter]. unfold isDomListener at 1. rewrite E. exact IH.
Qed.

Lemma map_nil_inv {A B} (f : A -> B) l : map f l = [] -> l = [].
Proof. destruct l; [reflexivity | discriminate]. Qed.

Lemma commit_wired b m : wiredListeners m -> wired (exec (commitEffects b) m).
Proof.
  unfold wired, wiredListeners, domListeners.
  break_machine m. cbn [listeners mounted effSecure st isSecureMode].
  intros H. destruct battery0 as [chg lvl].
  destruct mounted0, b, isSecureMode0, effSecure0; cbn [andb] in H;
    try apply map_nil_inv in H;
    destruct heartbeatRef0, hasGetBattery0, chg; eval_m;
    repeat match goal with
    | |- context [PrimFloat.ltb ?x ?y] => destruct (PrimFloat.ltb x y)
    end;
    eval_m;
    repeat rewrite filter_app; rewrite ?filter_dom_battery, ?H;
    split; (reflexivity || discriminate || (intros _; reflexivity) || idtac).
Qed.

Definition isUnmount (e : Event) : bool :=
  match e with Unmount => true | _ => false end.

(** Handlers attach and detach nothing: only effects do. *)
Lemma handle_keeps_wiring ls mt ef e :
  isUnmount e = false ->
  preserves (fun m => listeners m = ls /\ mounted m = mt /\ effSecure m = ef)
    (handle e).
Proof. intros H. destruct e; try discriminate H; pres_frame. Qed.

Lemma unmount_wired m :
  wiredListeners m -> wiredListeners (exec (handle Unmount) m).
Proof.
  unfold wiredListeners, domListeners.
  break_machine m. cbn [listeners mounted effSecure].
  intros H.
  destruct mounted0, effSecure0; cbn [andb] in H;
    try apply map_nil_inv in H;
    destruct heartbeatRef0, hasExitFullscreen0, fullscreenElement0; eval_m;
    rewrite ?filter_dom_battery, ?H; reflexivity.
Qed.

Lemma handle_wired e m :
  wiredListeners m -> wiredListeners (exec (handle e) m).
Proof.
  intros H. destruct (isUnmount e) eqn:E.
  - destruct e; try discriminate E. apply unmount_wired, H.
  - destruct (handle_keeps_wiring (listeners m) (mounted m) (effSecure m)
                e E m) as (Hl & Hm & He); [repeat split|].
    unfold wiredListeners, domListeners in *. rewrite Hl, Hm, He. exact H.
Qed.

Lemma step_wired e m : wired m -> wired (exec (step e) m).
Proof.
  intros [H _]. unfold step. rewrite exec_bind.
  apply commit_wired, handle_wired, H.
Qed.

Lemma run_wired evs : forall m, wired m -> wired (run m evs).
Proof.
  induction evs as [|e evs IH]; intros m H; [exact H|].
  cbn [run fold_left]. apply IH, step_wired, H.
Qed.

Lemma init_wired b : wired (init b).
Proof. split; [reflexivity | intros _; reflexivity]. Qed.

(** In secure mode exactly one listener is attached for every signal of
    the security and network effects. *)
Lemma wired_single sig ls :
  map l_signal (filter isDomListener ls) = domSignals ->
  In sig domSignals ->
  exists l, filter (fun x => Signal_eqb (l_signal x) sig) ls = [l].
Proof.
  intros H Hin.
  assert (E : filter (fun x => Signal_eqb (l_signal x) sig) ls =
              filter (fun x => Signal_eqb (l_signal x) sig)
                (filter isDomListener ls)).
  { clear H. induction ls as [|l ls IH]; [reflexivity|].
    cbn [filter]. destruct (isDomListener l) eqn:Ed.
    - cbn [filter]. rewrite IH. reflexivity.
    - replace (Signal_eqb (l_signal l) sig) with false; [exact IH|].
      unfold isDomListener in Ed. apply negb_false_iff in Ed.
      destruct (l_signal l); try discriminate Ed;
        cbn in Hin; intuition (subst; reflexivity). }
  rewrite E. clear E.
  destruct (filter isDomListener ls) as [|l1 [|l2 [|l3 [|l4 [|l5 [|l6 [|l7
    [|l8 [|l9 D]]]]]]]]]; try discriminate H.
  cbn in H. injection H as H1 H2 H3 H4 H5 H6 H7 H8.
  cbn [filter]. rewrite H1, H2, H3, H4, H5, H6, H7, H8.
  cbn in Hin.
  repeat (destruct Hin as [Hin|Hin]; [subst sig; cbn; eexists; reflexivity|]).
  contradiction.
Qed.

Lemma dispatch_single sig h l m :
  filter (fun x => Signal_eqb (l_signal x) sig) (listeners m) = [l] ->
  exec (dispatch sig h) m = exec (h (l_closure l)) m.
Proof.
  intros H. unfold dispatch. rewrite exec_bind.
  change (eval (gets listeners) m) with (listeners m).
  change (exec (gets listeners) m) with m.
  rewrite H. cbn [forEach]. rewrite exec_bind. reflexivity.
Qed.

(** C8, amended: the blocked set of the code is the listed one plus the
    combo ["Alt+Tab"].  In a mounted session in secure mode, a keydown whose
    bare key or composed combo is in that set logs exactly one Warning
    [blocked-key] violation, after [preventDefault] and [stopPropagation];
    any other keydown changes nothing. *)
Theorem blocked_keydown_logged_once b evs e :
  let m := run (init b) evs in
  mounted m = true ->
  isSecureMode (st m) = true ->
  let m' := exec (step (KeyDown e)) m in
  (isBlocked e = true ->
   violations (st m') =
     violations (st m) ++ [blockedKeyViolation e (now (browser m))] /\
   log m' =
     log m ++ [PreventDefault; StopPropagation;
               OnSecurityViolation (description
                 (blockedKeyViolation e (now (browser m)))) warning]) /\
  (isBlocked e = false -> m' = m) /\
  isBlocked e =
    matchesListed e
    || String.eqb (key e) "Alt+Tab" || String.eqb (combo e) "Alt+Tab".
Proof.
  intros m Hm Hs m'.
  destruct (run_wired evs (init b) (init_wired b)) as [Hw He].
  fold m in Hw, He. specialize (He Hm).
  unfold wiredListeners in Hw. rewrite Hm, He, Hs in Hw. cbn [andb] in Hw.
  destruct (wired_single keydown (listeners m) Hw) as [l Hl];
    [cbn; tauto|].
  assert (Hstep : m' = exec (commitEffects false)
                         (exec (handleKeyDown e (l_closure l)) m)).
  { subst m'. unfold step. rewrite exec_bind. cbn [handle isPropsChange].
    rewrite (dispatch_single keydown (handleKeyDown e) l m Hl).
    reflexivity. }
  destruct (handleKeyDown_spec e (l_closure l) m Hm) as [Hyes Hno].
  cbn zeta in Hyes, Hno.
  split; [|split].
  - intros Hb. destruct (Hyes Hb) as (Hv & Hg & Hsec & Heff).
    rewrite Hstep, commit_noop by congruence. split; assumption.
  - intros Hb. rewrite Hstep, (Hno Hb). apply commit_noop. congruence.
  - unfold isBlocked, matchesListed. rewrite !includes_blockedKeys.
    destruct (includes listedBlockedKeys (key e)),
      (includes listedBlockedKeys (combo e)),
      (String.eqb (key e) "Alt+Tab"), (String.eqb (combo e) "Alt+Tab");
      reflexivity.
Qed.

Lemma blocked_keydown_logged_once_witness :
  mounted (run (init laptop) enterSecureMode) = true /\
  isSecureMode (st (run (init laptop) enterSecureMode)) = true /\
  isBlocked altTab = true /\
  violations
    (st (exec (step (KeyDown altTab)) (run (init laptop) enterSecureMode))) =
  violations (st (run (init laptop) enterSecureMode))
    ++ [blockedKeyViolation altTab
          (now (browser (run (init laptop) enterSecureMode)))].
Proof.
  assert (Hm : mounted (run (init laptop) enterSecureMode) = true)
    by reflexivity.
  assert (Hs : isSecureMode (st (run (init laptop) enterSecureMode)) = true)
    by reflexivity.
  assert (Hb : isBlocked altTab = true) by reflexivity.
  split; [exact Hm|]. split; [exact Hs|]. split; [exact Hb|].
  exact (proj1 (proj1 (blocked_keydown_logged_once laptop enterSecureMode
                         altTab Hm Hs) Hb)).
Defined.

(* ================================================================== *)
(** ** Termination and Critical violations *)
















(** Without listeners for it, a signal reaches nobody. *)
Lemma dispatch_none sig h m :
  isBatterySignal sig = false ->
  domListeners m = [] ->
  exec (dispatch sig h) m = m.
Proof.
  intros Hs Hd. unfold dispatch. rewrite exec_bind.
  change (eval (gets listeners) m) with (listeners m).
  change (exec (gets listeners) m) with m.
  replace (filter (fun l => Signal_eqb (l_signal l) sig) (listeners m))
    with (@nil Listener); [reflexivity|].
  unfold domListeners in Hd. symmetry.
  induction (listeners m) as [|l ls IH]; [reflexivity|].
  cbn [filter] in *. unfold isDomListener in Hd at 1.
  destruct (isBatterySignal (l_signal l)) eqn:E; cbn [negb] in Hd;
    [|discriminate Hd].
  replace (Signal_eqb (l_signal l) sig) with false; [exact (IH Hd)|].
  destruct (l_signal l), sig; try discriminate; reflexivity.
Qed.






(** *** The phase *)

Definition inSecurePhase (s : State) : bool :=
  match currentStep s with
  | verification | exam => true
  | agreement | setup => false
  end.





(** Warnings only: blur, a blocked key, a failed heartbeat. *)
Definition warningsOnly : list Event :=
  enterSecureMode ++ [Blur; KeyDown altTab; HeartbeatTick true].


(* ================================================================== *)
(** ** The noOtherApps check *)

Definition otherApps (m : Machine) : bool := noOtherApps (systemChecks (st m)).

Definition setNoOtherApps (x : bool) (p : SystemChecks) : SystemChecks :=
  mkChecks (camera p) (microphone p) (fullscreen p) (networkStable p)
    (batteryLevel p) x.

(** The machine with its noOtherApps flag overwritten. *)
Definition withNoOtherApps (x : bool) (m : Machine) : Machine :=
  with_st (fun s => mkState (currentStep s) (isSecureMode s) (cameraStream s)
    (screenStream s) (violations s) (setNoOtherApps x (systemChecks s))
    (examStartTime s) (isLoading s) (agreementAccepted s)) m.

(** Two machines that differ at most in the noOtherApps flag. *)
Definition alike (m1 m2 : Machine) : Prop :=
  withNoOtherApps false m1 = withNoOtherApps false m2.

(** [c] does not read the flag: on machines that are alike it returns the
    same value and leaves machines that are alike. *)
Definition blind {A} (c : M A) : Prop :=
  forall m1 m2, alike m1 m2 ->
    eval c m1 = eval c m2 /\ alike (exec c m1) (exec c m2).

Lemma blind_ret {A} (a : A) : blind (ret a).
Proof. intros m1 m2 H. split; [reflexivity | exact H]. Qed.

Lemma blind_gets {A} (f : Machine -> A) :
  (forall m1 m2, alike m1 m2 -> f m1 = f m2) -> blind (gets f).
Proof. intros Hf m1 m2 H. split; [apply Hf, H | exact H]. Qed.

Lemma blind_modify f :
  (forall m1 m2, alike m1 m2 -> alike (f m1) (f m2)) -> blind (modify f).
Proof. intros Hf m1 m2 H. split; [reflexivity | apply Hf, H]. Qed.

Lemma blind_bind {A B} (c : M A) (k : A -> M B) :
  blind c -> (forall a, blind (k a)) -> blind (bind c k).
Proof.
  intros Hc Hk m1 m2 H. rewrite !exec_bind, !eval_bind.
  destruct (Hc m1 m2 H) as [He Hx]. rewrite He. apply Hk, Hx.
Qed.

Lemma blind_when b (c : M unit) : blind c -> blind (when b c).
Proof. intros Hc. destruct b; [exact Hc | apply blind_ret]. Qed.

Lemma blind_forEach {A} (l : list A) (f : A -> M unit) :
  (forall a, blind (f a)) -> blind (forEach l f).
Proof.
  intros Hf. induction l as [|a l IH]; [apply blind_ret|].
  cbn [forEach]. apply blind_bind; [apply Hf | intros _; exact IH].
Qed.

(** Machines that are alike agree on every field but the flag. *)
Ltac alike_leaf :=
  intros [[? ? ? ? ? [] ? ? ?] [] ? ? ? ? ? ? ? ? ?]
         [[? ? ? ? ? [] ? ? ?] [] ? ? ? ? ? ? ? ? ?] H;
  unfold alike, withNoOtherApps, with_st in H; cbn in H;
  try discriminate H;
  injection H; intros; subst; reflexivity.

(** Walks through the code, as [pres_walk] does. *)
Ltac blind_walk known :=
  repeat (cbv beta iota zeta;
    lazymatch goal with
    | |- blind ?c =>
        first
          [ known
          | lazymatch c with
            | ret _ => apply blind_ret
            | gets _ => apply blind_gets; solve [alike_leaf]
            | bind _ _ => apply blind_bind; [|intro]
            | when _ _ => apply blind_when
            | forEach _ _ => apply blind_forEach; intro
            | modify _ => apply blind_modify; solve [alike_leaf]
            | match ?x with _ => _ end => destruct x
            | _ => unfold_model
            end ]
    end).

Lemma emit_blind e : blind (emit e).
Proof. blind_walk ltac:(fail). Qed.

Lemma setCurrentStep_blind x : blind (setCurrentStep x).
Proof. blind_walk ltac:(fail). Qed.

Lemma setIsSecureMode_blind x : blind (setIsSecureMode x).
Proof. blind_walk ltac:(fail). Qed.

Lemma setIsLoading_blind x : blind (setIsLoading x).
Proof. blind_walk ltac:(fail). Qed.

Lemma setCameraStream_blind x : blind (setCameraStream x).
Proof. blind_walk ltac:(fail). Qed.

Lemma setScreenStream_blind x : blind (setScreenStream x).
Proof. blind_walk ltac:(fail). Qed.

Ltac blind_setters :=
  idtac;
  lazymatch goal with
  | |- blind (emit _) => apply emit_blind
  | |- blind (setCurrentStep _) => apply setCurrentStep_blind
  | |- blind (setIsSecureMode _) => apply setIsSecureMode_blind
  | |- blind (setIsLoading _) => apply setIsLoading_blind
  | |- blind (setCameraStream _) => apply setCameraStream_blind
  | |- blind (setScreenStream _) => apply setScreenStream_blind
  end.

Lemma cleanupSecureMode_blind c : blind (cleanupSecureMode c).
Proof. blind_walk ltac:(blind_setters). Qed.

Lemma addViolation_blind c ty sev d : blind (addViolation c ty sev d).
Proof.
  unfold addViolation, handleSecurityTermination.
  blind_walk ltac:(first [apply cleanupSecureMode_blind | blind_setters]).
Qed.

Lemma handleSecurityTermination_blind c r :
  blind (handleSecurityTermination c r).
Proof.
  unfold handleSecurityTermination.
  blind_walk ltac:(first [apply cleanupSecureMode_blind | blind_setters]).
Qed.

Ltac blind_known :=
  idtac;
  lazymatch goal with
  | |- blind (addViolation _ _ _ _) => apply addViolation_blind
  | |- blind (handleSecurityTermination _ _) =>
      apply handleSecurityTermination_blind
  | |- blind (cleanupSecureMode _) => apply cleanupSecureMode_blind
  | |- _ => blind_setters
  end.

(** No handler and no effect reads the flag. *)
Lemma step_blind e : blind (step e).
Proof. destruct e; blind_walk ltac:(blind_known). Qed.

(** Once set, the flag is never cleared: not by a handler, not by an
    effect, not by cleanup. *)
Lemma step_keeps_otherApps e :
  preserves (fun m => otherApps m = true) (step e).
Proof. unfold otherApps. destruct e; pres_frame. Qed.

Lemma step_keeps_otherApps_commit b :
  preserves (fun m => otherApps m = true) (commitEffects b).
Proof. unfold otherApps. pres_frame. Qed.

(** The preview is drawn in the verification step only: not during setup. *)
Lemma setup_step_hides_preview m :
  cameraRef (exec (setCurrentStep setup) m) = false.
Proof. destruct m as [[] [] ? ? ? ? ? ? ? ? ?]; reflexivity. Qed.

(** While the preview is not in the document [setupCamera] does not touch
    it: the camera is acquired as soon as [getUserMedia] grants it. *)
Lemma setupCamera_without_preview a o stream m :
  cameraRef m = false ->
  getUserMedia o = Fulfilled stream ->
  setupCamera a o m =
  (setCameraStream (Some stream) ;;
   setSystemChecks setCameraMicrophone ;;
   ret (Fulfilled true)) m.
Proof.
  intros Hv Hg. unfold setupCamera. rewrite Hg.
  destruct m as [[step ? ? ? ? ? ? ? ?] [] ? ? ? ? ? ? ? ? ?];
    [destruct step; try discriminate Hv|]; reflexivity.
Qed.

(** What the three acquisition functions return depends on the browser's
    answers only. *)
Lemma setupCamera_rejected a o m :
  cameraFails o = true -> eval (setupCamera a o) m = Fulfilled false.
Proof.
  unfold setupCamera, cameraFails.
  destruct (getUserMedia o); [discriminate|].
  intros _. repeat rewrite eval_bind. reflexivity.
Qed.

Lemma setupCamera_result a o m :
  cameraRef m = false ->
  eval (setupCamera a o) m = Fulfilled (negb (cameraFails o)).
Proof.
  intros Hv. destruct (cameraFails o) eqn:Hc.
  - apply setupCamera_rejected, Hc.
  - unfold cameraFails in Hc.
    destruct (getUserMedia o) as [stream|] eqn:Hg; [|discriminate Hc].
    unfold eval. rewrite (setupCamera_without_preview a o stream m Hv Hg).
    reflexivity.
Qed.

Lemma enterFullscreen_result a o m :
  eval (enterFullscreen a o) m = Fulfilled (fullscreenOk o).
Proof.
  unfold enterFullscreen, fullscreenOk.
  destruct (fullscreenRequest o) as [[[]|]|];
    repeat rewrite eval_bind; reflexivity.
Qed.

Lemma setupCamera_keeps_mounted a o :
  preserves (fun m => mounted m = true) (setupCamera a o).
Proof. pres_frame. Qed.

Lemma enterFullscreen_keeps_mounted a o :
  preserves (fun m => mounted m = true) (enterFullscreen a o).
Proof. pres_frame. Qed.

Lemma setupScreenShare_keeps_mounted a o :
  preserves (fun m => mounted m = true) (setupScreenShare a o).
Proof. pres_frame. Qed.

(** Step 4 of the setup, reached whatever the screen share did. *)
Lemma final_checks_set_flag (pre : M unit) m :
  preserves (fun m => mounted m = true) pre ->
  mounted m = true ->
  let k := pre ;;
           b <- gets browser ;;
           setSystemChecks (setFinalChecks (onLine b)) ;;
           setIsSecureMode true ;;
           setCurrentStep verification ;;
           ret Normal in
  eval k m = Normal /\
  mounted (exec k m) = true /\ otherApps (exec k m) = true /\
  currentStep (st (exec k m)) = verification.
Proof.
  intros Hpre Hm k. subst k.
  rewrite eval_bind, exec_bind.
  specialize (Hpre m Hm). cbv beta in Hpre.
  destruct (exec pre m) as [[] mnt ? ? ? ? ? ? ? ? ?].
  cbn in Hpre. subst mnt. repeat split.
Qed.

Lemma trySecureSetup_success a o m :
  cameraFails o = false ->
  fullscreenOk o = true ->
  mounted m = true ->
  cameraRef m = false ->
  eval (trySecureSetup a o) m = Normal /\
  mounted (exec (trySecureSetup a o) m) = true /\
  otherApps (exec (trySecureSetup a o) m) = true /\
  currentStep (st (exec (trySecureSetup a o) m)) = verification.
Proof.
  intros Hc Hf Hm Hv. unfold trySecureSetup.
  rewrite eval_bind, exec_bind, (setupCamera_result a o m Hv), Hc. cbn [negb].
  rewrite eval_bind, exec_bind, enterFullscreen_result, Hf.
  rewrite eval_bind, exec_bind.
  assert (Hm2 : mounted (exec (enterFullscreen a o)
                           (exec (setupCamera a o) m)) = true).
  { apply enterFullscreen_keeps_mounted, setupCamera_keeps_mounted, Hm. }
  assert (Hm3 : mounted (exec (setupScreenShare a o)
                           (exec (enterFullscreen a o)
                              (exec (setupCamera a o) m))) = true).
  { apply setupScreenShare_keeps_mounted, Hm2. }
  apply final_checks_set_flag; [|exact Hm3].
  destruct (eval (setupScreenShare a o) _); pres_frame.
Qed.

Lemma setup_success_sets_flag m o :
  shown agreement m = true ->
  enterDisabled (st m) = false ->
  cameraFails o = false ->
  fullscreenOk o = true ->
  otherApps (exec (step (ClickEnterSecureMode o)) m) = true /\
  currentStep (st (exec (step (ClickEnterSecureMode o)) m)) = verification.
Proof.
  intros Hs Hd Hc Hf.
  assert (Hm : mounted m = true).
  { unfold shown in Hs. apply andb_true_iff in Hs. apply Hs. }
  assert (Ha : agreementAccepted (st m) = true).
  { unfold enterDisabled in Hd. apply orb_false_iff in Hd.
    destruct Hd as [Hd _]. apply negb_false_iff in Hd. exact Hd. }
  unfold step. rewrite exec_bind.
  assert (H : mounted (exec (handle (ClickEnterSecureMode o)) m) = true /\
              otherApps (exec (handle (ClickEnterSecureMode o)) m) = true /\
              currentStep (st (exec (handle (ClickEnterSecureMode o)) m))
                = verification).
  { cbn [handle]. rewrite exec_bind, exec_gets, eval_gets, Hs, Hd.
    cbn [negb andb when].
    unfold startSecureSetup. rewrite exec_bind, exec_gets, eval_gets, Ha.
    cbn [negb].
    repeat rewrite exec_bind. repeat rewrite exec_gets.
    repeat rewrite eval_gets.
    set (m1 := exec (setCurrentStep setup) (exec (setIsLoading true) m)).
    assert (Hm1 : mounted m1 = true).
    { subst m1. destruct m as [[] [] ? ? ? ? ? ? ? ? ?];
        [reflexivity | discriminate Hm]. }
    destruct (trySecureSetup_success (memo m) o m1 Hc Hf Hm1
                (setup_step_hides_preview _))
      as (Hn & Hm2 & Ho & Hv).
    rewrite Hn.
    destruct (exec (trySecureSetup (memo m) o) m1)
      as [[] mnt ? ? ? ? ? ? ? ? ?].
    cbn in Hm2. subst mnt. repeat split; assumption. }
  destruct H as (Hm' & Ho & Hv). split.
  - apply step_keeps_otherApps_commit. exact Ho.
  - apply commit_keeps_step. exact Hv.
Qed.

Lemma withNoOtherApps_alike x m : alike (withNoOtherApps x m) m.
Proof. destruct m as [[? ? ? ? ? [] ? ? ?] ? ? ? ? ? ? ? ? ? ?]. reflexivity. Qed.

(** C10: a setup in which camera and fullscreen are acquired ends with
    [noOtherApps] true, whatever the browser answered otherwise; no later
    step clears the flag; and no step reads it: run from two machines
    that differ only in the flag, a step logs the same violations, makes
    the same calls and reaches the same state, the flag apart. *)
Theorem noOtherApps_assumed_and_unused :
  (forall m o,
     shown agreement m = true ->
     enterDisabled (st m) = false ->
     cameraFails o = false ->
     fullscreenOk o = true ->
     otherApps (exec (step (ClickEnterSecureMode o)) m) = true) /\
  (forall e m,
     otherApps m = true -> otherApps (exec (step e) m) = true) /\
  (forall e x m,
     alike (exec (step e) (withNoOtherApps x m)) (exec (step e) m)).
Proof.
  split; [|split].
  - intros m o Hs Hd Hc Hf.
    apply (setup_success_sets_flag m o Hs Hd Hc Hf).
  - intros e m. apply step_keeps_otherApps.
  - intros e x m. apply step_blind, withNoOtherApps_alike.
Qed.

(** The session once the agreement is accepted. *)
Definition accepting : list Event := [ChangeAgreement true].

Lemma noOtherApps_assumed_and_unused_witness :
  shown agreement (run (init laptop) accepting) = true /\
  enterDisabled (st (run (init laptop) accepting)) = false /\
  cameraFails allGranted = false /\
  fullscreenOk allGranted = true /\
  otherApps (exec (step (ClickEnterSecureMode allGranted))
               (run (init laptop) accepting)) = true.
Proof.
  assert (Hs : shown agreement (run (init laptop) accepting) = true)
    by reflexivity.
  assert (Hd : enterDisabled (st (run (init laptop) accepting)) = false)
    by reflexivity.
  assert (Hc : cameraFails allGranted = false) by reflexivity.
  assert (Hf : fullscreenOk allGranted = true) by reflexivity.
  repeat (split; [assumption|]).
  exact (proj1 noOtherApps_assumed_and_unused
           (run (init laptop) accepting) allGranted Hs Hd Hc Hf).
Defined.

(* ================================================================== *)
(** ** Camera failure during Setup *)

(** What the click on an enabled "Enter Secure Mode" button runs. *)
Lemma enabled_click_runs_setup m o :
  shown agreement m = true ->
  enterDisabled (st m) = false ->
  exec (handle (ClickEnterSecureMode o)) m =
  exec (setIsLoading false)
    (exec
       (match eval (trySecureSetup (memo m) o)
                (exec (setCurrentStep setup) (exec (setIsLoading true) m))
        with
        | Throw _ =>
            emit (ConsoleError "Secure setup failed:") ;;
            cleanupSecureMode (closureOf (st m)) ;;
            emit (Alert SetupFailed) ;;
            setCurrentStep agreement
        | Normal => ret tt
        end)
       (exec (trySecureSetup (memo m) o)
          (exec (setCurrentStep setup) (exec (setIsLoading true) m)))).
Proof.
  intros Hs Hd.
  assert (Ha : agreementAccepted (st m) = true).
  { unfold enterDisabled in Hd. apply orb_false_iff in Hd.
    destruct Hd as [Hd _]. apply negb_false_iff in Hd. exact Hd. }
  cbn [handle]. rewrite exec_bind, exec_gets, eval_gets, Hs, Hd.
  cbn [negb andb when].
  unfold startSecureSetup. rewrite exec_bind, exec_gets, eval_gets, Ha.
  cbn [negb].
  repeat rewrite exec_bind. repeat rewrite exec_gets.
  repeat rewrite eval_gets. reflexivity.
Qed.

(** What a state hook holds while the component is mounted. *)
Definition holds (vs : list SecurityViolation) (x : Step) (m : Machine)
  : Prop :=
  mounted m = true /\ violations (st m) = vs /\ currentStep (st m) = x.

Lemma termination_keeps_hooks vs x c reason :
  preserves (holds vs x) (handleSecurityTermination c reason).
Proof. unfold holds. pres_frame. Qed.

(** A violation is appended to the log, stamped with the current time. *)
Lemma addViolation_appends c ty sev d m :
  mounted m = true ->
  holds (violations (st m) ++ [mkViolation ty (now (browser m)) sev d])
    (currentStep (st m)) (exec (addViolation c ty sev d) m).
Proof.
  intros Hm. unfold addViolation.
  do 3 rewrite exec_bind. rewrite exec_gets, eval_gets.
  assert (H : holds
                (violations (st m) ++ [mkViolation ty (now (browser m)) sev d])
                (currentStep (st m))
                (exec (emit (OnSecurityViolation d sev))
                   (exec (setViolations
                            (fun prev =>
                               prev ++ [mkViolation ty (now (browser m)) sev d]))
                      m))).
  { destruct m as [[] [] ? ? ? ? ? ? ? ? ?]; [|discriminate Hm].
    repeat split. }
  destruct sev; [exact H | apply termination_keeps_hooks, H].
Qed.

Lemma setupCamera_failure a o m :
  cameraFails o = true ->
  mounted m = true ->
  holds (violations (st m) ++
           [mkViolation "camera-denied" (now (browser m)) critical
              "Camera access denied or unavailable"])
    (currentStep (st m)) (exec (setupCamera a o) m).
Proof.
  intros Hc Hm.
  assert (Herr : forall m0,
            mounted m0 = true ->
            violations (st m0) = violations (st m) ->
            currentStep (st m0) = currentStep (st m) ->
            now (browser m0) = now (browser m) ->
            holds (violations (st m) ++
                     [mkViolation "camera-denied" (now (browser m)) critical
                        "Camera access denied or unavailable"])
              (currentStep (st m))
              (exec (emit (ConsoleError "Camera setup failed:") ;;
                     addViolation a "camera-denied" critical
                       "Camera access denied or unavailable" ;;
                     ret (@Fulfilled bool false)) m0)).
  { intros m0 H0 Hv Hs Hn. do 2 rewrite exec_bind.
    change (exec (ret ?x) ?y) with y.
    set (m1 := exec (emit (ConsoleError "Camera setup failed:")) m0).
    assert (H1 : mounted m1 = true /\ violations (st m1) = violations (st m) /\
                 currentStep (st m1) = currentStep (st m) /\
                 now (browser m1) = now (browser m)).
    { subst m1. destruct m0. cbn in *. auto. }
    destruct H1 as (Hm1 & Hv1 & Hs1 & Hn1).
    rewrite <- Hv1, <- Hs1, <- Hn1. apply addViolation_appends, Hm1. }
  unfold setupCamera, cameraFails in *. cbv zeta.
  destruct (getUserMedia o) as [stream|]; [discriminate Hc|].
  apply Herr; auto.
Qed.

Lemma trySecureSetup_camera_failure a o m :
  cameraFails o = true ->
  eval (trySecureSetup a o) m = Throw "Camera setup failed" /\
  exec (trySecureSetup a o) m = exec (setupCamera a o) m.
Proof.
  intros Hc. unfold trySecureSetup.
  rewrite eval_bind, exec_bind, (setupCamera_rejected a o m Hc).
  split; reflexivity.
Qed.

(** The log only grows. *)
Ltac log_leaf :=
  intros [[? ? ? ? ? ? ? ? ?] [] ? ? ? ? ? ? ? ? ?] ?;
  first [assumption | apply in_or_app; left; assumption].

Lemma commit_keeps_log x b :
  preserves (fun m => In x (log m)) (commitEffects b).
Proof. pres_walk ltac:(fail) ltac:(log_leaf). Qed.

Lemma commit_keeps_hooks vs x b :
  preserves (fun m => isSecureMode (st m) = false /\ isLoading (st m) = false
                      /\ violations (st m) = vs /\ currentStep (st m) = x)
    (commitEffects b).
Proof.
  intros m (Hs & Hl & Hv & Hx).
  assert (H : isLoading (st (exec (commitEffects b) m)) = false /\
              violations (st (exec (commitEffects b) m)) = vs /\
              currentStep (st (exec (commitEffects b) m)) = x /\
              isSecureMode (st (exec (commitEffects b) m)) = false).
  { revert m Hs Hl Hv Hx.
    assert (K : preserves
                  (fun m => isLoading (st m) = false /\ currentStep (st m) = x
                            /\ isSecureMode (st m) = false)
                  (commitEffects b)) by pres_frame.
    intros m Hs Hl Hv Hx.
    destruct (K m (conj Hl (conj Hx Hs))) as (K1 & K2 & K3).
    repeat split; try assumption.
    clear K K1 K2 K3.
    break_machine m. cbn in Hs, Hv. subst.
    destruct mounted0, b, effSecure0, heartbeatRef0; reflexivity. }
  tauto.
Qed.

Lemma cleanup_turns_secure_mode_off c m :
  mounted m = true ->
  isSecureMode (st (exec (cleanupSecureMode c) m)) = false.
Proof.
  intros Hm. break_machine m. cbn in Hm. subst.
  destruct c as [[?|] [?|]], heartbeatRef0, hasExitFullscreen0,
    fullscreenElement0; reflexivity.
Qed.

(** The [catch] and [finally] blocks of [startSecureSetup]. *)
Lemma setup_rollback vs c m :
  holds vs setup m ->
  let m' :=
    exec (setIsLoading false)
      (exec (emit (ConsoleError "Secure setup failed:") ;;
             cleanupSecureMode c ;;
             emit (Alert SetupFailed) ;;
             setCurrentStep agreement) m) in
  (isSecureMode (st m') = false /\ isLoading (st m') = false /\
   violations (st m') = vs /\ currentStep (st m') = agreement) /\
  In (Alert SetupFailed) (log m') /\
  (forall s t,
     c_cameraStream c = Some s \/ c_screenStream c = Some s ->
     In t (getTracks s) -> In (TrackStop t) (log m')).
Proof.
  intros (Hm & Hv & Hs). cbn zeta.
  do 3 rewrite exec_bind.
  set (m1 := exec (emit (ConsoleError "Secure setup failed:")) m).
  set (m2 := exec (cleanupSecureMode c) m1).
  assert (H1 : mounted m1 = true /\ violations (st m1) = vs).
  { subst m1. destruct m. cbn in *. auto. }
  assert (H2 : mounted m2 = true /\ isSecureMode (st m2) = false /\
               violations (st m2) = vs).
  { assert (K : preserves (fun m => mounted m = true /\ violations (st m) = vs)
                  (cleanupSecureMode c)) by pres_frame.
    destruct (K m1 H1) as [K1 K2]. fold m2 in K1, K2.
    repeat split; try assumption.
    apply cleanup_turns_secure_mode_off, H1. }
  destruct H2 as (Hm2 & Hs2 & Hv2).
  assert (Hlog : forall x, In x (log m2) ->
            In x (log (exec (setIsLoading false)
                         (exec (setCurrentStep agreement)
                            (exec (emit (Alert SetupFailed)) m2))))).
  { intros x Hx. destruct m2 as [[] [] ? ? ? ? ? ? ? ? ?].
    - cbn in *. apply in_or_app. left. exact Hx.
    - discriminate Hm2. }
  split; [|split].
  - destruct m2 as [[] [] ? ? ? ? ? ? ? ? ?]; [|discriminate Hm2].
    cbn in *. subst. repeat split.
  - destruct m2 as [[] [] ? ? ? ? ? ? ? ? ?]; [|discriminate Hm2].
    cbn. apply in_or_app. right. left. reflexivity.
  - intros s t Hc Ht. apply Hlog. subst m2. rewrite cleanup_log.
    apply in_or_app. right. unfold cleanupCalls.
    destruct Hc as [Hc|Hc]; rewrite Hc.
    + apply in_or_app. left. apply in_map, Ht.
    + apply in_or_app. right. apply in_or_app. left. apply in_map, Ht.
Qed.

(** C5: when camera acquisition fails, [setupCamera] returns [false]
    rather than throwing and the session, then in the setup step, has
    logged exactly one more violation, a Critical [camera-denied]; the click
    on "Enter Secure Mode" ends in the agreement step with secure mode off
    and nothing loading, after a cleanup that stopped every track held when
    the button was clicked and after the setup-failed alert. *)
Theorem camera_failure_rolls_back m o :
  shown agreement m = true ->
  enterDisabled (st m) = false ->
  cameraFails o = true ->
  let failed :=
    exec (setupCamera (memo m) o)
      (exec (setCurrentStep setup) (exec (setIsLoading true) m)) in
  let m' := exec (step (ClickEnterSecureMode o)) m in
  let logged :=
    violations (st m) ++
      [mkViolation "camera-denied" (now (browser m)) critical
         "Camera access denied or unavailable"] in
  eval (setupCamera (memo m) o) m = Fulfilled false /\
  currentStep (st failed) = setup /\
  violations (st failed) = logged /\
  currentStep (st m') = agreement /\
  isSecureMode (st m') = false /\
  isLoading (st m') = false /\
  violations (st m') = logged /\
  In (Alert SetupFailed) (log m') /\
  (forall s t,
     cameraStream (st m) = Some s \/ screenStream (st m) = Some s ->
     In t (getTracks s) -> In (TrackStop t) (log m')).
Proof.
  intros Hs Hd Hc failed m' logged.
  assert (Hm : mounted m = true).
  { unfold shown in Hs. apply andb_true_iff in Hs. apply Hs. }
  assert (H1 : holds (violations (st m)) setup
                 (exec (setCurrentStep setup) (exec (setIsLoading true) m)) /\
               now (browser (exec (setCurrentStep setup)
                               (exec (setIsLoading true) m)))
               = now (browser m)).
  { destruct m as [[] [] ? ? ? ? ? ? ? ? ?]; [|discriminate Hm].
    repeat split. }
  destruct H1 as [(Hm1 & Hv1 & Hs1) Hn1].
  assert (Hf : holds logged setup failed).
  { subst failed logged.
    set (m1 := exec (setCurrentStep setup) (exec (setIsLoading true) m)) in *.
    pose proof (setupCamera_failure (memo m) o m1 Hc Hm1) as Hf.
    rewrite Hv1, Hs1, Hn1 in Hf. exact Hf. }
  destruct (setup_rollback logged (closureOf (st m)) failed Hf)
    as (Hhooks & Halert & Htracks).
  assert (Hstep : m' =
            exec (commitEffects false)
              (exec (setIsLoading false)
                 (exec (emit (ConsoleError "Secure setup failed:") ;;
                        cleanupSecureMode (closureOf (st m)) ;;
                        emit (Alert SetupFailed) ;;
                        setCurrentStep agreement) failed))).
  { subst m' failed. unfold step. rewrite exec_bind.
    rewrite (enabled_click_runs_setup m o Hs Hd).
    destruct (trySecureSetup_camera_failure (memo m) o
                (exec (setCurrentStep setup) (exec (setIsLoading true) m)) Hc)
      as [He Hx].
    rewrite He, Hx. reflexivity. }
  destruct Hf as (_ & Hfv & Hfs).
  split; [apply setupCamera_rejected, Hc|].
  split; [exact Hfs|]. split; [exact Hfv|].
  rewrite Hstep.
  destruct (commit_keeps_hooks logged agreement false _ Hhooks)
    as (Ks & Kl & Kv & Kx).
  repeat (split; [assumption|]).
  split.
  - apply commit_keeps_log, Halert.
  - intros s t Hheld Ht. apply commit_keeps_log.
    apply (Htracks s t); assumption.
Qed.

(** The camera permission is refused. *)
Definition cameraDenied : SetupEnv :=
  mkSetupEnv Rejected (Fulfilled tt) (Some (Fulfilled tt)) None None
    (Fulfilled display).

Lemma camera_failure_rolls_back_witness :
  shown agreement (run (init laptop) accepting) = true /\
  enterDisabled (st (run (init laptop) accepting)) = false /\
  cameraFails cameraDenied = true /\
  currentStep
    (st (exec (step (ClickEnterSecureMode cameraDenied))
           (run (init laptop) accepting))) = agreement.
Proof.
  assert (Hs : shown agreement (run (init laptop) accepting) = true)
    by reflexivity.
  assert (Hd : enterDisabled (st (run (init laptop) accepting)) = false)
    by reflexivity.
  assert (Hc : cameraFails cameraDenied = true) by reflexivity.
  repeat (split; [assumption|]).
  exact (proj1 (proj2 (proj2 (proj2
           (camera_failure_rolls_back (run (init laptop) accepting)
              cameraDenied Hs Hd Hc))))).
Defined.

(* ================================================================== *)
(** * Further properties of the component *)

(** Unfolds the record updates and projections of a machine at hand. *)
Ltac project :=
  cbv beta iota delta
    [with_st with_log with_browser with_listeners with_timers with_effSecure
     with_memo with_mounted setHeartbeat closureOf
     st mounted memo effSecure listeners timers nextTimer heartbeatRef
     violationTimeoutRef browser log
     currentStep isSecureMode cameraStream screenStream violations
     systemChecks examStartTime isLoading agreementAccepted].

(** ** The violation log is append-only *)

(** The log of [m] starts with [vs]. *)
Definition extends (vs : list SecurityViolation) (m : Machine) : Prop :=
  exists more, violations (st m) = vs ++ more.

Ltac extends_leaf :=
  intros [[? ? ? ? ? ? ? ? ?] [] ? ? ? ? ? ? ? ? ?];
  unfold extends; project; intros [more H];
  first [ exists more; exact H
        | rewrite H; eexists; rewrite <- app_assoc; reflexivity ].

Lemma step_extends vs e : preserves (extends vs) (step e).
Proof. destruct e; pres_walk ltac:(fail) ltac:(extends_leaf). Qed.

(** X1: no event removes, rewrites or reorders a logged violation: after
    any sequence of events the log is the old log followed by the entries
    added since. *)
Theorem violation_log_append_only m evs :
  exists more, violations (st (run m evs)) = violations (st m) ++ more.
Proof.
  change (extends (violations (st m)) (run m evs)).
  assert (H : extends (violations (st m)) m).
  { exists []. rewrite app_nil_r. reflexivity. }
  revert H. generalize (violations (st m)) as vs. revert m.
  induction evs as [|e evs IH]; intros m vs H; [exact H|].
  cbn [run fold_left]. apply IH, step_extends, H.
Qed.

(** ** Every logged violation is reported *)

Definition reported (m : Machine) : Prop :=
  List.length (violations (st m)) <= reports m /\
  (mounted m = true -> reports m = List.length (violations (st m))).

Lemma reports_other l e :
  isReport e = false ->
  List.length (filter isReport (l ++ [e])) = List.length (filter isReport l).
Proof.
  intros H. rewrite filter_app, length_app. cbn [filter]. rewrite H.
  cbn. lia.
Qed.

Lemma reports_stops l ts :
  List.length (filter isReport (l ++ map TrackStop ts))
  = List.length (filter isReport l).
Proof.
  rewrite filter_app, length_app.
  replace (filter isReport (map TrackStop ts)) with (@nil Effect);
    [cbn; lia|].
  induction ts; [reflexivity | exact IHts].
Qed.

Ltac reported_leaf :=
  intros [[? ? ? ? ? ? ? ? ?] [] ? ? ? ? ? ? ? ? ?];
  unfold reported, reports; project;
  rewrite ?reports_stops, ?reports_other by reflexivity;
  intuition (try discriminate; try lia).

Lemma addViolation_reported c ty sev d :
  preserves reported (addViolation c ty sev d).
Proof.
  intros m H. unfold addViolation. do 3 rewrite exec_bind.
  rewrite exec_gets, eval_gets.
  assert (H2 : reported
                 (exec (emit (OnSecurityViolation d sev))
                    (exec (setViolations
                             (fun prev =>
                                prev ++ [mkViolation ty (now (browser m)) sev d]))
                       m))).
  { revert H. destruct m as [[? ? ? ? ? ? ? ? ?] [] ? ? ? ? ? ? ? ? ?];
      unfold reported, reports; cbn; rewrite ?filter_app, ?length_app; cbn;
      intuition (try discriminate; try lia). }
  revert H2. generalize (exec (emit (OnSecurityViolation d sev))
    (exec (setViolations
             (fun prev => prev ++ [mkViolation ty (now (browser m)) sev d]))
       m)).
  clear. intros m H. destruct sev; [exact H|]. revert m H.
  change (preserves reported (handleSecurityTermination c d)).
  pres_walk ltac:(fail) ltac:(reported_leaf).
Qed.

Ltac known_reported :=
  idtac;
  lazymatch goal with
  | |- preserves _ (addViolation _ _ _ _) => apply addViolation_reported
  end.

Lemma step_reported e : preserves reported (step e).
Proof. destruct e; pres_walk ltac:(known_reported) ltac:(reported_leaf). Qed.

Lemma run_reported evs : forall m, reported m -> reported (run m evs).
Proof.
  induction evs as [|e evs IH]; intros m H; [exact H|].
  cbn [run fold_left]. apply IH, step_reported, H.
Qed.

(** X2: at every point of a session every logged violation has been
    reported to the housing page: the log is never longer than the number of
    [onSecurityViolation] calls, and as long as the component is mounted
    the two are equal. *)
Theorem every_violation_is_reported b evs :
  List.length (violations (st (run (init b) evs)))
    <= reports (run (init b) evs) /\
  (mounted (run (init b) evs) = true ->
   reports (run (init b) evs)
   = List.length (violations (st (run (init b) evs)))).
Proof.
  apply run_reported. split; [apply le_n | reflexivity].
Qed.

Lemma every_violation_is_reported_witness :
  mounted (run (init laptop) warningsOnly) = true /\
  reports (run (init laptop) warningsOnly)
  = List.length (violations (st (run (init laptop) warningsOnly))).
Proof.
  assert (Hm : mounted (run (init laptop) warningsOnly) = true)
    by reflexivity.
  split; [exact Hm|].
  exact (proj2 (every_violation_is_reported laptop warningsOnly) Hm).
Defined.

(** ** Setup that goes through *)

(** The checks that the acquisitions have set. *)
Definition acquired (m : Machine) : Prop :=
  mounted m = true /\
  camera (systemChecks (st m)) = true /\
  microphone (systemChecks (st m)) = true.

Lemma setupCamera_acquires a o m :
  cameraFails o = false -> mounted m = true -> cameraRef m = false ->
  acquired (exec (setupCamera a o) m).
Proof.
  intros Hc Hm Hv. unfold cameraFails in Hc.
  destruct (getUserMedia o) as [stream|] eqn:Hg; [|discriminate Hc].
  unfold exec. rewrite (setupCamera_without_preview a o stream m Hv Hg).
  destruct m as [[? ? ? ? ? [] ? ? ?] [] ? ? ? ? ? ? ? ? ?];
    try discriminate Hm; repeat split.
Qed.

Lemma enterFullscreen_sets_check a o m :
  fullscreenOk o = true -> mounted m = true ->
  fullscreen (systemChecks (st (exec (enterFullscreen a o) m))) = true.
Proof.
  intros Hf Hm. unfold enterFullscreen, fullscreenOk in *.
  destruct (fullscreenRequest o) as [[[]|]|]; try discriminate Hf;
    repeat rewrite exec_bind;
    destruct m as [[? ? ? ? ? [] ? ? ?] [] ? ? ? ? ? ? ? ? ?];
    try discriminate Hm; reflexivity.
Qed.

Lemma enterFullscreen_keeps_acquired a o :
  preserves acquired (enterFullscreen a o).
Proof. unfold acquired. pres_frame. Qed.

Definition ready (m : Machine) : Prop :=
  acquired m /\ fullscreen (systemChecks (st m)) = true.

Lemma setupScreenShare_keeps_ready a o :
  preserves ready (setupScreenShare a o).
Proof. unfold ready, acquired. pres_frame. Qed.

Lemma warning_keeps_ready a ty d :
  preserves ready (addViolation a ty warning d).
Proof. unfold ready, acquired. pres_frame. Qed.

(** What the session holds at the end of a setup that went through. *)
Definition verified (online : bool) (m : Machine) : Prop :=
  currentStep (st m) = verification /\
  isSecureMode (st m) = true /\
  isLoading (st m) = false /\
  camera (systemChecks (st m)) = true /\
  microphone (systemChecks (st m)) = true /\
  fullscreen (systemChecks (st m)) = true /\
  networkStable (systemChecks (st m)) = online /\
  noOtherApps (systemChecks (st m)) = true.

Lemma commit_keeps_verified online b :
  preserves (verified online) (commitEffects b).
Proof. unfold verified. pres_frame. Qed.

(** A property of the browser that a state update does not touch. *)
Ltac browser_leaf :=
  intros [? [] ? ? ? ? ? ? ? [] ?] ?; first [assumption | reflexivity].

Lemma onLine_untouched x a o :
  preserves (fun m => onLine (browser m) = x) (setupCamera a o) /\
  preserves (fun m => onLine (browser m) = x) (enterFullscreen a o) /\
  preserves (fun m => onLine (browser m) = x) (setupScreenShare a o).
Proof.
  repeat split;
    pres_walk ltac:(fail) ltac:(browser_leaf).
Qed.

Lemma setup_success_verified m o :
  shown agreement m = true ->
  enterDisabled (st m) = false ->
  cameraFails o = false ->
  fullscreenOk o = true ->
  verified (onLine (browser m)) (exec (handle (ClickEnterSecureMode o)) m).
Proof.
  intros Hs Hd Hc Hf.
  assert (Hm : mounted m = true).
  { unfold shown in Hs. apply andb_true_iff in Hs. apply Hs. }
  rewrite (enabled_click_runs_setup m o Hs Hd).
  set (m1 := exec (setCurrentStep setup) (exec (setIsLoading true) m)).
  assert (H1 : mounted m1 = true /\ onLine (browser m1) = onLine (browser m)).
  { subst m1. destruct m as [[] [] ? ? ? ? ? ? ? ? ?]; [|discriminate Hm].
    split; reflexivity. }
  destruct H1 as [Hm1 Ho1].
  assert (Hv1 : cameraRef m1 = false) by apply setup_step_hides_preview.
  destruct (trySecureSetup_success (memo m) o m1 Hc Hf Hm1 Hv1) as (Hn & _).
  rewrite Hn. change (exec (ret tt) ?x) with x.
  unfold trySecureSetup.
  rewrite exec_bind, (setupCamera_result (memo m) o m1 Hv1), Hc. cbn [negb].
  rewrite exec_bind, enterFullscreen_result, Hf.
  rewrite exec_bind.
  set (m2 := exec (setupCamera (memo m) o) m1).
  set (m3 := exec (enterFullscreen (memo m) o) m2).
  set (m4 := exec (setupScreenShare (memo m) o) m3).
  destruct (onLine_untouched (onLine (browser m)) (memo m) o)
    as (O1 & O2 & O3).
  assert (A2 : acquired m2) by (apply setupCamera_acquires; assumption).
  assert (R3 : ready m3).
  { split; [apply enterFullscreen_keeps_acquired, A2|].
    apply enterFullscreen_sets_check; [exact Hf | apply A2]. }
  assert (R4 : ready m4) by apply setupScreenShare_keeps_ready, R3.
  assert (O4 : onLine (browser m4) = onLine (browser m))
    by apply O3, O2, O1, Ho1.
  rewrite exec_bind.
  set (m5 := exec
               match eval (setupScreenShare (memo m) o) m3 with
               | Fulfilled _ => ret tt
               | Rejected =>
                   addViolation (memo m) "screen-share-optional" warning
                     "Screen sharing not available"
               end m4).
  assert (R5 : ready m5 /\ onLine (browser m5) = onLine (browser m)).
  { subst m5. destruct (eval (setupScreenShare (memo m) o) m3).
    - split; assumption.
    - split; [apply warning_keeps_ready, R4|].
      revert O4. generalize m4.
      change (preserves (fun m0 => onLine (browser m0) = onLine (browser m))
                (addViolation (memo m) "screen-share-optional" warning
                   "Screen sharing not available")).
      pres_walk ltac:(fail) ltac:(browser_leaf). }
  destruct R5 as [((Hm5 & Hcam & Hmic) & Hfs) O5].
  repeat rewrite exec_bind. rewrite exec_gets, eval_gets.
  change (exec (ret Normal) ?x) with x.
  rewrite O5.
  destruct m5 as [[? ? ? ? ? [] ? ? ?] [] ? ? ? ? ? ? ? ? ?];
    [|discriminate Hm5].
  cbn in Hcam, Hmic, Hfs. subst. repeat split.
Qed.

(** X3: a setup in which camera and fullscreen are acquired ends in the
    verification step with secure mode on and nothing loading, the camera,
    microphone and fullscreen checks true, and [networkStable] equal to
    [navigator.onLine], whatever the screen share answered. *)
Theorem setup_success_reaches_verification m o :
  shown agreement m = true ->
  enterDisabled (st m) = false ->
  cameraFails o = false ->
  fullscreenOk o = true ->
  verified (onLine (browser m)) (exec (step (ClickEnterSecureMode o)) m).
Proof.
  intros Hs Hd Hc Hf. unfold step. rewrite exec_bind.
  apply commit_keeps_verified, setup_success_verified; assumption.
Qed.

Lemma setup_success_reaches_verification_witness :
  shown agreement (run (init laptop) accepting) = true /\
  enterDisabled (st (run (init laptop) accepting)) = false /\
  cameraFails allGranted = false /\
  fullscreenOk allGranted = true /\
  verified (onLine (browser (run (init laptop) accepting)))
    (exec (step (ClickEnterSecureMode allGranted))
       (run (init laptop) accepting)).
Proof.
  assert (Hs : shown agreement (run (init laptop) accepting) = true)
    by reflexivity.
  assert (Hd : enterDisabled (st (run (init laptop) accepting)) = false)
    by reflexivity.
  assert (Hc : cameraFails allGranted = false) by reflexivity.
  assert (Hf : fullscreenOk allGranted = true) by reflexivity.
  repeat (split; [assumption|]).
  exact (setup_success_reaches_verification
           (run (init laptop) accepting) allGranted Hs Hd Hc Hf).
Defined.

(** ** Fullscreen failure during Setup *)

Lemma enterFullscreen_failure a o m :
  fullscreenOk o = false ->
  mounted m = true ->
  holds (violations (st m) ++
           [mkViolation "fullscreen-denied" (now (browser m)) critical
              "Fullscreen mode denied"])
    (currentStep (st m)) (exec (enterFullscreen a o) m).
Proof.
  intros Hf Hm. unfold enterFullscreen, fullscreenOk in *.
  destruct (fullscreenRequest o) as [[[]|]|]; try discriminate Hf.
  do 2 rewrite exec_bind. change (exec (ret ?x) ?y) with y.
  set (m1 := exec (emit (ConsoleError "Fullscreen failed:")) m).
  assert (H1 : mounted m1 = true /\ violations (st m1) = violations (st m) /\
               currentStep (st m1) = currentStep (st m) /\
               now (browser m1) = now (browser m)).
  { subst m1. destruct m. cbn in *. auto. }
  destruct H1 as (Hm1 & Hv1 & Hs1 & Hn1).
  rewrite <- Hv1, <- Hs1, <- Hn1. apply addViolation_appends, Hm1.
Qed.

Lemma setupCamera_success_holds a o m :
  cameraFails o = false ->
  mounted m = true ->
  cameraRef m = false ->
  holds (violations (st m)) (currentStep (st m)) (exec (setupCamera a o) m) /\
  now (browser (exec (setupCamera a o) m)) = now (browser m).
Proof.
  intros Hc Hm Hv. unfold cameraFails in Hc.
  destruct (getUserMedia o) as [stream|] eqn:Hg; [|discriminate Hc].
  unfold exec. rewrite (setupCamera_without_preview a o stream m Hv Hg).
  destruct m as [[] [] ? ? ? ? ? ? ? ? ?];
    try discriminate Hm; repeat split.
Qed.

Lemma trySecureSetup_fullscreen_failure a o m :
  cameraFails o = false ->
  fullscreenOk o = false ->
  cameraRef m = false ->
  eval (trySecureSetup a o) m = Throw "Fullscreen setup failed" /\
  exec (trySecureSetup a o) m
  = exec (enterFullscreen a o) (exec (setupCamera a o) m).
Proof.
  intros Hc Hf Hv. unfold trySecureSetup.
  rewrite eval_bind, exec_bind, (setupCamera_result a o m Hv), Hc.
  cbn [negb].
  rewrite eval_bind, exec_bind, enterFullscreen_result, Hf.
  split; reflexivity.
Qed.

(** The checks of the camera survive everything but a new setup. *)
Lemma rollback_keeps_acquired c b :
  preserves acquired
    (emit (ConsoleError "Secure setup failed:") ;;
     cleanupSecureMode c ;;
     emit (Alert SetupFailed) ;;
     setCurrentStep agreement) /\
  preserves acquired (setIsLoading false) /\
  preserves acquired (commitEffects b).
Proof. unfold acquired. split; [|split]; pres_frame. Qed.

(** X4: when the camera is acquired and the fullscreen request is
    rejected, exactly one violation is logged, a Critical
    [fullscreen-denied], and the click ends in the agreement step with secure
    mode off, after the setup-failed alert; the camera and microphone checks
    that the first step had set stay true. *)
Theorem fullscreen_failure_rolls_back m o :
  shown agreement m = true ->
  enterDisabled (st m) = false ->
  cameraFails o = false ->
  fullscreenOk o = false ->
  let m' := exec (step (ClickEnterSecureMode o)) m in
  currentStep (st m') = agreement /\
  isSecureMode (st m') = false /\
  isLoading (st m') = false /\
  violations (st m') =
    violations (st m) ++
      [mkViolation "fullscreen-denied" (now (browser m)) critical
         "Fullscreen mode denied"] /\
  In (Alert SetupFailed) (log m') /\
  camera (systemChecks (st m')) = true /\
  microphone (systemChecks (st m')) = true.
Proof.
  intros Hs Hd Hc Hf m'.
  assert (Hm : mounted m = true).
  { unfold shown in Hs. apply andb_true_iff in Hs. apply Hs. }
  set (m1 := exec (setCurrentStep setup) (exec (setIsLoading true) m)).
  assert (H1 : holds (violations (st m)) setup m1 /\
               now (browser m1) = now (browser m)).
  { subst m1. destruct m as [[] [] ? ? ? ? ? ? ? ? ?]; [|discriminate Hm].
    repeat split. }
  destruct H1 as [(Hm1 & Hv1 & Hs1) Hn1].
  assert (Hp1 : cameraRef m1 = false) by apply setup_step_hides_preview.
  set (m2 := exec (setupCamera (memo m) o) m1).
  destruct (setupCamera_success_holds (memo m) o m1 Hc Hm1 Hp1)
    as [(Hm2 & Hv2 & Hs2) Hn2]. fold m2 in Hm2, Hv2, Hs2, Hn2.
  assert (A2 : acquired m2) by (apply setupCamera_acquires; assumption).
  set (m3 := exec (enterFullscreen (memo m) o) m2).
  pose proof (enterFullscreen_failure (memo m) o m2 Hf Hm2) as H3.
  fold m3 in H3. rewrite Hv2, Hs2, Hn2, Hv1, Hs1, Hn1 in H3.
  assert (A3 : acquired m3) by apply enterFullscreen_keeps_acquired, A2.
  destruct (setup_rollback _ (closureOf (st m)) m3 H3)
    as (Hhooks & Halert & _).
  assert (Hstep : m' =
            exec (commitEffects false)
              (exec (setIsLoading false)
                 (exec (emit (ConsoleError "Secure setup failed:") ;;
                        cleanupSecureMode (closureOf (st m)) ;;
                        emit (Alert SetupFailed) ;;
                        setCurrentStep agreement) m3))).
  { subst m' m3 m2 m1. unfold step. rewrite exec_bind.
    rewrite (enabled_click_runs_setup m o Hs Hd).
    destruct (trySecureSetup_fullscreen_failure (memo m) o
                (exec (setCurrentStep setup) (exec (setIsLoading true) m))
                Hc Hf (setup_step_hides_preview _)) as [He Hx].
    rewrite He, Hx. reflexivity. }
  rewrite Hstep.
  destruct (commit_keeps_hooks _ agreement false _ Hhooks)
    as (Ks & Kl & Kv & Kx).
  destruct (rollback_keeps_acquired (closureOf (st m)) false)
    as (R1 & R2 & R3).
  destruct (R3 _ (R2 _ (R1 _ A3))) as (_ & Kc & Kmic).
  repeat (split; [assumption|]).
  split; [apply commit_keeps_log, Halert|]. split; assumption.
Qed.

(** The camera is granted, the fullscreen request is rejected. *)
Definition fullscreenDenied : SetupEnv :=
  mkSetupEnv (Fulfilled webcam) (Fulfilled tt) (Some Rejected) None None
    (Fulfilled display).

Lemma fullscreen_failure_rolls_back_witness :
  shown agreement (run (init laptop) accepting) = true /\
  enterDisabled (st (run (init laptop) accepting)) = false /\
  cameraFails fullscreenDenied = false /\
  fullscreenOk fullscreenDenied = false /\
  currentStep
    (st (exec (step (ClickEnterSecureMode fullscreenDenied))
           (run (init laptop) accepting))) = agreement.
Proof.
  assert (Hs : shown agreement (run (init laptop) accepting) = true)
    by reflexivity.
  assert (Hd : enterDisabled (st (run (init laptop) accepting)) = false)
    by reflexivity.
  assert (Hc : cameraFails fullscreenDenied = false) by reflexivity.
  assert (Hf : fullscreenOk fullscreenDenied = false) by reflexivity.
  repeat (split; [assumption|]).
  exact (proj1 (fullscreen_failure_rolls_back
                  (run (init laptop) accepting) fullscreenDenied
                  Hs Hd Hc Hf)).
Defined.

(** ** What a first attempt leaves running *)

Lemma stops_other t l e :
  isStopOf t e = false ->
  List.length (filter (isStopOf t) (l ++ [e]))
  = List.length (filter (isStopOf t) l).
Proof.
  intros H. rewrite filter_app, length_app. cbn [filter]. rewrite H.
  cbn. lia.
Qed.

(** The camera stream is [s] and track [t] was stopped [n] times. *)
Definition running (s : MediaStream) (t n : nat) (m : Machine) : Prop :=
  cameraStream (st m) = Some s /\ stops t (log m) = n.

Ltac running_leaf :=
  intros [[? ? ? ? ? ? ? ? ?] [] ? ? ? ? ? ? ? ? ?];
  unfold running, stops; project;
  rewrite ?stops_other by reflexivity;
  intuition (try discriminate; try congruence).

(** The cleanup of the first render holds no stream: it stops nothing. *)
Lemma first_cleanup_keeps_running s t n :
  preserves (running s t n) (cleanupSecureMode closure0).
Proof.
  unfold cleanupSecureMode. cbn [c_cameraStream c_screenStream closure0].
  pres_walk ltac:(fail) ltac:(running_leaf).
Qed.

Ltac known_running :=
  idtac;
  lazymatch goal with
  | |- preserves _ (cleanupSecureMode closure0) =>
      apply first_cleanup_keeps_running
  end.

Lemma first_attempt_keeps_running s t n o b :
  preserves (running s t n) (enterFullscreen closure0 o) /\
  preserves (running s t n)
    (emit (ConsoleError "Secure setup failed:") ;;
     cleanupSecureMode closure0 ;;
     emit (Alert SetupFailed) ;;
     setCurrentStep agreement) /\
  preserves (running s t n) (setIsLoading false) /\
  preserves (running s t n) (commitEffects b).
Proof.
  split; [|split; [|split]];
    pres_walk ltac:(known_running) ltac:(running_leaf).
Qed.

(** X5: on an attempt made while no stream is held and the termination
    closure is still the one of the first render, a rejected fullscreen
    request rolls the setup back without stopping any track: the camera
    stream just acquired stays stored and running. *)
Theorem fullscreen_failure_leaves_camera_running m o s :
  shown agreement m = true ->
  enterDisabled (st m) = false ->
  getUserMedia o = Fulfilled s ->
  cameraFails o = false ->
  fullscreenOk o = false ->
  memo m = closure0 ->
  closureOf (st m) = closure0 ->
  let m' := exec (step (ClickEnterSecureMode o)) m in
  cameraStream (st m') = Some s /\
  forall t, stops t (log m') = stops t (log m).
Proof.
  intros Hs Hd Hg Hc Hf Hmemo Hclo m'.
  assert (Hm : mounted m = true).
  { unfold shown in Hs. apply andb_true_iff in Hs. apply Hs. }
  assert (Hstep : m' =
            exec (commitEffects false)
              (exec (setIsLoading false)
                 (exec (emit (ConsoleError "Secure setup failed:") ;;
                        cleanupSecureMode closure0 ;;
                        emit (Alert SetupFailed) ;;
                        setCurrentStep agreement)
                    (exec (enterFullscreen closure0 o)
                       (exec (setupCamera closure0 o)
                          (exec (setCurrentStep setup)
                             (exec (setIsLoading true) m))))))).
  { subst m'. unfold step. rewrite exec_bind.
    rewrite (enabled_click_runs_setup m o Hs Hd).
    destruct (trySecureSetup_fullscreen_failure (memo m) o
                (exec (setCurrentStep setup) (exec (setIsLoading true) m))
                Hc Hf (setup_step_hides_preview _)) as [He Hx].
    rewrite He, Hx, Hmemo, Hclo. reflexivity. }
  assert (H2 : forall t,
            running s t (stops t (log m))
              (exec (setupCamera closure0 o)
                 (exec (setCurrentStep setup) (exec (setIsLoading true) m)))).
  { intros t. unfold exec at 1.
    rewrite (setupCamera_without_preview closure0 o s _
               (setup_step_hides_preview _) Hg).
    destruct m as [[] [] ? ? ? ? ? ? ? ? ?];
      try discriminate Hm; split; reflexivity. }
  assert (H' : forall t, running s t (stops t (log m)) m').
  { intros t. rewrite Hstep.
    destruct (first_attempt_keeps_running s t (stops t (log m)) o false)
      as (K1 & K2 & K3 & K4).
    apply K4, K3, K2, K1, H2. }
  split; [apply (H' 0) | intros t; apply (H' t)].
Qed.

Lemma fullscreen_failure_leaves_camera_running_witness :
  shown agreement (run (init laptop) accepting) = true /\
  enterDisabled (st (run (init laptop) accepting)) = false /\
  getUserMedia fullscreenDenied = Fulfilled webcam /\
  cameraFails fullscreenDenied = false /\
  fullscreenOk fullscreenDenied = false /\
  memo (run (init laptop) accepting) = closure0 /\
  closureOf (st (run (init laptop) accepting)) = closure0 /\
  cameraStream
    (st (exec (step (ClickEnterSecureMode fullscreenDenied))
           (run (init laptop) accepting))) = Some webcam.
Proof.
  assert (Hs : shown agreement (run (init laptop) accepting) = true)
    by reflexivity.
  assert (Hd : enterDisabled (st (run (init laptop) accepting)) = false)
    by reflexivity.
  assert (Hg : getUserMedia fullscreenDenied = Fulfilled webcam)
    by reflexivity.
  assert (Hc : cameraFails fullscreenDenied = false) by reflexivity.
  assert (Hf : fullscreenOk fullscreenDenied = false) by reflexivity.
  assert (Hm : memo (run (init laptop) accepting) = closure0) by reflexivity.
  assert (Hk : closureOf (st (run (init laptop) accepting)) = closure0)
    by reflexivity.
  repeat (split; [assumption|]).
  exact (proj1 (fullscreen_failure_leaves_camera_running
                  (run (init laptop) accepting) fullscreenDenied webcam
                  Hs Hd Hg Hc Hf Hm Hk)).
Defined.

(** ** A browser without a fullscreen entry point *)

Lemma enterFullscreen_without_api x a o :
  fullscreenRequest o = None ->
  preserves (fun m => fullscreenElement (browser m) = x) (enterFullscreen a o).
Proof.
  intros H. unfold enterFullscreen. rewrite H.
  pres_walk ltac:(fail) ltac:(browser_leaf).
Qed.

Lemma setup_without_api_keeps_document x o :
  fullscreenRequest o = None ->
  preserves (fun m => fullscreenElement (browser m) = x)
    (step (ClickEnterSecureMode o)).
Proof.
  intros H.
  pres_walk
    ltac:(idtac;
          lazymatch goal with
          | |- preserves _ (enterFullscreen _ _) =>
              apply enterFullscreen_without_api; exact H
          end)
    ltac:(browser_leaf).
Qed.

Ltac count_leaf :=
  intros [[? ? ? ? ? ? ? ? ?] [] ? ? ? ? ? ? ? ? ?];
  unfold countType; project; rewrite ?countType_app; cbn;
  rewrite ?Nat.add_0_r; intuition (try discriminate).

Lemma setup_without_api_logs_no_denial n o :
  fullscreenRequest o = None ->
  preserves (fun m => countType "fullscreen-denied" m = n)
    (step (ClickEnterSecureMode o)).
Proof.
  intros H.
  pres_walk
    ltac:(idtac;
          lazymatch goal with
          | |- preserves _ (enterFullscreen _ _) =>
              unfold enterFullscreen; rewrite H
          end)
    ltac:(count_leaf).
Qed.

(** X6: where the root element defines none of the three fullscreen entry
    points, [enterFullscreen] requests nothing and still reports success:
    with the camera acquired the setup reaches verification with the
    fullscreen check true and no [fullscreen-denied] violation, while the
    document is in fullscreen no more than it was before. *)
Theorem setup_without_fullscreen_api m o :
  shown agreement m = true ->
  enterDisabled (st m) = false ->
  cameraFails o = false ->
  fullscreenRequest o = None ->
  let m' := exec (step (ClickEnterSecureMode o)) m in
  currentStep (st m') = verification /\
  fullscreen (systemChecks (st m')) = true /\
  fullscreenElement (browser m') = fullscreenElement (browser m) /\
  countType "fullscreen-denied" m' = countType "fullscreen-denied" m.
Proof.
  intros Hs Hd Hc Hn m'.
  assert (Hf : fullscreenOk o = true).
  { unfold fullscreenOk. rewrite Hn. reflexivity. }
  assert (H : verified (onLine (browser m)) m').
  { subst m'. unfold step. rewrite exec_bind.
    apply commit_keeps_verified, setup_success_verified; assumption. }
  destruct H as (Hv & _ & _ & _ & _ & Hfs & _).
  split; [exact Hv|]. split; [exact Hfs|]. split.
  - apply (setup_without_api_keeps_document _ o Hn m). reflexivity.
  - apply (setup_without_api_logs_no_denial _ o Hn m). reflexivity.
Qed.

(** A root element that defines no fullscreen entry point. *)
Definition noFullscreenApi : SetupEnv :=
  mkSetupEnv (Fulfilled webcam) (Fulfilled tt) None None None
    (Fulfilled display).

Lemma setup_without_fullscreen_api_witness :
  shown agreement (run (init laptop) accepting) = true /\
  enterDisabled (st (run (init laptop) accepting)) = false /\
  cameraFails noFullscreenApi = false /\
  fullscreenRequest noFullscreenApi = None /\
  currentStep
    (st (exec (step (ClickEnterSecureMode noFullscreenApi))
           (run (init laptop) accepting))) = verification.
Proof.
  assert (Hs : shown agreement (run (init laptop) accepting) = true)
    by reflexivity.
  assert (Hd : enterDisabled (st (run (init laptop) accepting)) = false)
    by reflexivity.
  assert (Hc : cameraFails noFullscreenApi = false) by reflexivity.
  assert (Hn : fullscreenRequest noFullscreenApi = None) by reflexivity.
  repeat (split; [assumption|]).
  exact (proj1 (setup_without_fullscreen_api
                  (run (init laptop) accepting) noFullscreenApi
                  Hs Hd Hc Hn)).
Defined.

(** ** Terminations raised by listeners *)

(** Every closure in use is still the one of the first render. *)
Definition firstRender (m : Machine) : Prop :=
  memo m = closure0 /\
  Forall (fun l => l_closure l = closure0) (listeners m) /\
  Forall (fun t => snd t = closure0) (timers m).

Lemma Forall_filter_keep {A} (P : A -> Prop) f l :
  Forall P l -> Forall P (filter f l).
Proof.
  induction 1 as [|a l Ha Hl IH]; [constructor|].
  cbn [filter]. destruct (f a); [constructor|]; assumption.
Qed.

Ltac firstRender_leaf :=
  intros [[? ? ? ? ? ? ? ? ?] [] ? ? ? ? ? ? ? ? ?];
  unfold firstRender; project; intros (H1 & H2 & H3);
  repeat split; auto using Forall_filter_keep.

Lemma handle_keeps_firstRender e :
  isPropsChange e = false -> preserves firstRender (handle e).
Proof.
  intros H. destruct e; try discriminate H;
    pres_walk ltac:(fail) ltac:(firstRender_leaf).
Qed.

Lemma commit_keeps_firstRender b : preserves firstRender (commitEffects b).
Proof.
  intros m (H1 & H2 & H3). unfold firstRender.
  break_machine m. cbn [memo listeners timers] in H1, H2, H3.
  injection H1 as ? ?. subst. destruct battery0 as [chg lvl].
  pose proof (Forall_filter_keep _
                (fun l => isBatterySignal (l_signal l)) _ H2) as H2'.
  pose proof (fun id => Forall_filter_keep _
                (fun t : nat * Closure => negb (Nat.eqb (fst t) id)) _ H3)
    as H3'.
  destruct mounted0, b, isSecureMode0, effSecure0, heartbeatRef0,
    hasGetBattery0, chg; eval_m;
    repeat match goal with
    | |- context [PrimFloat.ltb ?x ?y] => destruct (PrimFloat.ltb x y)
    end;
    eval_m; repeat split;
    repeat (apply Forall_app; split);
    try assumption; try apply H3'; repeat constructor.
Qed.

Lemma run_firstRender evs :
  forall m,
    forallb (fun e => negb (isPropsChange e)) evs = true ->
    firstRender m -> firstRender (run m evs).
Proof.
  induction evs as [|e evs IH]; intros m Hn H; [exact H|].
  cbn in Hn. apply andb_true_iff in Hn. destruct Hn as [He Hn].
  apply negb_true_iff in He.
  cbn [run fold_left]. apply IH; [exact Hn|].
  unfold step. rewrite exec_bind.
  apply commit_keeps_firstRender, handle_keeps_firstRender; assumption.
Qed.

(** The streams held and the number of [stop()] calls on track [t]. *)
Definition untouched (cam scr : option MediaStream) (t n : nat)
    (m : Machine) : Prop :=
  cameraStream (st m) = cam /\ screenStream (st m) = scr /\
  stops t (log m) = n.

Ltac untouched_leaf :=
  intros [[? ? ? ? ? ? ? ? ?] [] ? ? ? ? ? ? ? ? ?];
  unfold untouched, stops; project;
  rewrite ?stops_other by reflexivity;
  intuition (try discriminate; try congruence).

Lemma first_cleanup_untouched cam scr t n :
  preserves (untouched cam scr t n) (cleanupSecureMode closure0).
Proof.
  unfold cleanupSecureMode. cbn [c_cameraStream c_screenStream closure0].
  pres_walk ltac:(fail) ltac:(untouched_leaf).
Qed.

Ltac known_untouched :=
  idtac;
  lazymatch goal with
  | |- preserves _ (cleanupSecureMode closure0) =>
      apply first_cleanup_untouched
  end.

(** The listeners and the heartbeat. *)
Definition isSignal (e : Event) : bool :=
  match e with
  | FullscreenChange _ | VisibilityChange _ | Blur | KeyDown _ | ContextMenu
  | MouseLeave | Online | Offline | HeartbeatTick _ | ChargingChange _
  | LevelChange _ => true
  | _ => false
  end.

Lemma dispatch_first_render P sig (h : Closure -> M unit) m :
  preserves P (h closure0) ->
  Forall (fun l => l_closure l = closure0) (listeners m) ->
  P m -> P (exec (dispatch sig h) m).
Proof.
  intros Hh Hl Hp. unfold dispatch. rewrite exec_bind, exec_gets, eval_gets.
  apply forEach_inv; [|exact Hp].
  intros a m' Hin Hm'.
  apply filter_In in Hin. destruct Hin as [Hin _].
  rewrite Forall_forall in Hl. rewrite (Hl a Hin). apply Hh, Hm'.
Qed.

Lemma browser_update_untouched cam scr t n f m :
  untouched cam scr t n m ->
  untouched cam scr t n (exec (modify (with_browser f)) m) /\
  listeners (exec (modify (with_browser f)) m) = listeners m.
Proof. destruct m. intros H. split; [exact H | reflexivity]. Qed.

Lemma heartbeat_untouched cam scr t n r :
  preserves (untouched cam scr t n) (handle (HeartbeatTick r)).
Proof. pres_walk ltac:(known_untouched) ltac:(untouched_leaf). Qed.

Lemma signal_untouched cam scr t n e m :
  isSignal e = true ->
  Forall (fun l => l_closure l = closure0) (listeners m) ->
  untouched cam scr t n m -> untouched cam scr t n (exec (handle e) m).
Proof.
  intros He Hl Hu.
  destruct e; try discriminate He;
    try (apply heartbeat_untouched; assumption);
    cbn [handle];
    try (rewrite exec_bind;
         match goal with
         | |- context [exec (modify (with_browser ?f)) m] =>
             destruct (browser_update_untouched cam scr t n f m Hu)
               as [Hu' Hl']
         end;
         rewrite <- Hl' in Hl);
    try (apply dispatch_first_render; [|assumption..];
         pres_walk ltac:(known_untouched) ltac:(untouched_leaf)).
Qed.

Lemma commit_untouched cam scr t n b :
  preserves (untouched cam scr t n) (commitEffects b).
Proof. pres_walk ltac:(known_untouched) ltac:(untouched_leaf). Qed.

Lemma init_firstRender b : firstRender (init b).
Proof. repeat split; constructor. Qed.

(** X7: as long as the housing page passes the same [onSecurityViolation],
    the termination that a listener raises uses the cleanup of the first
    render, which holds no stream: no signal, Critical or not, ever stops a
    media track or clears the stored streams. *)
Theorem listener_termination_stops_no_track b evs e t :
  forallb (fun e => negb (isPropsChange e)) evs = true ->
  isSignal e = true ->
  let m := run (init b) evs in
  let m' := exec (step e) m in
  stops t (log m') = stops t (log m) /\
  cameraStream (st m') = cameraStream (st m) /\
  screenStream (st m') = screenStream (st m).
Proof.
  intros Hn He m m'.
  assert (Hf : firstRender m)
    by (apply run_firstRender; [exact Hn | apply init_firstRender]).
  destruct Hf as (_ & Hl & _).
  assert (H : untouched (cameraStream (st m)) (screenStream (st m)) t
                (stops t (log m)) m') .
  { subst m'. unfold step. rewrite exec_bind.
    apply commit_untouched, signal_untouched; try assumption.
    repeat split. }
  destruct H as (H1 & H2 & H3). auto.
Qed.

Lemma listener_termination_stops_no_track_witness :
  forallb (fun e => negb (isPropsChange e)) enterSecureMode = true /\
  isSignal (VisibilityChange true) = true /\
  cameraStream
    (st (exec (step (VisibilityChange true))
           (run (init laptop) enterSecureMode)))
  = cameraStream (st (run (init laptop) enterSecureMode)).
Proof.
  assert (Hn : forallb (fun e => negb (isPropsChange e)) enterSecureMode
               = true) by reflexivity.
  assert (He : isSignal (VisibilityChange true) = true) by reflexivity.
  split; [exact Hn|]. split; [exact He|].
  exact (proj1 (proj2 (listener_termination_stops_no_track laptop
                         enterSecureMode (VisibilityChange true) 1 Hn He))).
Defined.

(** ** What secure mode implies *)

(** The flags that a setup sets and that nothing resets afterwards. *)
Definition flagsSet (s : State) : Prop :=
  agreementAccepted s = true /\
  camera (systemChecks s) = true /\
  microphone (systemChecks s) = true /\
  fullscreen (systemChecks s) = true /\
  noOtherApps (systemChecks s) = true.

Definition coherent (m : Machine) : Prop :=
  (isSecureMode (st m) = true -> inSecurePhase (st m) = true) /\
  (inSecurePhase (st m) = true -> flagsSet (st m)).

Lemma secure_phase_hides_agreement m :
  inSecurePhase (st m) = true -> shown agreement m = false.
Proof.
  unfold inSecurePhase, shown.
  destruct (currentStep (st m)); try discriminate; intros _;
    apply andb_false_r.
Qed.

Lemma early_phase_hides_verification m :
  inSecurePhase (st m) = false -> shown verification m = false.
Proof.
  unfold inSecurePhase, shown.
  destruct (currentStep (st m)); try discriminate; intros _;
    apply andb_false_r.
Qed.

Lemma hidden_agreement_ignores e m :
  shown agreement m = false ->
  match e with
  | ChangeAgreement _ | ClickEnterSecureMode _ | ClickCancel =>
      exec (handle e) m = m
  | _ => True
  end.
Proof.
  intros H. destruct e; try exact I;
    cbn [handle]; rewrite exec_bind, exec_gets, eval_gets, H; reflexivity.
Qed.

Lemma hidden_verification_ignores throws m :
  shown verification m = false ->
  exec (handle (ClickStartExam throws)) m = m.
Proof.
  intros H. cbn [handle]. rewrite exec_bind, exec_gets, eval_gets, H.
  reflexivity.
Qed.

Lemma handle_keeps_secure_off e :
  isEnterSecureMode e = false ->
  preserves (fun m => isSecureMode (st m) = false) (handle e).
Proof. intros H. destruct e; try discriminate H; pres_frame. Qed.

Definition isChangeAgreement (e : Event) : bool :=
  match e with ChangeAgreement _ => true | _ => false end.

Definition isStartExam (e : Event) : bool :=
  match e with ClickStartExam _ => true | _ => false end.

Ltac flags_leaf :=
  intros [[? ? ? ? ? [] ? ? ?] [] ? ? ? ? ? ? ? ? ?] [? ?];
  split; first [assumption | reflexivity].

Lemma handle_keeps_flags e :
  isEnterSecureMode e = false ->
  isChangeAgreement e = false ->
  preserves (fun m => inSecurePhase (st m) = true /\ flagsSet (st m))
    (handle e).
Proof.
  intros H1 H2.
  destruct e; try discriminate H1; try discriminate H2;
    pres_walk ltac:(fail) ltac:(flags_leaf).
Qed.

Lemma handle_keeps_early e :
  isEnterSecureMode e = false ->
  isStartExam e = false ->
  preserves (fun m => inSecurePhase (st m) = false) (handle e).
Proof.
  intros H1 H2.
  destruct e; try discriminate H1; try discriminate H2; pres_frame.
Qed.

Lemma commit_keeps_coherent b : preserves coherent (commitEffects b).
Proof. unfold coherent. pres_frame. Qed.

Lemma trySecureSetup_keeps_mounted a o :
  preserves (fun m => mounted m = true) (trySecureSetup a o).
Proof. pres_frame. Qed.

(** A setup that fails hands the agreement back, secure mode off. *)
Lemma setup_failure_lands m o :
  shown agreement m = true ->
  enterDisabled (st m) = false ->
  cameraFails o = true \/ fullscreenOk o = false ->
  currentStep (st (exec (handle (ClickEnterSecureMode o)) m)) = agreement /\
  isSecureMode (st (exec (handle (ClickEnterSecureMode o)) m)) = false.
Proof.
  intros Hs Hd Hfail.
  assert (Hm : mounted m = true).
  { unfold shown in Hs. apply andb_true_iff in Hs. apply Hs. }
  rewrite (enabled_click_runs_setup m o Hs Hd).
  set (m1 := exec (setCurrentStep setup) (exec (setIsLoading true) m)).
  assert (Hm1 : mounted m1 = true).
  { subst m1. destruct m as [[] [] ? ? ? ? ? ? ? ? ?]; [|discriminate Hm].
    reflexivity. }
  assert (Hthrow : exists msg,
            eval (trySecureSetup (memo m) o) m1 = Throw msg).
  { destruct (cameraFails o) eqn:Hc.
    - eexists. apply (trySecureSetup_camera_failure (memo m) o m1 Hc).
    - destruct Hfail as [Hf|Hf]; [discriminate Hf|].
      eexists.
      apply (trySecureSetup_fullscreen_failure (memo m) o m1 Hc Hf).
      apply setup_step_hides_preview. }
  destruct Hthrow as [msg Hthrow]. rewrite Hthrow.
  pose proof (trySecureSetup_keeps_mounted (memo m) o m1 Hm1) as Hm3.
  cbv beta in Hm3.
  set (m3 := exec (trySecureSetup (memo m) o) m1) in *.
  do 3 rewrite exec_bind.
  set (m4 := exec (emit (ConsoleError "Secure setup failed:")) m3).
  assert (Hm4 : mounted m4 = true) by (subst m4; destruct m3; exact Hm3).
  pose proof (cleanup_turns_secure_mode_off (closureOf (st m)) m4 Hm4) as Hoff.
  assert (Hm5 : mounted (exec (cleanupSecureMode (closureOf (st m))) m4)
                = true).
  { revert Hm4. generalize m4.
    change (preserves (fun m => mounted m = true)
              (cleanupSecureMode (closureOf (st m)))).
    pres_frame. }
  destruct (exec (cleanupSecureMode (closureOf (st m))) m4)
    as [[] [] ? ? ? ? ? ? ? ? ?]; [|discriminate Hm5].
  cbn in Hoff. subst. split; reflexivity.
Qed.

Lemma setup_keeps_agreement o :
  preserves (fun m => agreementAccepted (st m) = true)
    (handle (ClickEnterSecureMode o)).
Proof. pres_frame. Qed.

Lemma setup_click_coherent o m :
  coherent m -> coherent (exec (handle (ClickEnterSecureMode o)) m).
Proof.
  intros H.
  destruct (shown agreement m) eqn:Hs;
    [|rewrite (hidden_agreement_ignores (ClickEnterSecureMode o) m Hs);
      exact H].
  destruct (enterDisabled (st m)) eqn:Hd.
  { replace (exec (handle (ClickEnterSecureMode o)) m) with m; [exact H|].
    cbn [handle]. rewrite exec_bind, exec_gets, eval_gets, Hs, Hd.
    reflexivity. }
  assert (Ha : agreementAccepted (st m) = true).
  { unfold enterDisabled in Hd. apply orb_false_iff in Hd.
    destruct Hd as [Hd _]. apply negb_false_iff in Hd. exact Hd. }
  pose proof (setup_keeps_agreement o m Ha) as Ha'. cbv beta in Ha'.
  destruct (cameraFails o) eqn:Hc; [|destruct (fullscreenOk o) eqn:Hf].
  - destruct (setup_failure_lands m o Hs Hd (or_introl Hc)) as [Hx Hoff].
    unfold coherent, inSecurePhase. rewrite Hx, Hoff.
    split; discriminate.
  - destruct (setup_success_verified m o Hs Hd Hc Hf)
      as (Hx & _ & _ & Hcam & Hmic & Hfs & _ & Hno).
    unfold coherent, inSecurePhase, flagsSet. rewrite Hx.
    split; intros _; [reflexivity|]. repeat split; assumption.
  - destruct (setup_failure_lands m o Hs Hd (or_intror Hf)) as [Hx Hoff].
    unfold coherent, inSecurePhase. rewrite Hx, Hoff.
    split; discriminate.
Qed.

Lemma handle_coherent e m : coherent m -> coherent (exec (handle e) m).
Proof.
  intros H.
  destruct (isEnterSecureMode e) eqn:He.
  { destruct e; try discriminate He. apply setup_click_coherent, H. }
  destruct (inSecurePhase (st m)) eqn:Hp.
  - pose proof (secure_phase_hides_agreement m Hp) as Hs.
    destruct (isChangeAgreement e) eqn:Hc.
    + pose proof (hidden_agreement_ignores e m Hs) as Hi.
      destruct e; try discriminate Hc. rewrite Hi. exact H.
    + destruct (handle_keeps_flags e He Hc m) as [Hp' Hf'].
      { split; [exact Hp | apply H, Hp]. }
      split; intros _; assumption.
  - assert (Hoff : isSecureMode (st m) = false).
    { destruct H as [H _].
      destruct (isSecureMode (st m)); [|reflexivity].
      rewrite H in Hp by reflexivity. discriminate Hp. }
    destruct (isStartExam e) eqn:Hx.
    + destruct e; try discriminate Hx.
      rewrite hidden_verification_ignores;
        [exact H | apply early_phase_hides_verification, Hp].
    + pose proof (handle_keeps_early e He Hx m Hp) as Hp'.
      pose proof (handle_keeps_secure_off e He m Hoff) as Hoff'.
      cbv beta in Hp', Hoff'. unfold coherent. rewrite Hp', Hoff'.
      split; discriminate.
Qed.

Lemma step_coherent e m : coherent m -> coherent (exec (step e) m).
Proof.
  intros H. unfold step. rewrite exec_bind.
  apply commit_keeps_coherent, handle_coherent, H.
Qed.

Lemma run_coherent evs : forall m, coherent m -> coherent (run m evs).
Proof.
  induction evs as [|e evs IH]; intros m H; [exact H|].
  cbn [run fold_left]. apply IH, step_coherent, H.
Qed.

Lemma init_coherent b : coherent (init b).
Proof. split; discriminate. Qed.

(** X8: at every point of a session, secure mode is on only in the
    verification or exam step; and in these two steps, whether secure mode
    is still on or a termination has turned it off, the agreement is
    accepted and the camera, microphone, fullscreen and noOtherApps checks
    are true: no listener and no cleanup ever resets them. *)
Theorem secure_mode_implies_checks b evs :
  let m := run (init b) evs in
  (isSecureMode (st m) = true -> inSecurePhase (st m) = true) /\
  (inSecurePhase (st m) = true ->
   agreementAccepted (st m) = true /\
   camera (systemChecks (st m)) = true /\
   microphone (systemChecks (st m)) = true /\
   fullscreen (systemChecks (st m)) = true /\
   noOtherApps (systemChecks (st m)) = true).
Proof. apply run_coherent, init_coherent. Qed.

Lemma secure_mode_implies_checks_witness :
  isSecureMode (st (run (init laptop) enterSecureMode)) = true /\
  inSecurePhase (st (run (init laptop) enterSecureMode)) = true.
Proof.
  assert (Hs : isSecureMode (st (run (init laptop) enterSecureMode)) = true)
    by reflexivity.
  split; [exact Hs|].
  exact (proj1 (secure_mode_implies_checks laptop enterSecureMode) Hs).
Defined.

(** ** After the connection is lost *)

(** Secure mode is off and the network check is false, in step [x]. *)
Definition cutOff (x : Step) (m : Machine) : Prop :=
  isSecureMode (st m) = false /\
  networkStable (systemChecks (st m)) = false /\
  currentStep (st m) = x.

Ltac cutOff_leaf :=
  unfold cutOff;
  intros [[? ? ? ? ? [] ? ? ?] [] ? ? ? ? ? ? ? ? ?] (? & ? & ?);
  repeat split; first [assumption | reflexivity].

Definition isOnline (e : Event) : bool :=
  match e with Online => true | _ => false end.

Lemma handle_keeps_cutOff x e :
  isEnterSecureMode e = false ->
  isStartExam e = false ->
  isOnline e = false ->
  preserves (cutOff x) (handle e).
Proof.
  intros H1 H2 H3.
  destruct e; try discriminate H1; try discriminate H2; try discriminate H3;
    pres_walk ltac:(fail) ltac:(cutOff_leaf).
Qed.

Lemma commit_keeps_cutOff x b : preserves (cutOff x) (commitEffects b).
Proof. pres_walk ltac:(fail) ltac:(cutOff_leaf). Qed.

(** With secure mode off, a rendered session listens to no DOM signal. *)
Lemma wired_off_silent m :
  wired m -> isSecureMode (st m) = false -> domListeners m = [].
Proof.
  intros [Hw He] Hoff. unfold wiredListeners in Hw.
  destruct (mounted m).
  - rewrite He, Hoff in Hw by reflexivity. apply map_nil_inv in Hw. exact Hw.
  - apply map_nil_inv in Hw. exact Hw.
Qed.

Lemma handle_cutOff x e m :
  x <> agreement ->
  wired m -> cutOff x m -> cutOff x (exec (handle e) m).
Proof.
  intros Hx Hw H.
  destruct (isEnterSecureMode e) eqn:E1.
  { destruct e; try discriminate E1.
    rewrite (hidden_agreement_ignores (ClickEnterSecureMode o) m); [exact H|].
    destruct H as (_ & _ & Hs). unfold shown. rewrite Hs.
    destruct x; try contradiction; apply andb_false_r. }
  destruct (isStartExam e) eqn:E2.
  { destruct e; try discriminate E2.
    rewrite handle_disabled_start; [exact H|].
    destruct H as (_ & Hn & _). unfold startExamDisabled. rewrite Hn.
    apply orb_true_r. }
  destruct (isOnline e) eqn:E3.
  { destruct e; try discriminate E3. cbn [handle]. rewrite exec_bind.
    change (exec (modify (with_browser (setOnLine true))) m)
      with (with_browser (setOnLine true) m).
    rewrite dispatch_none; [destruct m; exact H | reflexivity |].
    pose proof (wired_off_silent m Hw (proj1 H)) as Hd.
    destruct m; exact Hd. }
  apply handle_keeps_cutOff; assumption.
Qed.

Lemma run_cutOff x evs :
  x <> agreement ->
  forall m, wired m -> cutOff x m -> cutOff x (run m evs).
Proof.
  intros Hx. induction evs as [|e evs IH]; intros m Hw H; [exact H|].
  cbn [run fold_left]. apply IH; [apply step_wired, Hw|].
  unfold step. rewrite exec_bind.
  apply commit_keeps_cutOff, handle_cutOff; assumption.
Qed.

Lemma handleOffline_cuts c m :
  mounted m = true ->
  cutOff (currentStep (st m)) (exec (handleOffline c) m).
Proof.
  intros Hm. break_machine m. cbn in Hm. subst.
  destruct c as [[?|] [?|]], heartbeatRef0, violationTimeoutRef0,
    hasExitFullscreen0, fullscreenElement0; repeat split.
Qed.

(** X9: a connection loss in secure mode is final.  The [offline]
    listener turns secure mode off, which detaches the [online] listener
    with it: whatever happens afterwards, [networkStable] stays false, the
    "Start Exam" button stays disabled and the session stays in the step in
    which the connection was lost. *)
Theorem connection_loss_is_final b evs more :
  let m := run (init b) evs in
  mounted m = true ->
  isSecureMode (st m) = true ->
  let m' := run m (Offline :: more) in
  isSecureMode (st m') = false /\
  networkStable (systemChecks (st m')) = false /\
  startExamDisabled (st m') = true /\
  currentStep (st m') = currentStep (st m).
Proof.
  intros m Hm Hs m'.
  assert (Hw : wired m) by apply run_wired, init_wired.
  assert (Hc : coherent m) by apply run_coherent, init_coherent.
  assert (Hx : currentStep (st m) <> agreement).
  { destruct Hc as [Hc _]. specialize (Hc Hs). unfold inSecurePhase in Hc.
    intros E. rewrite E in Hc. discriminate Hc. }
  assert (H1 : cutOff (currentStep (st m)) (exec (step Offline) m)).
  { unfold step. rewrite exec_bind. apply commit_keeps_cutOff.
    cbn [handle]. rewrite exec_bind.
    change (exec (modify (with_browser (setOnLine false))) m)
      with (with_browser (setOnLine false) m).
    destruct Hw as [Hw He]. unfold wiredListeners in Hw.
    rewrite Hm, (He Hm), Hs in Hw. cbn [andb] in Hw.
    destruct (wired_single offline (listeners m) Hw) as [l Hl];
      [cbn; tauto|].
    rewrite (dispatch_single offline handleOffline l);
      [|destruct m; exact Hl].
    replace (currentStep (st m))
      with (currentStep (st (with_browser (setOnLine false) m)))
      by (destruct m; reflexivity).
    apply handleOffline_cuts. destruct m; exact Hm. }
  assert (H : cutOff (currentStep (st m)) m').
  { subst m'. cbn [run fold_left].
    apply (run_cutOff _ more Hx); [apply step_wired, Hw | exact H1]. }
  destruct H as (K1 & K2 & K3).
  repeat split; try assumption.
  unfold startExamDisabled. rewrite K2. apply orb_true_r.
Qed.

Lemma connection_loss_is_final_witness :
  mounted (run (init laptop) enterSecureMode) = true /\
  isSecureMode (st (run (init laptop) enterSecureMode)) = true /\
  networkStable
    (systemChecks
       (st (run (run (init laptop) enterSecureMode)
              (Offline :: [Online; ClickStartExam false])))) = false.
Proof.
  assert (Hm : mounted (run (init laptop) enterSecureMode) = true)
    by reflexivity.
  assert (Hs : isSecureMode (st (run (init laptop) enterSecureMode)) = true)
    by reflexivity.
  split; [exact Hm|]. split; [exact Hs|].
  exact (proj1 (proj2 (connection_loss_is_final laptop enterSecureMode
                         [Online; ClickStartExam false] Hm Hs))).
Defined.

(** ** The heartbeat timer *)

(** The running timers: the one that [heartbeatRef] points to, or none. *)
Definition oneTimer (m : Machine) : Prop :=
  timers m = [] \/
  exists id c, timers m = [(id, c)] /\ heartbeatRef m = Some id.

(** At the end of a turn the heartbeat runs exactly while the effects are
    set up. *)
Definition ticking (m : Machine) : Prop :=
  if mounted m && effSecure m
  then exists id c, timers m = [(id, c)] /\ heartbeatRef m = Some id
  else timers m = [].

(** Between a handler and the render that follows it. *)
Definition winding (m : Machine) : Prop :=
  oneTimer m /\
  (mounted m && effSecure m = false -> timers m = []) /\
  (mounted m && effSecure m && isSecureMode (st m) = true -> timers m <> []).

Lemma ticking_winding m : ticking m -> winding m.
Proof.
  unfold ticking, winding, oneTimer.
  destruct (mounted m && effSecure m); intros H.
  - split; [right; exact H|]. split; [discriminate|].
    intros _. destruct H as (id & c & H & _). rewrite H. discriminate.
  - split; [left; exact H|]. split; [intros _; exact H | discriminate].
Qed.

Ltac timer_finish :=
  cbn [filter fst snd negb app andb]; rewrite ?Nat.eqb_refl;
  cbn [filter fst snd negb app andb];
  repeat match goal with
         | H : ?x = ?x -> _ |- _ => specialize (H eq_refl)
         | H : _ :: _ = [] |- _ => discriminate H
         end;
  intuition (try congruence; eauto 6).

Lemma cleanup_winding c : preserves winding (cleanupSecureMode c).
Proof.
  intros m. unfold winding, oneTimer. break_machine m.
  cbn [timers heartbeatRef mounted effSecure st isSecureMode].
  intros ([Ht | (id & c' & Ht & Hr)] & H2 & H3); subst;
    destruct c as [[?|] [?|]], mounted0, effSecure0, isSecureMode0,
      hasExitFullscreen0, fullscreenElement0;
    try destruct heartbeatRef0;
    cbn [andb] in H2, H3; eval_m; timer_finish.
Qed.

Ltac known_winding :=
  idtac;
  lazymatch goal with
  | |- preserves _ (cleanupSecureMode _) => apply cleanup_winding
  end.

Lemma handle_winding e :
  isEnterSecureMode e = false ->
  isUnmount e = false ->
  preserves winding (handle e).
Proof.
  intros H1 H2.
  destruct e; try discriminate H1; try discriminate H2;
    pres_walk ltac:(known_winding) ltac:(frame_leaf).
Qed.

Lemma unmount_winding m : winding m -> winding (exec (handle Unmount) m).
Proof.
  unfold winding, oneTimer. break_machine m.
  cbn [timers heartbeatRef mounted effSecure st isSecureMode].
  intros ([Ht | (id & c' & Ht & Hr)] & H2 & H3); subst;
    destruct mounted0, effSecure0, isSecureMode0,
      hasExitFullscreen0, fullscreenElement0;
    try destruct heartbeatRef0;
    cbn [andb] in H2, H3; eval_m; timer_finish.
Qed.

Ltac idle_leaf :=
  intros [[? ? ? ? ? ? ? ? ?] [] ? ? ? ? ? ? ? ? ?] [H1 H2];
  cbn in H1, H2; subst; split; reflexivity.

Lemma setup_keeps_idle o :
  preserves (fun m => effSecure m = false /\ timers m = [])
    (handle (ClickEnterSecureMode o)).
Proof. pres_walk ltac:(fail) ltac:(idle_leaf). Qed.

Lemma commit_ticking b m : winding m -> ticking (exec (commitEffects b) m).
Proof.
  unfold winding, oneTimer, ticking. break_machine m.
  cbn [timers heartbeatRef mounted effSecure st isSecureMode].
  destruct battery0 as [chg lvl].
  intros ([Ht | (id & c' & Ht & Hr)] & H2 & H3); subst;
    destruct mounted0, b, effSecure0, isSecureMode0, hasGetBattery0, chg;
    try destruct heartbeatRef0;
    cbn [andb] in H2, H3; eval_m;
    repeat match goal with
    | |- context [PrimFloat.ltb ?x ?y] => destruct (PrimFloat.ltb x y)
    end;
    eval_m; timer_finish.
Qed.

(** What holds at the end of every turn. *)
Definition settled (m : Machine) : Prop :=
  wired m /\ coherent m /\ ticking m.

Lemma handle_settled_winding e m : settled m -> winding (exec (handle e) m).
Proof.
  intros (Hw & Hc & Ht).
  destruct (isEnterSecureMode e) eqn:E1.
  { destruct e; try discriminate E1.
    destruct (shown agreement m) eqn:Hs;
      [|rewrite (hidden_agreement_ignores (ClickEnterSecureMode o) m Hs);
        apply ticking_winding, Ht].
    assert (Hidle : effSecure m = false /\ timers m = []).
    { unfold shown in Hs. apply andb_true_iff in Hs. destruct Hs as [Hm Hx].
      assert (Hoff : isSecureMode (st m) = false).
      { destruct Hc as [Hc _]. destruct (isSecureMode (st m)); [|reflexivity].
        specialize (Hc eq_refl). unfold inSecurePhase in Hc.
        destruct (currentStep (st m)); discriminate. }
      destruct Hw as [_ He]. specialize (He Hm).
      unfold ticking in Ht. rewrite Hm, He, Hoff in Ht. cbn [andb] in Ht.
      split; [congruence | exact Ht]. }
    destruct (setup_keeps_idle o m Hidle) as [He' Ht'].
    unfold winding, oneTimer. rewrite He', Ht', andb_false_r.
    split; [left; reflexivity|]. split; [reflexivity | discriminate]. }
  destruct (isUnmount e) eqn:E2.
  { destruct e; try discriminate E2. apply unmount_winding, ticking_winding, Ht. }
  apply handle_winding; [assumption..|]. apply ticking_winding, Ht.
Qed.

Lemma step_settled e m : settled m -> settled (exec (step e) m).
Proof.
  intros H. split; [|split].
  - apply step_wired, H.
  - apply step_coherent, H.
  - unfold step. rewrite exec_bind.
    apply commit_ticking, handle_settled_winding, H.
Qed.

Lemma run_settled evs : forall m, settled m -> settled (run m evs).
Proof.
  induction evs as [|e evs IH]; intros m H; [exact H|].
  cbn [run fold_left]. apply IH, step_settled, H.
Qed.

Lemma init_settled b : settled (init b).
Proof.
  split; [apply init_wired|]. split; [apply init_coherent | reflexivity].
Qed.

(** X10: at the end of every turn of a session the 30 s heartbeat runs
    exactly while the component is mounted with secure mode on: then one
    interval timer is running, the one [heartbeatRef] holds, and otherwise
    none. *)
Theorem one_heartbeat_while_secure b evs :
  let m := run (init b) evs in
  if mounted m && isSecureMode (st m)
  then exists id c, timers m = [(id, c)] /\ heartbeatRef m = Some id
  else timers m = [].
Proof.
  intros m.
  destruct (run_settled evs (init b) (init_settled b)) as ([_ He] & _ & Ht).
  fold m in He, Ht. unfold ticking in Ht.
  destruct (mounted m); [|exact Ht].
  rewrite <- He by reflexivity. exact Ht.
Qed.

(** The Warning that a rejected heartbeat probe logs at time [t]. *)
Definition unstableViolation (t : nat) : SecurityViolation :=
  mkViolation "network-unstable" t warning "Network connection unstable".

(** X11: at the end of every turn of a session, a tick of the heartbeat
    probes [/api/heartbeat] once if the component is mounted with secure
    mode on and not at all otherwise; a probe that rejects logs and reports
    one Warning [network-unstable], and nothing else happens: the state is
    otherwise as before, so no number of failed probes ends the session. *)
Theorem heartbeat_failure_warns_once b evs r :
  let m := run (init b) evs in
  let m' := exec (step (HeartbeatTick r)) m in
  let live := mounted m && isSecureMode (st m) in
  violations (st m') =
    violations (st m)
    ++ (if live && r then [unstableViolation (now (browser m))] else []) /\
  log m' =
    log m
    ++ (if live then [FetchHeartbeat] else [])
    ++ (if live && r
        then [OnSecurityViolation "Network connection unstable" warning]
        else []) /\
  isSecureMode (st m') = isSecureMode (st m) /\
  currentStep (st m') = currentStep (st m).
Proof.
  intros m m' live. subst m' live.
  destruct (run_settled evs (init b) (init_settled b)) as ([_ He] & _ & Ht).
  fold m in He, Ht. revert He Ht. generalize m. clear m.
  intros m He Ht. unfold ticking in Ht.
  break_machine m.
  cbn [mounted effSecure st isSecureMode timers heartbeatRef] in He, Ht.
  cbn [mounted st isSecureMode violations log browser now].
  destruct mounted0.
  - specialize (He eq_refl). subst effSecure0.
    destruct isSecureMode0; cbn [andb] in *.
    + destruct Ht as (id & c & Ht & _). subst.
      destruct r; cbv -[app]; rewrite ?app_nil_r; repeat split; log_eq.
    + subst. cbv -[app]. rewrite ?app_nil_r. repeat split.
  - cbn [andb] in *. subst. destruct effSecure0;
      cbv -[app]; rewrite ?app_nil_r; repeat split.
Qed.

(** ** Starting the exam *)

Lemma enabled_start m :
  shown verification m = true ->
  startExamDisabled (st m) = false ->
  mounted m = true /\ currentStep (st m) = verification /\
  isLoading (st m) = false.
Proof.
  unfold shown, startExamDisabled. intros Hs Hd.
  apply andb_true_iff in Hs. destruct Hs as [Hm Hx].
  apply orb_false_iff in Hd. destruct Hd as [Hd _].
  apply orb_false_iff in Hd. destruct Hd as [Hl _].
  split; [exact Hm|]. split; [|exact Hl].
  destruct (currentStep (st m)); try discriminate Hx; reflexivity.
Qed.

(** X12: a click on the enabled "Start Exam" button moves a rendered
    session to the exam step, stamps the start time, calls [onStartExam]
    once and logs no violation.  Secure mode is not consulted: the button
    works the same after a termination has turned secure mode off. *)
Theorem start_exam_ignores_secure_mode m :
  shown verification m = true ->
  startExamDisabled (st m) = false ->
  effSecure m = isSecureMode (st m) ->
  let m' := exec (step (ClickStartExam false)) m in
  currentStep (st m') = exam /\
  examStartTime (st m') = Some (now (browser m)) /\
  isLoading (st m') = false /\
  isSecureMode (st m') = isSecureMode (st m) /\
  violations (st m') = violations (st m) /\
  log m' =
    log m ++ [ConsoleLog "Questions fetched successfully:"; OnStartExam].
Proof.
  intros Hs Hd He m'. subst m'.
  destruct (enabled_start m Hs Hd) as (Hm & Hx & Hl).
  unfold step. rewrite exec_bind. cbn [handle isPropsChange].
  rewrite exec_bind, exec_gets, eval_gets, Hs, Hd. cbn [negb andb when].
  break_machine m. cbn in Hm, Hx, Hl, He. subst.
  destruct isSecureMode0; eval_m; repeat split; log_eq.
Qed.

Lemma start_exam_ignores_secure_mode_witness :
  shown verification afterTeardown = true /\
  startExamDisabled (st afterTeardown) = false /\
  effSecure afterTeardown = isSecureMode (st afterTeardown) /\
  isSecureMode (st afterTeardown) = false /\
  currentStep (st (exec (step (ClickStartExam false)) afterTeardown)) = exam.
Proof.
  assert (Hs : shown verification afterTeardown = true) by reflexivity.
  assert (Hd : startExamDisabled (st afterTeardown) = false) by reflexivity.
  assert (He : effSecure afterTeardown = isSecureMode (st afterTeardown))
    by reflexivity.
  assert (Hoff : isSecureMode (st afterTeardown) = false) by reflexivity.
  repeat (split; [assumption|]).
  exact (proj1 (start_exam_ignores_secure_mode afterTeardown Hs Hd He)).
Defined.

Definition terminations (l : list Effect) : nat :=
  List.length (filter isTermination l).

Definition examStartFailed (t : nat) : SecurityViolation :=
  mkViolation "exam-start-failed" t critical "Failed to start exam".

(** What the calls of a termination depend on. *)
Definition sameRefs (m0 m : Machine) : Prop :=
  violationTimeoutRef m = violationTimeoutRef m0 /\
  heartbeatRef m = heartbeatRef m0 /\
  browser m = browser m0.

Lemma terminationCalls_sameRefs c reason m0 m :
  sameRefs m0 m -> terminationCalls c reason m = terminationCalls c reason m0.
Proof.
  intros (H1 & H2 & H3). unfold terminationCalls, cleanupCalls.
  rewrite H1, H2, H3. reflexivity.
Qed.

Lemma addViolation_keeps_refs m0 c ty sev d :
  preserves (sameRefs m0) (addViolation c ty sev d).
Proof. unfold sameRefs. pres_frame. Qed.

Lemma addViolation_log c ty d m :
  log (exec (addViolation c ty critical d) m) =
  log m ++ [OnSecurityViolation d critical] ++ terminationCalls c d m.
Proof.
  unfold addViolation. do 3 rewrite exec_bind.
  rewrite exec_gets, eval_gets, termination_log.
  set (m1 := exec (emit (OnSecurityViolation d critical)) _).
  assert (H : log m1 = log m ++ [OnSecurityViolation d critical] /\
              sameRefs m m1).
  { subst m1. destruct m as [? [] ? ? ? ? ? ? ? ? ?]; repeat split. }
  destruct H as [H1 H2].
  rewrite H1, (terminationCalls_sameRefs c d m m1 H2), <- app_assoc.
  reflexivity.
Qed.

Lemma failed_start_log m :
  log (exec (startExam true) m) =
  log m
  ++ [ConsoleLog "Questions fetched successfully:"; OnStartExam;
      ConsoleError "Error starting exam:";
      OnSecurityViolation "Failed to start exam" critical]
  ++ terminationCalls (memo m) "Failed to start exam" m
  ++ terminationCalls (closureOf (st m)) "Exam initialization failed" m.
Proof.
  unfold startExam. repeat rewrite exec_bind.
  repeat rewrite exec_gets. repeat rewrite eval_gets.
  cbn [when]. repeat rewrite exec_bind.
  set (m1 := exec (emit (ConsoleError "Error starting exam:")) _).
  assert (H : log m1 =
              log m ++ [ConsoleLog "Questions fetched successfully:";
                        OnStartExam; ConsoleError "Error starting exam:"] /\
              sameRefs m m1).
  { subst m1. destruct m as [? [] ? ? ? ? ? ? ? ? ?];
      (split; [eval_m; log_eq | repeat split]). }
  destruct H as [H1 H2].
  set (m2 := exec (addViolation (memo m) "exam-start-failed" critical
                     "Failed to start exam") m1).
  assert (H3 : sameRefs m m2) by apply addViolation_keeps_refs, H2.
  set (m3 := exec (handleSecurityTermination (closureOf (st m))
                     "Exam initialization failed") m2).
  replace (log (exec (setIsLoading false) m3)) with (log m3)
    by (destruct m3 as [? [] ? ? ? ? ? ? ? ? ?]; reflexivity).
  subst m3. rewrite termination_log.
  subst m2. rewrite addViolation_log, H1.
  rewrite (terminationCalls_sameRefs _ _ m m1 H2).
  rewrite (terminationCalls_sameRefs _ _ m _ H3).
  repeat rewrite <- app_assoc. reflexivity.
Qed.

Lemma terminations_app l1 l2 :
  terminations (l1 ++ l2) = terminations l1 + terminations l2.
Proof. unfold terminations. rewrite filter_app, length_app. reflexivity. Qed.

Lemma terminations_TrackStop l : terminations (map TrackStop l) = 0.
Proof. induction l; [reflexivity | exact IHl]. Qed.

Lemma terminations_terminationCalls c reason m :
  terminations (terminationCalls c reason m) = 1.
Proof.
  unfold terminationCalls, cleanupCalls.
  repeat rewrite terminations_app.
  destruct (violationTimeoutRef m), (c_cameraStream c), (c_screenStream c),
    (hasExitFullscreen (browser m) && fullscreenElement (browser m)),
    (heartbeatRef m); rewrite ?terminations_TrackStop; reflexivity.
Qed.

Lemma failed_start_state m :
  mounted m = true ->
  let m' := exec (startExam true) m in
  currentStep (st m') = exam /\
  isSecureMode (st m') = false /\
  isLoading (st m') = false /\
  violations (st m') =
    violations (st m) ++ [examStartFailed (now (browser m))].
Proof.
  intros Hm. break_machine m. cbn in Hm. subst.
  destruct c_cameraStream0, c_screenStream0, cameraStream0, screenStream0,
    heartbeatRef0, violationTimeoutRef0, hasExitFullscreen0,
    fullscreenElement0; repeat split.
Qed.

Ltac tally_leaf :=
  intros [[? ? ? ? ? ? ? ? ?] [] ? ? ? ? ? ? ? ? ?];
  unfold terminations, exits; project;
  rewrite ?filter_app, ?length_app; cbn [filter isExit isTermination];
  cbn [List.length]; rewrite ?Nat.add_0_r;
  intuition (try discriminate; try congruence).

Lemma commit_keeps_tally x y vs b :
  preserves (fun m => exits (log m) = x /\ terminations (log m) = y /\
                      isSecureMode (st m) = false /\ violations (st m) = vs)
    (commitEffects b).
Proof.
  intros m (H1 & H2 & H3 & H4).
  assert (K : preserves (fun m => exits (log m) = x /\
                                  terminations (log m) = y /\
                                  isSecureMode (st m) = false)
                (commitEffects b))
    by pres_walk ltac:(fail) ltac:(tally_leaf).
  destruct (K m (conj H1 (conj H2 H3))) as (K1 & K2 & K3).
  repeat split; try assumption.
  clear K K1 K2 K3.
  break_machine m. cbn in H3, H4. subst.
  destruct mounted0, b, effSecure0, heartbeatRef0; reflexivity.
Qed.

(** X13: when [onStartExam] throws, the [catch] block of [startExam]
    terminates the session twice: once inside [addViolation], which logs
    and reports a Critical [exam-start-failed], and once directly.  The
    user sees two alerts and the housing page receives two exit signals;
    the session is left in the exam step with secure mode off. *)
Theorem failed_start_terminates_twice m :
  shown verification m = true ->
  startExamDisabled (st m) = false ->
  let m' := exec (step (ClickStartExam true)) m in
  terminations (log m') = terminations (log m) + 2 /\
  exits (log m') = exits (log m) + 2 /\
  violations (st m') =
    violations (st m) ++ [examStartFailed (now (browser m))] /\
  currentStep (st m') = exam /\
  isSecureMode (st m') = false /\
  isLoading (st m') = false.
Proof.
  intros Hs Hd m'. subst m'.
  destruct (enabled_start m Hs Hd) as (Hm & _ & _).
  unfold step. rewrite exec_bind. cbn [handle isPropsChange].
  rewrite exec_bind, exec_gets, eval_gets, Hs, Hd. cbn [negb andb when].
  destruct (failed_start_state m Hm) as (Kx & Ks & Kl & Kv).
  pose proof (failed_start_log m) as Klog.
  set (m1 := exec (startExam true) m) in *.
  assert (Ke : exits (log m1) = exits (log m) + 2).
  { rewrite Klog. repeat rewrite exits_app.
    rewrite !exits_terminationCalls. cbn. lia. }
  assert (Kt : terminations (log m1) = terminations (log m) + 2).
  { rewrite Klog. repeat rewrite terminations_app.
    rewrite !terminations_terminationCalls. cbn. lia. }
  destruct (commit_keeps_tally _ _ _ false m1 (conj Ke (conj Kt (conj Ks Kv))))
    as (C1 & C2 & C3 & C4).
  assert (K : preserves (fun m => currentStep (st m) = exam /\
                                  isLoading (st m) = false)
                (commitEffects false)) by pres_frame.
  destruct (K m1 (conj Kx Kl)) as [C5 C6].
  repeat split; assumption.
Qed.

Lemma failed_start_terminates_twice_witness :
  shown verification verifying = true /\
  startExamDisabled (st verifying) = false /\
  exits (log (exec (step (ClickStartExam true)) verifying))
  = exits (log verifying) + 2.
Proof.
  assert (Hs : shown verification verifying = true) by reflexivity.
  assert (Hd : startExamDisabled (st verifying) = false) by reflexivity.
  repeat (split; [assumption|]).
  exact (proj1 (proj2 (failed_start_terminates_twice verifying Hs Hd))).
Defined.

(** ** Unmounting *)

(** X14: the cleanup that runs when the component is unmounted is the one
    of the first render, which holds no stream: whatever the session has
    acquired since, unmounting calls [stop()] on no track and leaves the
    stored streams as they are. *)
Theorem unmount_stops_no_track m t :
  let m' := exec (step Unmount) m in
  stops t (log m') = stops t (log m) /\
  cameraStream (st m') = cameraStream (st m) /\
  screenStream (st m') = screenStream (st m) /\
  mounted m' = false.
Proof.
  intros m'.
  assert (K : preserves
                (untouched (cameraStream (st m)) (screenStream (st m)) t
                   (stops t (log m)))
                (step Unmount))
    by pres_walk ltac:(known_untouched) ltac:(untouched_leaf).
  destruct (K m) as (K1 & K2 & K3); [repeat split|].
  repeat split; try assumption.
  subst m'. clear. break_machine m.
  destruct mounted0, effSecure0, heartbeatRef0, hasExitFullscreen0,
    fullscreenElement0; reflexivity.
Qed.

(** ** A new [onSecurityViolation] *)

Lemma battery_listeners_not_dom (P : Listener -> Prop) ls :
  Forall (fun l => isDomListener l = true -> P l)
    (filter (fun l => isBatterySignal (l_signal l)) ls).
Proof.
  apply Forall_forall. intros l Hin. apply filter_In in Hin.
  destruct Hin as [_ Hb]. unfold isDomListener. rewrite Hb. discriminate.
Qed.

(** After the housing page has passed a new callback, the listeners of the
    security and network effects are rebuilt from the current render. *)
Lemma props_change_rewires m :
  mounted m = true ->
  isSecureMode (st m) = true ->
  effSecure m = true ->
  let m1 := exec (step PropsChange) m in
  Forall (fun l => isDomListener l = true -> l_closure l = closureOf (st m))
    (listeners m1) /\
  cameraStream (st m1) = cameraStream (st m) /\
  mounted m1 = true /\
  isSecureMode (st m1) = true.
Proof.
  intros Hm Hs He. break_machine m. cbn in Hm, Hs, He. subst.
  destruct battery0 as [chg lvl].
  destruct heartbeatRef0, hasGetBattery0, chg; eval_m;
    repeat match goal with
    | |- context [PrimFloat.ltb ?x ?y] => destruct (PrimFloat.ltb x y)
    end;
    eval_m; (split; [|repeat split]);
    repeat (apply Forall_app; split);
    try apply battery_listeners_not_dom;
    repeat constructor.
Qed.

Lemma cleanup_drops_camera c s m :
  c_cameraStream c = Some s ->
  mounted m = true ->
  cameraStream (st (exec (cleanupSecureMode c) m)) = None.
Proof.
  intros Hc Hm. break_machine m. cbn in Hm. subst.
  destruct c as [c1 [?|]]; cbn in Hc; subst;
    destruct heartbeatRef0, hasExitFullscreen0, fullscreenElement0;
    reflexivity.
Qed.

Lemma tab_switch_stops_tracks c s m :
  c_cameraStream c = Some s ->
  mounted m = true ->
  hidden (browser m) = true ->
  let m' := exec (handleVisibilityChange c) m in
  cameraStream (st m') = None /\
  forall t, In t (getTracks s) -> In (TrackStop t) (log m').
Proof.
  intros Hc Hm Hh. cbn zeta. unfold handleVisibilityChange.
  rewrite exec_bind, exec_gets, eval_gets, Hh. cbn [when].
  split.
  - unfold addViolation. do 3 rewrite exec_bind.
    rewrite exec_gets, eval_gets.
    unfold handleSecurityTermination. do 4 rewrite exec_bind.
    set (m1 := exec (emit (Alert _)) _).
    assert (Hm1 : mounted m1 = true).
    { subst m1. destruct m as [? [] ? ? ? ? ? ? []]; try discriminate Hm;
        reflexivity. }
    pose proof (cleanup_drops_camera c s m1 Hc Hm1) as Hd.
    destruct (exec (cleanupSecureMode c) m1). exact Hd.
  - intros t Ht. rewrite addViolation_log.
    apply in_or_app. right. apply in_or_app. right.
    unfold terminationCalls, cleanupCalls. rewrite Hc.
    apply in_or_app. right. apply in_or_app. right.
    apply in_or_app. left. apply in_or_app. left. apply in_map, Ht.
Qed.

(** X15: once the housing page has passed a new [onSecurityViolation],
    the listeners are rebuilt from the current render, so the termination
    they raise does release the camera: after such a change, a tab switch
    in secure mode stops every track of the stored camera stream and clears
    it. *)
Theorem props_change_refreshes_cleanup b evs s :
  let m := run (init b) evs in
  mounted m = true ->
  isSecureMode (st m) = true ->
  cameraStream (st m) = Some s ->
  let m' := run m [PropsChange; VisibilityChange true] in
  cameraStream (st m') = None /\
  forall t, In t (getTracks s) -> In (TrackStop t) (log m').
Proof.
  intros m Hm Hs Hc m'.
  assert (Hw : wired m) by apply run_wired, init_wired.
  assert (He : effSecure m = true) by (rewrite (proj2 Hw Hm); exact Hs).
  destruct (props_change_rewires m Hm Hs He) as (Hl & Hc1 & Hm1 & Hs1).
  pose proof (step_wired PropsChange m Hw) as Hw1.
  set (m1 := exec (step PropsChange) m) in *.
  destruct Hw1 as [Hw1 He1]. unfold wiredListeners in Hw1.
  rewrite Hm1, (He1 Hm1), Hs1 in Hw1. cbn [andb] in Hw1.
  destruct (wired_single visibilitychange (listeners m1) Hw1) as [l Hf];
    [cbn; tauto|].
  assert (Hin : In l (filter (fun x => Signal_eqb (l_signal x) visibilitychange)
                        (listeners m1))) by (rewrite Hf; left; reflexivity).
  apply filter_In in Hin. destruct Hin as [Hin Hsig].
  assert (Hclo : l_closure l = closureOf (st m)).
  { rewrite Forall_forall in Hl. apply (Hl l Hin).
    unfold isDomListener. destruct (l_signal l); try discriminate Hsig;
      reflexivity. }
  assert (Hstep : m' = exec (commitEffects false)
                         (exec (handleVisibilityChange (closureOf (st m)))
                            (with_browser (setHidden true) m1))).
  { subst m'. cbn [run fold_left]. fold m1. unfold step at 1.
    rewrite exec_bind. cbn [handle isPropsChange]. rewrite exec_bind.
    change (exec (modify (with_browser (setHidden true))) m1)
      with (with_browser (setHidden true) m1).
    rewrite (dispatch_single visibilitychange handleVisibilityChange l);
      [|destruct m1; exact Hf].
    rewrite Hclo. reflexivity. }
  destruct (tab_switch_stops_tracks (closureOf (st m)) s
              (with_browser (setHidden true) m1))
    as [Hnone Hstops].
  { unfold closureOf. cbn. exact Hc. }
  { destruct m1; exact Hm1. }
  { destruct m1 as [? ? ? ? ? ? ? ? ? []]; reflexivity. }
  cbn zeta in Hnone, Hstops.
  rewrite Hstep. split.
  - revert Hnone. generalize (exec (handleVisibilityChange (closureOf (st m)))
                                (with_browser (setHidden true) m1)).
    change (preserves (fun m0 => cameraStream (st m0) = None)
              (commitEffects false)).
    pres_frame.
  - intros t Ht. apply commit_keeps_log, Hstops, Ht.
Qed.

Lemma props_change_refreshes_cleanup_witness :
  mounted (run (init laptop) enterSecureMode) = true /\
  isSecureMode (st (run (init laptop) enterSecureMode)) = true /\
  cameraStream (st (run (init laptop) enterSecureMode)) = Some webcam /\
  cameraStream
    (st (run (run (init laptop) enterSecureMode)
           [PropsChange; VisibilityChange true])) = None.
Proof.
  assert (Hm : mounted (run (init laptop) enterSecureMode) = true)
    by reflexivity.
  assert (Hs : isSecureMode (st (run (init laptop) enterSecureMode)) = true)
    by reflexivity.
  assert (Hc : cameraStream (st (run (init laptop) enterSecureMode))
               = Some webcam) by reflexivity.
  repeat (split; [assumption|]).
  exact (proj1 (props_change_refreshes_cleanup laptop enterSecureMode webcam
                  Hm Hs Hc)).
Defined.

(** ** The monitored signals *)

Lemma commit_unmounted b m :
  mounted m = false -> exec (commitEffects b) m = m.
Proof. intros H. destruct m. cbn in H. subst. reflexivity. Qed.

(** The signals of the security and network effects. *)
Definition isDomSignal (e : Event) : bool :=
  match e with
  | FullscreenChange _ | VisibilityChange _ | Blur | KeyDown _ | ContextMenu
  | MouseLeave | Online | Offline => true
  | _ => false
  end.

Lemma unheard_signal e m :
  isDomSignal e = true ->
  domListeners m = [] ->
  st (exec (handle e) m) = st m /\
  log (exec (handle e) m) = log m /\
  mounted (exec (handle e) m) = mounted m /\
  effSecure (exec (handle e) m) = effSecure m.
Proof.
  intros He Hd.
  destruct e; try discriminate He; cbn [handle];
    try (rewrite exec_bind;
         match goal with
         | |- context [exec (modify (with_browser ?f)) m] =>
             change (exec (modify (with_browser f)) m)
               with (with_browser f m)
         end);
    (rewrite dispatch_none; [|reflexivity|destruct m; exact Hd]);
    destruct m; repeat split.
Qed.

(** X16: outside secure mode the component hears nothing: in a session
    whose secure mode is off, or which is unmounted, a fullscreen change,
    a tab switch, a blur, a keydown, a context menu, a mouse leave or a
    change of connectivity logs no violation, makes no call and changes no
    state hook. *)
Theorem signals_ignored_outside_secure_mode b evs e :
  let m := run (init b) evs in
  isSecureMode (st m) = false \/ mounted m = false ->
  isDomSignal e = true ->
  let m' := exec (step e) m in
  st m' = st m /\ log m' = log m.
Proof.
  intros m Hoff He m'.
  assert (Hw : wired m) by apply run_wired, init_wired.
  assert (Hd : domListeners m = []).
  { destruct Hoff as [Hoff|Hoff]; [apply wired_off_silent; assumption|].
    destruct Hw as [Hw _]. unfold wiredListeners in Hw.
    rewrite Hoff in Hw. apply map_nil_inv in Hw. exact Hw. }
  destruct (unheard_signal e m He Hd) as (H1 & H2 & H3 & H4).
  subst m'. unfold step. rewrite exec_bind.
  replace (isPropsChange e) with false by (destruct e; try discriminate He;
                                           reflexivity).
  destruct (mounted m) eqn:Hm.
  - rewrite commit_noop; [split; assumption|].
    rewrite H4, H1. apply Hw, Hm.
  - rewrite commit_unmounted; [split; assumption | exact H3].
Qed.

Lemma signals_ignored_outside_secure_mode_witness :
  (isSecureMode (st (run (init laptop) accepting)) = false \/
   mounted (run (init laptop) accepting) = false) /\
  isDomSignal (VisibilityChange true) = true /\
  log (exec (step (VisibilityChange true)) (run (init laptop) accepting))
  = log (run (init laptop) accepting).
Proof.
  assert (Hoff : isSecureMode (st (run (init laptop) accepting)) = false \/
                 mounted (run (init laptop) accepting) = false)
    by (left; reflexivity).
  assert (He : isDomSignal (VisibilityChange true) = true) by reflexivity.
  split; [exact Hoff|]. split; [exact He|].
  exact (proj2 (signals_ignored_outside_secure_mode laptop accepting
                  (VisibilityChange true) Hoff He)).
Defined.

(** The listener of [sig] in a session in secure mode. *)
Lemma secure_listener sig b evs :
  mounted (run (init b) evs) = true ->
  isSecureMode (st (run (init b) evs)) = true ->
  In sig domSignals ->
  exists l,
    filter (fun x => Signal_eqb (l_signal x) sig)
      (listeners (run (init b) evs)) = [l] /\
    effSecure (run (init b) evs) = true.
Proof.
  intros Hm Hs Hin.
  destruct (run_wired evs (init b) (init_wired b)) as [Hw He].
  specialize (He Hm). unfold wiredListeners in Hw.
  rewrite Hm, He, Hs in Hw. cbn [andb] in Hw.
  destruct (wired_single sig _ Hw Hin) as [l Hl].
  exists l. split; [exact Hl | congruence].
Qed.

(** *** Warnings *)

(** The Warning that a signal raises: its type and its description. *)
Definition warningOf (e : Event) : option (string * string) :=
  match e with
  | Blur => Some ("focus-loss", "Lost window focus")
  | ContextMenu => Some ("context-menu", "Attempted to open context menu")
  | MouseLeave => Some ("mouse-leave", "Mouse left the exam window")
  | _ => None
  end.

Definition suppresses (e : Event) : list Effect :=
  match e with ContextMenu => [PreventDefault] | _ => [] end.

Lemma warning_handler_spec a ty d pre m :
  mounted m = true ->
  let m' := exec (forEach pre emit ;; addViolation a ty warning d) m in
  violations (st m') =
    violations (st m) ++ [mkViolation ty (now (browser m)) warning d] /\
  log m' = log m ++ pre ++ [OnSecurityViolation d warning] /\
  isSecureMode (st m') = isSecureMode (st m) /\
  effSecure m' = effSecure m.
Proof.
  intros Hm. cbn zeta. rewrite exec_bind.
  assert (H : exec (forEach pre emit) m =
              with_log (fun l => l ++ pre) m).
  { clear Hm. revert m. induction pre as [|x pre IH]; intros m.
    - destruct m. unfold exec. cbn [forEach ret snd]. project.
      rewrite app_nil_r. reflexivity.
    - cbn [forEach]. rewrite exec_bind, IH. destruct m.
      unfold emit, modify, exec. cbn [snd]. project.
      rewrite <- app_assoc. reflexivity. }
  rewrite H. break_machine m. cbn in Hm. subst.
  eval_m. repeat split. log_eq.
Qed.

(** X17: in a mounted session in secure mode, a blur, a context menu or a
    mouse leave logs and reports exactly one Warning, of the type of the
    signal and stamped with the current time; the context menu is
    suppressed first.  Secure mode stays on. *)
Theorem warning_signal_logged_once b evs e ty d :
  let m := run (init b) evs in
  mounted m = true ->
  isSecureMode (st m) = true ->
  warningOf e = Some (ty, d) ->
  let m' := exec (step e) m in
  violations (st m') =
    violations (st m) ++ [mkViolation ty (now (browser m)) warning d] /\
  log m' = log m ++ suppresses e ++ [OnSecurityViolation d warning] /\
  isSecureMode (st m') = true.
Proof.
  intros m Hm Hs He m'.
  assert (Hstep : exists a,
            m' = exec (commitEffects false)
                   (exec (forEach (suppresses e) emit ;;
                          addViolation a ty warning d) m)).
  { subst m'. unfold step. rewrite exec_bind.
    destruct e; try discriminate He; cbn in He; injection He as <- <-;
      cbn [handle isPropsChange suppresses forEach].
    - destruct (secure_listener blur b evs Hm Hs) as (l & Hl & _);
        [cbn; tauto|].
      exists (l_closure l).
      rewrite (dispatch_single blur handleBlur l m Hl).
      unfold handleBlur. rewrite (exec_bind (ret tt)). reflexivity.
    - destruct (secure_listener contextmenu b evs Hm Hs) as (l & Hl & _);
        [cbn; tauto|].
      exists (l_closure l).
      rewrite (dispatch_single contextmenu handleContextMenu l m Hl).
      unfold handleContextMenu. rewrite !exec_bind. reflexivity.
    - destruct (secure_listener mouseleave b evs Hm Hs) as (l & Hl & _);
        [cbn; tauto|].
      exists (l_closure l).
      rewrite (dispatch_single mouseleave handleMouseLeave l m Hl).
      unfold handleMouseLeave. rewrite (exec_bind (ret tt)). reflexivity. }
  destruct Hstep as [a Hstep].
  destruct (secure_listener blur b evs Hm Hs) as (_ & _ & Heff);
    [cbn; tauto|].
  destruct (warning_handler_spec a ty d (suppresses e) m Hm)
    as (Hv & Hl & Hsec & Hef).
  cbn zeta in Hv, Hl, Hsec, Hef.
  rewrite Hstep, commit_noop by (fold m in Heff; congruence).
  repeat split; congruence.
Qed.

Lemma warning_signal_logged_once_witness :
  mounted (run (init laptop) enterSecureMode) = true /\
  isSecureMode (st (run (init laptop) enterSecureMode)) = true /\
  warningOf ContextMenu
  = Some ("context-menu", "Attempted to open context menu") /\
  log (exec (step ContextMenu) (run (init laptop) enterSecureMode)) =
  log (run (init laptop) enterSecureMode)
  ++ suppresses ContextMenu
  ++ [OnSecurityViolation "Attempted to open context menu" warning].
Proof.
  assert (Hm : mounted (run (init laptop) enterSecureMode) = true)
    by reflexivity.
  assert (Hs : isSecureMode (st (run (init laptop) enterSecureMode)) = true)
    by reflexivity.
  assert (He : warningOf ContextMenu
               = Some ("context-menu", "Attempted to open context menu"))
    by reflexivity.
  repeat (split; [assumption|]).
  exact (proj1 (proj2 (warning_signal_logged_once laptop enterSecureMode
                         ContextMenu _ _ Hm Hs He))).
Defined.

(** *** Critical signals *)

(** The Critical violation that a signal raises: its type and its
    description. *)
Definition criticalOf (e : Event) : option (string * string) :=
  match e with
  | FullscreenChange false =>
      Some ("fullscreen-exit", "Exited fullscreen mode")
  | VisibilityChange true =>
      Some ("tab-switch", "Switched tabs or minimized window")
  | Offline => Some ("network-loss", "Internet connection lost")
  | _ => None
  end.

Lemma addViolation_turns_off c ty d m :
  mounted m = true ->
  isSecureMode (st (exec (addViolation c ty critical d) m)) = false.
Proof.
  intros Hm. unfold addViolation. do 3 rewrite exec_bind.
  rewrite exec_gets, eval_gets.
  unfold handleSecurityTermination. do 4 rewrite exec_bind.
  set (m1 := exec (emit (Alert _)) _).
  assert (Hm1 : mounted m1 = true).
  { subst m1. destruct m as [? [] ? ? ? ? ? ? []]; try discriminate Hm;
      reflexivity. }
  pose proof (cleanup_turns_secure_mode_off c m1 Hm1) as Hd.
  destruct (exec (cleanupSecureMode c) m1). exact Hd.
Qed.

(** What a Critical violation does to the session. *)
Lemma critical_violation_spec c ty d m :
  mounted m = true ->
  let m' := exec (commitEffects false) (exec (addViolation c ty critical d) m) in
  violations (st m') =
    violations (st m) ++ [mkViolation ty (now (browser m)) critical d] /\
  terminations (log m') = terminations (log m) + 1 /\
  exits (log m') = exits (log m) + 1 /\
  isSecureMode (st m') = false.
Proof.
  intros Hm. cbn zeta.
  destruct (addViolation_appends c ty critical d m Hm) as (_ & Hv & _).
  pose proof (addViolation_log c ty d m) as Hl.
  pose proof (addViolation_turns_off c ty d m Hm) as Hs.
  set (m1 := exec (addViolation c ty critical d) m) in *.
  assert (He : exits (log m1) = exits (log m) + 1).
  { rewrite Hl. repeat rewrite exits_app.
    rewrite exits_terminationCalls. cbn. lia. }
  assert (Ht : terminations (log m1) = terminations (log m) + 1).
  { rewrite Hl. repeat rewrite terminations_app.
    rewrite terminations_terminationCalls. cbn. lia. }
  destruct (commit_keeps_tally _ _ _ false m1 (conj He (conj Ht (conj Hs Hv))))
    as (C1 & C2 & C3 & C4).
  repeat split; assumption.
Qed.

(** X18: in a mounted session in secure mode, leaving fullscreen, hiding
    the tab and losing the connection each log exactly one Critical
    violation, of the type of the signal, show one termination alert and
    send one exit signal; secure mode is off afterwards and the listeners of
    the security and network effects are detached. *)
Theorem critical_signal_terminates b evs e ty d :
  let m := run (init b) evs in
  mounted m = true ->
  isSecureMode (st m) = true ->
  criticalOf e = Some (ty, d) ->
  let m' := exec (step e) m in
  violations (st m') =
    violations (st m) ++ [mkViolation ty (now (browser m)) critical d] /\
  terminations (log m') = terminations (log m) + 1 /\
  exits (log m') = exits (log m) + 1 /\
  isSecureMode (st m') = false /\
  domListeners m' = [].
Proof.
  intros m Hm Hs He m'.
  assert (Hlis : forall sig, In sig domSignals ->
            exists l, filter (fun x => Signal_eqb (l_signal x) sig)
                        (listeners m) = [l]).
  { intros sig Hin.
    destruct (secure_listener sig b evs Hm Hs Hin) as (l & Hl & _).
    exists l. exact Hl. }
  assert (Hw : wired m) by apply run_wired, init_wired.
  clearbody m.
  assert (Hstep : exists a m1,
            m' = exec (commitEffects false)
                   (exec (addViolation a ty critical d) m1) /\
            mounted m1 = true /\
            violations (st m1) = violations (st m) /\
            log m1 = log m /\
            now (browser m1) = now (browser m)).
  { subst m'. unfold step. rewrite exec_bind.
    destruct e as [| | | |[]|[]| | | | | | | | | | | |];
      try discriminate He; cbn in He; injection He as <- <-;
      cbn [handle isPropsChange]; rewrite exec_bind;
      match goal with
      | |- context [exec (modify (with_browser ?f)) m] =>
          change (exec (modify (with_browser f)) m) with (with_browser f m)
      end.
    - destruct (Hlis fullscreenchange) as [l Hl]; [cbn; tauto|].
      exists (l_closure l), (with_browser (setFullscreenElement false) m).
      rewrite (dispatch_single fullscreenchange handleFullscreenChange l);
        [|destruct m; exact Hl].
      destruct m as [? ? ? ? ? ? ? ? ? []]. repeat split. exact Hm.
    - destruct (Hlis visibilitychange) as [l Hl]; [cbn; tauto|].
      exists (l_closure l), (with_browser (setHidden true) m).
      rewrite (dispatch_single visibilitychange handleVisibilityChange l);
        [|destruct m; exact Hl].
      destruct m as [? ? ? ? ? ? ? ? ? []]. repeat split. exact Hm.
    - destruct (Hlis offline) as [l Hl]; [cbn; tauto|].
      exists (l_closure l),
        (exec (setSystemChecks (setNetworkStable false))
           (with_browser (setOnLine false) m)).
      rewrite (dispatch_single offline handleOffline l);
        [|destruct m; exact Hl].
      unfold handleOffline. rewrite exec_bind.
      destruct m as [[] [] ? ? ? ? ? ? ? []]; [|discriminate Hm].
      repeat split. }
  destruct Hstep as (a & m1 & Hstep & Hm1 & Hv1 & Hl1 & Hn1).
  destruct (critical_violation_spec a ty d m1 Hm1) as (K1 & K2 & K3 & K4).
  cbn zeta in K1, K2, K3, K4. rewrite <- Hstep in K1, K2, K3, K4.
  rewrite Hv1, Hn1 in K1. rewrite Hl1 in K2, K3.
  repeat (split; [assumption|]).
  apply wired_off_silent; [|exact K4].
  subst m'. apply step_wired, Hw.
Qed.

Lemma critical_signal_terminates_witness :
  mounted (run (init laptop) enterSecureMode) = true /\
  isSecureMode (st (run (init laptop) enterSecureMode)) = true /\
  criticalOf (FullscreenChange false)
  = Some ("fullscreen-exit", "Exited fullscreen mode") /\
  exits (log (exec (step (FullscreenChange false))
                (run (init laptop) enterSecureMode)))
  = exits (log (run (init laptop) enterSecureMode)) + 1.
Proof.
  assert (Hm : mounted (run (init laptop) enterSecureMode) = true)
    by reflexivity.
  assert (Hs : isSecureMode (st (run (init laptop) enterSecureMode)) = true)
    by reflexivity.
  assert (He : criticalOf (FullscreenChange false)
               = Some ("fullscreen-exit", "Exited fullscreen mode"))
    by reflexivity.
  repeat (split; [assumption|]).
  exact (proj1 (proj2 (proj2 (critical_signal_terminates laptop
                                enterSecureMode (FullscreenChange false)
                                _ _ Hm Hs He)))).
Defined.

(** *** The connection comes back *)

Lemma handleOnline_spec a m :
  mounted m = true ->
  st (exec (handleOnline a) m) =
    mkState (currentStep (st m)) (isSecureMode (st m)) (cameraStream (st m))
      (screenStream (st m)) (violations (st m))
      (setNetworkStable true (systemChecks (st m))) (examStartTime (st m))
      (isLoading (st m)) (agreementAccepted (st m)) /\
  effSecure (exec (handleOnline a) m) = effSecure m.
Proof.
  intros Hm. destruct m as [[] [] ? ? ? ? ? ? ? ? ?]; [|discriminate Hm].
  split; reflexivity.
Qed.

(** X19: in a mounted session in secure mode with nothing loading, the
    [online] signal sets [networkStable] and with it enables the "Start
    Exam" button: a session that was set up offline can start once the
    connection is there. *)
Theorem online_enables_start b evs :
  let m := run (init b) evs in
  mounted m = true ->
  isSecureMode (st m) = true ->
  isLoading (st m) = false ->
  let m' := exec (step Online) m in
  networkStable (systemChecks (st m')) = true /\
  startExamDisabled (st m') = false /\
  isSecureMode (st m') = true.
Proof.
  intros m Hm Hs Hl m'.
  destruct (secure_listener online b evs Hm Hs) as (l & Hf & Heff);
    [cbn; tauto|].
  fold m in Hf, Heff.
  assert (Hc : camera (systemChecks (st m)) = true).
  { destruct (run_coherent evs (init b) (init_coherent b)) as [H1 H2].
    fold m in H1, H2. apply H2, H1, Hs. }
  clearbody m.
  assert (Hstep : m' = exec (handleOnline (l_closure l))
                         (with_browser (setOnLine true) m)).
  { subst m'. unfold step. rewrite exec_bind. cbn [handle isPropsChange].
    rewrite exec_bind.
    change (exec (modify (with_browser (setOnLine true))) m)
      with (with_browser (setOnLine true) m).
    rewrite (dispatch_single online handleOnline l); [|destruct m; exact Hf].
    apply commit_noop.
    destruct (handleOnline_spec (l_closure l)
                (with_browser (setOnLine true) m)) as [K1 K2];
      [destruct m; exact Hm|].
    rewrite K1, K2. destruct m. cbn in *. congruence. }
  destruct (handleOnline_spec (l_closure l) (with_browser (setOnLine true) m))
    as [K1 _]; [destruct m; exact Hm|].
  rewrite Hstep, K1. unfold startExamDisabled.
  destruct m as [[? ? ? ? ? [] ? ? ?] ? ? ? ? ? ? ? ? ? ?].
  cbn in *. subst. repeat split.
Qed.

(** A laptop that is offline when the component is mounted. *)
Definition offlineLaptop : Browser :=
  mkBrowser false false false true true (mkBattery false 0.5) 0.

Lemma online_enables_start_witness :
  mounted (run (init offlineLaptop) enterSecureMode) = true /\
  isSecureMode (st (run (init offlineLaptop) enterSecureMode)) = true /\
  isLoading (st (run (init offlineLaptop) enterSecureMode)) = false /\
  startExamDisabled (st (run (init offlineLaptop) enterSecureMode)) = true /\
  startExamDisabled
    (st (exec (step Online) (run (init offlineLaptop) enterSecureMode)))
  = false.
Proof.
  assert (Hm : mounted (run (init offlineLaptop) enterSecureMode) = true)
    by reflexivity.
  assert (Hs : isSecureMode (st (run (init offlineLaptop) enterSecureMode))
               = true) by reflexivity.
  assert (Hl : isLoading (st (run (init offlineLaptop) enterSecureMode))
               = false) by reflexivity.
  assert (Hd : startExamDisabled
                 (st (run (init offlineLaptop) enterSecureMode)) = true)
    by reflexivity.
  repeat (split; [assumption|]).
  exact (proj1 (proj2 (online_enables_start offlineLaptop enterSecureMode
                         Hm Hs Hl))).
Defined.

(** ** The camera preview *)

(** A call on the [<video>] of the preview. *)
Definition isPreviewCall (e : Effect) : bool :=
  match e with SrcObject _ | VideoPlay => true | _ => false end.

(** Number of calls made on the preview. *)
Definition previewCalls (m : Machine) : nat :=
  List.length (filter isPreviewCall (log m)).

Lemma stops_are_no_preview_calls ts :
  filter isPreviewCall (map TrackStop ts) = [].
Proof. induction ts as [|t ts IH]; [reflexivity | exact IH]. Qed.

Ltac preview_leaf :=
  intros [[? ? ? ? ? ? ? ? ?] [] ? ? ? ? ? ? ? ? ?];
  unfold previewCalls; project;
  rewrite ?filter_app, ?stops_are_no_preview_calls;
  cbn [filter isPreviewCall app]; rewrite ?app_nil_r;
  intuition (try discriminate; try congruence).

Lemma setupCamera_skips_preview n a o m :
  cameraRef m = false ->
  previewCalls m = n ->
  previewCalls (exec (setupCamera a o) m) = n.
Proof.
  intros Hv H. destruct (getUserMedia o) as [stream|] eqn:Hg.
  - unfold exec. rewrite (setupCamera_without_preview a o stream m Hv Hg).
    assert (K : preserves (fun m => previewCalls m = n)
                  (setCameraStream (Some stream) ;;
                   setSystemChecks setCameraMicrophone ;;
                   ret (Fulfilled true)))
      by pres_walk ltac:(fail) ltac:(preview_leaf).
    apply K, H.
  - unfold setupCamera. rewrite Hg. cbv zeta.
    assert (K : preserves (fun m => previewCalls m = n)
                  (emit (ConsoleError "Camera setup failed:") ;;
                   addViolation a "camera-denied" critical
                     "Camera access denied or unavailable" ;;
                   ret (@Fulfilled bool false)))
      by pres_walk ltac:(fail) ltac:(preview_leaf).
    apply K, H.
Qed.

Lemma trySecureSetup_skips_preview n a o m :
  cameraRef m = false ->
  previewCalls m = n ->
  previewCalls (exec (trySecureSetup a o) m) = n.
Proof.
  intros Hv H. unfold trySecureSetup. rewrite exec_bind.
  pose proof (setupCamera_skips_preview n a o m Hv H) as H1.
  revert H1. generalize (exec (setupCamera a o) m).
  generalize (eval (setupCamera a o) m). intros r.
  change (preserves (fun m => previewCalls m = n)
            (match r with
             | Rejected => ret (Throw "")
             | Fulfilled false => ret (Throw "Camera setup failed")
             | Fulfilled true =>
                 fullscreenOk <- enterFullscreen a o ;;
                 match fullscreenOk with
                 | Rejected => ret (Throw "")
                 | Fulfilled false => ret (Throw "Fullscreen setup failed")
                 | Fulfilled true =>
                     screen <- setupScreenShare a o ;;
                     match screen with
                     | Rejected =>
                         addViolation a "screen-share-optional" warning
                           "Screen sharing not available"
                     | Fulfilled _ => ret tt
                     end ;;
                     b <- gets browser ;;
                     setSystemChecks (setFinalChecks (onLine b)) ;;
                     setIsSecureMode true ;;
                     setCurrentStep verification ;;
                     ret Normal
                 end
             end)).
  pres_walk ltac:(fail) ltac:(preview_leaf).
Qed.

(** The button that starts the setup is drawn in the agreement step, and
    the setup leaves that step before it acquires the camera. *)
Lemma startSecureSetup_skips_preview n o :
  preserves (fun m => previewCalls m = n) (startSecureSetup o).
Proof.
  intros m H. unfold startSecureSetup.
  rewrite exec_bind, exec_gets, eval_gets.
  destruct (negb (agreementAccepted (st m))); [exact H|].
  repeat rewrite exec_bind. repeat rewrite exec_gets.
  repeat rewrite eval_gets.
  set (m1 := exec (setCurrentStep setup) (exec (setIsLoading true) m)).
  assert (H1 : previewCalls m1 = n).
  { subst m1. revert m H.
    change (preserves (fun m => previewCalls m = n)
              (setIsLoading true ;; setCurrentStep setup)).
    pres_walk ltac:(fail) ltac:(preview_leaf). }
  pose proof (trySecureSetup_skips_preview n (memo m) o m1
                (setup_step_hides_preview _) H1) as H2.
  revert H2. generalize (exec (trySecureSetup (memo m) o) m1).
  generalize (eval (trySecureSetup (memo m) o) m1). intros r m2 H2.
  assert (K : preserves (fun m0 => previewCalls m0 = n) (setIsLoading false))
    by pres_walk ltac:(fail) ltac:(preview_leaf).
  apply K. destruct r as [|msg]; [exact H2|].
  revert m2 H2.
  change (preserves (fun m0 => previewCalls m0 = n)
            (emit (ConsoleError "Secure setup failed:") ;;
             cleanupSecureMode (closureOf (st m)) ;;
             emit (Alert SetupFailed) ;;
             setCurrentStep agreement)).
  pres_walk ltac:(fail) ltac:(preview_leaf).
Qed.

Ltac known_preview :=
  idtac;
  lazymatch goal with
  | |- preserves _ (startSecureSetup _) => apply startSecureSetup_skips_preview
  end.

Lemma step_skips_preview n e :
  preserves (fun m => previewCalls m = n) (step e).
Proof. destruct e; pres_walk ltac:(known_preview) ltac:(preview_leaf). Qed.

Lemma run_skips_preview n evs :
  forall m, previewCalls m = n -> previewCalls (run m evs) = n.
Proof.
  induction evs as [|e evs IH]; intros m H; [exact H|].
  cbn [run fold_left]. apply IH, step_skips_preview, H.
Qed.

(** During setup the answer of [play()] is not asked for. *)
Lemma trySecureSetup_ignores_play a g p p' r w ms d m :
  cameraRef m = false ->
  trySecureSetup a (mkSetupEnv g p r w ms d) m =
  trySecureSetup a (mkSetupEnv g p' r w ms d) m.
Proof.
  intros Hv. unfold trySecureSetup, bind.
  destruct g as [stream|].
  - rewrite (setupCamera_without_preview a (mkSetupEnv (Fulfilled stream) p r w ms d)
               stream m Hv eq_refl).
    rewrite (setupCamera_without_preview a (mkSetupEnv (Fulfilled stream) p' r w ms d)
               stream m Hv eq_refl).
    reflexivity.
  - reflexivity.
Qed.

Lemma click_ignores_play g p p' r w ms d m :
  exec (handle (ClickEnterSecureMode (mkSetupEnv g p r w ms d))) m =
  exec (handle (ClickEnterSecureMode (mkSetupEnv g p' r w ms d))) m.
Proof.
  destruct (shown agreement m) eqn:Hs;
    [destruct (enterDisabled (st m)) eqn:Hd|].
  - cbn [handle]. do 2 rewrite exec_bind, exec_gets, eval_gets.
    rewrite Hs, Hd. reflexivity.
  - do 2 rewrite (enabled_click_runs_setup m _ Hs Hd).
    set (m1 := exec (setCurrentStep setup) (exec (setIsLoading true) m)).
    pose proof (trySecureSetup_ignores_play (memo m) g p p' r w ms d m1
                  (setup_step_hides_preview _)) as E.
    assert (Ee : eval (trySecureSetup (memo m) (mkSetupEnv g p r w ms d)) m1
                 = eval (trySecureSetup (memo m) (mkSetupEnv g p' r w ms d)) m1)
      by (unfold eval; rewrite E; reflexivity).
    assert (Ex : exec (trySecureSetup (memo m) (mkSetupEnv g p r w ms d)) m1
                 = exec (trySecureSetup (memo m) (mkSetupEnv g p' r w ms d)) m1)
      by (unfold exec; rewrite E; reflexivity).
    rewrite Ee, Ex. reflexivity.
  - cbn [handle]. do 2 rewrite exec_bind, exec_gets, eval_gets.
    rewrite Hs. reflexivity.
Qed.

(** X20: the preview is never started.  The [<video>] of [cameraRef] is
    drawn in the verification step only, and [setupCamera] runs only after
    a click in the agreement step has moved the component to the setup
    step: in every session from mount no [srcObject] is assigned and
    [play()] is not called, and a click on "Enter Secure Mode" does the
    same whatever [play()] would have answered. *)
Theorem preview_is_never_started :
  (forall b evs, previewCalls (run (init b) evs) = 0) /\
  (forall g p p' r w ms d m,
     exec (step (ClickEnterSecureMode (mkSetupEnv g p r w ms d))) m =
     exec (step (ClickEnterSecureMode (mkSetupEnv g p' r w ms d))) m).
Proof.
  split.
  - intros b evs. apply run_skips_preview. reflexivity.
  - intros g p p' r w ms d m. unfold step. do 2 rewrite exec_bind.
    rewrite (click_ignores_play g p p' r w ms d m). reflexivity.
Qed.

(** ** The battery check *)

(** [isCharging || level > 20], with [level = battery.level * 100]. *)
Definition batteryOk (r : Battery) : bool :=
  charging r || PrimFloat.ltb 20 (percent r).

Lemma updateBatteryStatus_flag a m :
  mounted m = true ->
  let m' := exec (updateBatteryStatus a) m in
  batteryLevel (systemChecks (st m')) = batteryOk (battery (browser m)) /\
  mounted m' = true /\
  browser m' = browser m.
Proof.
  intros Hm. break_machine m. cbn in Hm. subst.
  destruct battery0 as [chg lvl]. unfold batteryOk, percent.
  cbn [battery browser charging level].
  destruct chg; eval_m;
    repeat match goal with
    | |- context [PrimFloat.ltb ?x ?y] => destruct (PrimFloat.ltb x y)
    end;
    repeat split.
Qed.

Lemma battery_listeners_flag r l :
  l <> [] ->
  forall m,
    mounted m = true ->
    battery (browser m) = r ->
    batteryLevel
      (systemChecks
         (st (exec (forEach l (fun x => updateBatteryStatus (l_closure x))) m)))
    = batteryOk r.
Proof.
  induction l as [|x l IH]; intros Hne m Hm Hr; [contradiction|].
  cbn [forEach]. rewrite exec_bind.
  destruct (updateBatteryStatus_flag (l_closure x) m Hm) as (Hf & Hm' & Hb).
  cbn zeta in Hf, Hm', Hb.
  destruct l as [|y l'].
  - cbn [forEach]. change (exec (ret tt) ?z) with z. rewrite Hf, Hr.
    reflexivity.
  - apply IH; [discriminate | exact Hm' | congruence].
Qed.

(** The product [battery.level * 100] is the float 20. *)
Definition atTwenty (r : Battery) : Prop := percent r = 20%float.

(** X21: a level change heard by a battery listener sets the
    [batteryLevel] check to "charging, or [battery.level * 100 > 20]",
    while the warning is raised for "unplugged and
    [battery.level * 100 < 20]", both on the product of floats: when that
    product is 20 on battery, the check turns false and no violation is
    logged. *)
Theorem battery_check_follows_reading m r :
  mounted m = true ->
  effSecure m = isSecureMode (st m) ->
  0 < attached levelchange m ->
  let m' := exec (step (LevelChange r)) m in
  batteryLevel (systemChecks (st m')) = batteryOk r /\
  (charging r = false -> atTwenty r ->
   batteryLevel (systemChecks (st m')) = false /\
   violations (st m') = violations (st m) /\
   countType "battery-low" m' = countType "battery-low" m).
Proof.
  intros Hm He Ha m'.
  assert (Hflag : batteryLevel (systemChecks (st m')) = batteryOk r).
  { subst m'. unfold step. rewrite exec_bind. cbn [handle isPropsChange].
    rewrite exec_bind. unfold dispatch. rewrite exec_bind.
    set (m1 := exec (modify (with_browser (setBattery r))) m).
    assert (H1 : mounted m1 = true /\ battery (browser m1) = r /\
                 isSecureMode (st m1) = isSecureMode (st m) /\
                 effSecure m1 = effSecure m /\ listeners m1 = listeners m).
    { subst m1. break_machine m. cbn in Hm. subst. repeat split. }
    destruct H1 as (Hm1 & Hb1 & Hs1 & He1 & Hl1).
    change (exec (gets listeners) m1) with m1.
    change (eval (gets listeners) m1) with (listeners m1).
    cbn beta. rewrite Hl1.
    set (l := filter (fun l => Signal_eqb (l_signal l) levelchange)
                (listeners m)).
    assert (Hne : l <> []).
    { unfold attached in Ha. fold l in Ha. intros E. rewrite E in Ha.
      cbn in Ha. lia. }
    destruct (battery_listeners_log r l m1 Hm1 Hb1) as (_ & _ & Hs2 & He2).
    rewrite commit_noop by congruence.
    apply battery_listeners_flag; assumption. }
  split; [exact Hflag|].
  intros Hc Ht. unfold atTwenty in Ht.
  assert (Hlow : lowAndUnplugged r = false).
  { unfold lowAndUnplugged. rewrite Hc, Ht. reflexivity. }
  split; [|split].
  - rewrite Hflag. unfold batteryOk. rewrite Hc, Ht. reflexivity.
  - pose proof (battery_event_log levelchange r m Hm He) as Hlog.
    cbn zeta in Hlog.
    change (violations (st m') =
            violations (st m)
            ++ batteryLowLogged r (now (browser m)) (attached levelchange m))
      in Hlog.
    rewrite Hlog. unfold batteryLowLogged. rewrite Hlow. apply app_nil_r.
  - pose proof (battery_event_count levelchange r m Hm He) as Hcnt.
    cbn zeta in Hcnt.
    change (countType "battery-low" m' =
            countType "battery-low" m
            + (if lowAndUnplugged r then attached levelchange m else 0))
      in Hcnt.
    rewrite Hcnt, Hlow. lia.
Qed.

(** Unplugged, at 20 percent. *)
Definition twentyPercent : Battery := mkBattery false 0.2.

Lemma battery_check_follows_reading_witness :
  mounted verifying = true /\
  effSecure verifying = isSecureMode (st verifying) /\
  0 < attached levelchange verifying /\
  charging twentyPercent = false /\
  atTwenty twentyPercent /\
  batteryLevel
    (systemChecks (st (exec (step (LevelChange twentyPercent)) verifying)))
  = false.
Proof.
  assert (Hm : mounted verifying = true) by reflexivity.
  assert (He : effSecure verifying = isSecureMode (st verifying))
    by reflexivity.
  assert (Ha : 0 < attached levelchange verifying)
    by (vm_compute; apply le_n).
  assert (Hc : charging twentyPercent = false) by reflexivity.
  assert (Ht : atTwenty twentyPercent) by reflexivity.
  repeat (split; [assumption|]).
  exact (proj1 (proj2 (battery_check_follows_reading verifying twentyPercent
                         Hm He Ha) Hc Ht)).
Defined.


(** ** Checks that nothing reads *)

(** The checks with [microphone] and [batteryLevel] blanked. *)
Definition blankUnread (p : SystemChecks) : SystemChecks :=
  mkChecks (camera p) false (fullscreen p) (networkStable p) false
    (noOtherApps p).

Definition blanked (m : Machine) : Machine :=
  with_st (fun s => mkState (currentStep s) (isSecureMode s) (cameraStream s)
    (screenStream s) (violations s) (blankUnread (systemChecks s))
    (examStartTime s) (isLoading s) (agreementAccepted s)) m.

(** Two machines that differ at most in the two checks. *)
Definition similar (m1 m2 : Machine) : Prop := blanked m1 = blanked m2.

(** [c] reads neither check. *)
Definition unread {A} (c : M A) : Prop :=
  forall m1 m2, similar m1 m2 ->
    eval c m1 = eval c m2 /\ similar (exec c m1) (exec c m2).

Lemma unread_ret {A} (a : A) : unread (ret a).
Proof. intros m1 m2 H. split; [reflexivity | exact H]. Qed.

Lemma unread_gets {A} (f : Machine -> A) :
  (forall m1 m2, similar m1 m2 -> f m1 = f m2) -> unread (gets f).
Proof. intros Hf m1 m2 H. split; [apply Hf, H | exact H]. Qed.

Lemma unread_modify f :
  (forall m1 m2, similar m1 m2 -> similar (f m1) (f m2)) -> unread (modify f).
Proof. intros Hf m1 m2 H. split; [reflexivity | apply Hf, H]. Qed.

Lemma unread_bind {A B} (c : M A) (k : A -> M B) :
  unread c -> (forall a, unread (k a)) -> unread (bind c k).
Proof.
  intros Hc Hk m1 m2 H. rewrite !exec_bind, !eval_bind.
  destruct (Hc m1 m2 H) as [He Hx]. rewrite He. apply Hk, Hx.
Qed.

Lemma unread_when b (c : M unit) : unread c -> unread (when b c).
Proof. intros Hc. destruct b; [exact Hc | apply unread_ret]. Qed.

Lemma unread_forEach {A} (l : list A) (f : A -> M unit) :
  (forall a, unread (f a)) -> unread (forEach l f).
Proof.
  intros Hf. induction l as [|a l IH]; [apply unread_ret|].
  cbn [forEach]. apply unread_bind; [apply Hf | intros _; exact IH].
Qed.

Ltac similar_leaf :=
  intros [[? ? ? ? ? [] ? ? ?] [] ? ? ? ? ? ? ? ? ?]
         [[? ? ? ? ? [] ? ? ?] [] ? ? ? ? ? ? ? ? ?] H;
  unfold similar, blanked, with_st in H; cbn in H;
  try discriminate H;
  injection H; intros; subst; reflexivity.

Ltac unread_walk known :=
  repeat (cbv beta iota zeta;
    lazymatch goal with
    | |- unread ?c =>
        first
          [ known
          | lazymatch c with
            | ret _ => apply unread_ret
            | gets _ => apply unread_gets; solve [similar_leaf]
            | bind _ _ => apply unread_bind; [|intro]
            | when _ _ => apply unread_when
            | forEach _ _ => apply unread_forEach; intro
            | modify _ => apply unread_modify; solve [similar_leaf]
            | match ?x with _ => _ end => destruct x
            | _ => unfold_model
            end ]
    end).

Lemma emit_unread e : unread (emit e).
Proof. unread_walk ltac:(fail). Qed.

Lemma setCurrentStep_unread x : unread (setCurrentStep x).
Proof. unread_walk ltac:(fail). Qed.

Lemma setIsSecureMode_unread x : unread (setIsSecureMode x).
Proof. unread_walk ltac:(fail). Qed.

Lemma setIsLoading_unread x : unread (setIsLoading x).
Proof. unread_walk ltac:(fail). Qed.

Lemma setCameraStream_unread x : unread (setCameraStream x).
Proof. unread_walk ltac:(fail). Qed.

Lemma setScreenStream_unread x : unread (setScreenStream x).
Proof. unread_walk ltac:(fail). Qed.

Ltac unread_setters :=
  idtac;
  lazymatch goal with
  | |- unread (emit _) => apply emit_unread
  | |- unread (setCurrentStep _) => apply setCurrentStep_unread
  | |- unread (setIsSecureMode _) => apply setIsSecureMode_unread
  | |- unread (setIsLoading _) => apply setIsLoading_unread
  | |- unread (setCameraStream _) => apply setCameraStream_unread
  | |- unread (setScreenStream _) => apply setScreenStream_unread
  end.

Lemma cleanupSecureMode_unread c : unread (cleanupSecureMode c).
Proof. unread_walk ltac:(unread_setters). Qed.

Lemma handleSecurityTermination_unread c r :
  unread (handleSecurityTermination c r).
Proof.
  unfold handleSecurityTermination.
  unread_walk ltac:(first [apply cleanupSecureMode_unread | unread_setters]).
Qed.

Lemma addViolation_unread c ty sev d : unread (addViolation c ty sev d).
Proof.
  unfold addViolation, handleSecurityTermination.
  unread_walk ltac:(first [apply cleanupSecureMode_unread | unread_setters]).
Qed.

Ltac unread_known :=
  idtac;
  lazymatch goal with
  | |- unread (addViolation _ _ _ _) => apply addViolation_unread
  | |- unread (handleSecurityTermination _ _) =>
      apply handleSecurityTermination_unread
  | |- unread (cleanupSecureMode _) => apply cleanupSecureMode_unread
  | |- _ => unread_setters
  end.

Lemma step_unread e : unread (step e).
Proof. destruct e; unread_walk ltac:(unread_known). Qed.

Lemma run_similar evs :
  forall m1 m2, similar m1 m2 -> similar (run m1 evs) (run m2 evs).
Proof.
  induction evs as [|e evs IH]; intros m1 m2 H; [exact H|].
  cbn [run fold_left]. apply IH, step_unread, H.
Qed.

Lemma similar_agree m1 m2 :
  similar m1 m2 ->
  log m1 = log m2 /\
  violations (st m1) = violations (st m2) /\
  currentStep (st m1) = currentStep (st m2) /\
  isSecureMode (st m1) = isSecureMode (st m2).
Proof.
  destruct m1 as [[? ? ? ? ? [] ? ? ?] ? ? ? ? ? ? ? ? ? ?],
           m2 as [[? ? ? ? ? [] ? ? ?] ? ? ? ? ? ? ? ? ? ?].
  unfold similar, blanked, with_st. cbn. intros H.
  injection H; intros; subst. repeat split.
Qed.

(** The machine with the two checks overwritten. *)
Definition withUnread (mic bat : bool) (m : Machine) : Machine :=
  with_st (fun s => mkState (currentStep s) (isSecureMode s) (cameraStream s)
    (screenStream s) (violations s)
    (mkChecks (camera (systemChecks s)) mic (fullscreen (systemChecks s))
       (networkStable (systemChecks s)) bat (noOtherApps (systemChecks s)))
    (examStartTime s) (isLoading s) (agreementAccepted s)) m.

Lemma withUnread_similar mic bat m : similar (withUnread mic bat m) m.
Proof.
  destruct m as [[? ? ? ? ? [] ? ? ?] ? ? ? ? ? ? ? ? ? ?]. reflexivity.
Qed.

(** X22: the [microphone] and [batteryLevel] checks are written but never
    read: two sessions that differ only in them go through any sequence of
    events with the same calls, the same violations, the same step and the
    same secure mode, and differ afterwards in these two checks at most. *)
Theorem microphone_and_battery_checks_unread evs mic bat m :
  let m1 := run (withUnread mic bat m) evs in
  let m2 := run m evs in
  similar m1 m2 /\
  log m1 = log m2 /\
  violations (st m1) = violations (st m2) /\
  currentStep (st m1) = currentStep (st m2) /\
  isSecureMode (st m1) = isSecureMode (st m2).
Proof.
  intros m1 m2.
  assert (H : similar m1 m2) by apply run_similar, withUnread_similar.
  split; [exact H | apply similar_agree, H].
Qed.

(* ================================================================== *)
(** * ExamEnv: the page that houses the component

    [ExamEnv] (ExamEnv.tsx) loads the test, checks the permissions of the
    browser, renders [SecureExamEnvironment] and implements its three
    props.  Its state hooks, the calls it makes and the answers it gets
    are modelled as for the component; the page is taken to stay mounted. *)

Module ExamEnv.

(** [initializationStep]: ['loading' | 'permissions' | 'ready' | 'error']. *)
Inductive InitStep := stepLoading | stepPermissions | stepReady | stepError.

(** [interface TestData] and [interface ExamFormData], as far as used. *)
Record TestData := mkTest { id : string; testName : string }.
Record ExamFormData := mkForm { attemptId : string; limit : option nat }.

(** The texts of the [alert] calls of the page. *)
Inductive AlertText :=
| CameraRequired | CameraDenied | MicrophoneRequired
| FullscreenUnsupported | MediaUnsupported
| CriticalViolation (violation : string).

(** Calls that leave the page. *)
Inductive Call :=
| ShowAlert (a : AlertText)
| LogError (msg : string)
| LogMessage (msg : string)
| GetTest (testId : string)
| PostViolation (violation : string) (sev : Severity)
| StopTrack (track : nat)
| Navigate (path : string) (replace : bool).

(** The state hooks of the page, and the calls made so far. *)
Record Page := mkPage {
  showSecureEnvironment : bool;
  permissionsGranted : bool;
  isLoading : bool;
  formData : ExamFormData;
  testData : list TestData;
  error : string;
  initializationStep : InitStep;
  calls : list Call
}.

(** The route parameters [userId] and [testId] of [useParams]. *)
Record Route := mkRoute { userId : option string; testId : option string }.

(** A parameter inside a template literal. *)
Definition paramText (p : option string) : string :=
  match p with Some s => s | None => "undefined" end.

(** [!p] for a parameter: undefined or the empty string. *)
Definition missing (p : option string) : bool :=
  match p with Some s => String.eqb s "" | None => true end.

(** [initialFormData]; [nav] is [location.state?.formData]. *)
Definition initialFormData (nav : option ExamFormData) (r : Route)
  : ExamFormData :=
  match nav with
  | Some f => f
  | None =>
      mkForm (if missing (testId r) then "" else paramText (testId r))
        (Some 10)
  end.

(** The page at its first render. *)
Definition init (nav : option ExamFormData) (r : Route) : Page :=
  mkPage false false false (initialFormData nav r) [] "" stepLoading [].

(** ** The state monad of the page *)

Definition M (A : Type) : Type := Page -> A * Page.
Definition ret {A} (a : A) : M A := fun p => (a, p).
Definition bind {A B} (c : M A) (k : A -> M B) : M B :=
  fun p => let (a, p') := c p in k a p'.
Definition exec {A} (c : M A) (p : Page) : Page := snd (c p).
Definition eval {A} (c : M A) (p : Page) : A := fst (c p).
Definition modify (f : Page -> Page) : M unit := fun p => (tt, f p).

Declare Scope page_scope.
Notation "x <- c ;; k" := (bind c (fun x => k))
  (at level 61, c at next level, right associativity) : page_scope.
Notation "c ;; k" := (bind c (fun _ => k))
  (at level 61, right associativity) : page_scope.
Local Open Scope page_scope.

Fixpoint forEach {A} (l : list A) (f : A -> M unit) : M unit :=
  match l with
  | [] => ret tt
  | a :: l' => f a ;; forEach l' f
  end.

Definition emit (c : Call) : M unit :=
  modify (fun p => mkPage (showSecureEnvironment p) (permissionsGranted p)
    (isLoading p) (formData p) (testData p) (error p) (initializationStep p)
    (calls p ++ [c])).

Definition setShowSecureEnvironment (x : bool) : M unit :=
  modify (fun p => mkPage x (permissionsGranted p)
    (isLoading p) (formData p) (testData p) (error p) (initializationStep p)
    (calls p)).

Definition setPermissionsGranted (x : bool) : M unit :=
  modify (fun p => mkPage (showSecureEnvironment p) x
    (isLoading p) (formData p) (testData p) (error p) (initializationStep p)
    (calls p)).

Definition setIsLoading (x : bool) : M unit :=
  modify (fun p => mkPage (showSecureEnvironment p) (permissionsGranted p)
    x (formData p) (testData p) (error p) (initializationStep p) (calls p)).

Definition setFormData (f : ExamFormData -> ExamFormData) : M unit :=
  modify (fun p => mkPage (showSecureEnvironment p) (permissionsGranted p)
    (isLoading p) (f (formData p)) (testData p) (error p)
    (initializationStep p) (calls p)).

Definition setTestData (x : list TestData) : M unit :=
  modify (fun p => mkPage (showSecureEnvironment p) (permissionsGranted p)
    (isLoading p) (formData p) x (error p) (initializationStep p) (calls p)).

Definition setError (x : string) : M unit :=
  modify (fun p => mkPage (showSecureEnvironment p) (permissionsGranted p)
    (isLoading p) (formData p) (testData p) x (initializationStep p)
    (calls p)).

Definition setInitializationStep (x : InitStep) : M unit :=
  modify (fun p => mkPage (showSecureEnvironment p) (permissionsGranted p)
    (isLoading p) (formData p) (testData p) (error p) x (calls p)).

(** [stream.getTracks().forEach((track) => track.stop())]. *)
Definition stopTracks (s : MediaStream) : M unit :=
  modify (fun p => mkPage (showSecureEnvironment p) (permissionsGranted p)
    (isLoading p) (formData p) (testData p) (error p) (initializationStep p)
    (calls p ++ map StopTrack (getTracks s))).

(** ** Loading the test *)

(** The [Response] of [fetch]: [response.ok], and how [response.json()]
    settles. *)
Record Response := mkResponse { ok : bool; json : Settled TestData }.

(** [fetchTestData]; [r] is how the [fetch] settles. *)
Definition fetchTestData (rt : Route) (r : Settled Response) : M unit :=
  let onError :=
    emit (LogError "Error fetching test data:") ;;
    setError "Failed to load test information. Please try again." ;;
    setInitializationStep stepError in
  if missing (testId rt) then
    setError "No test ID provided" ;;
    setInitializationStep stepError
  else
    setIsLoading true ;;
    emit (GetTest (paramText (testId rt))) ;;
    match r with
    | Fulfilled response =>
        if ok response then
          match json response with
          | Fulfilled test =>
              setTestData [test] ;;
              setFormData (fun prev =>
                mkForm (paramText (testId rt)) (limit prev))
          | Rejected => onError
          end
        else onError
    | Rejected => onError
    end ;;
    setIsLoading false.

(** ** The permissions of the browser *)

(** [PermissionStatus.state]. *)
Inductive PermissionState := granted | denied | prompt.

Definition isGranted (s : PermissionState) : bool :=
  match s with granted => true | _ => false end.

(** What the browser answers during one run of [requestPermissions].  A
    call on an API that the browser does not define throws inside a [try],
    which is the same as a promise that rejects. *)
Record PermEnv := mkPermEnv {
  queryCamera : Settled PermissionState;
  queryMicrophone : Settled PermissionState;
  videoStream : Settled MediaStream;     (* getUserMedia({video: true}) *)
  audioStream : Settled MediaStream;     (* getUserMedia({audio: true}) *)
  bothStreams : Settled MediaStream;     (* getUserMedia({video, audio}) *)
  hasRequestFullscreen : bool;
  hasWebkitRequestFullscreen : bool;
  hasMsRequestFullscreen : bool;
  hasGetUserMedia : bool   (* navigator.mediaDevices?.getUserMedia defined *)
}.

(** [navigator.mediaDevices.getUserMedia(...)], awaited. *)
Definition getUserMedia (env : PermEnv) (answer : Settled MediaStream)
  : Settled MediaStream :=
  if hasGetUserMedia env then answer else Rejected.

Definition checkCameraPermission (env : PermEnv) : M bool :=
  match queryCamera env with
  | Fulfilled s => ret (isGranted s)
  | Rejected =>
      match getUserMedia env (videoStream env) with
      | Fulfilled stream => stopTracks stream ;; ret true
      | Rejected => ret false
      end
  end.

Definition checkMicrophonePermission (env : PermEnv) : M bool :=
  match queryMicrophone env with
  | Fulfilled s => ret (isGranted s)
  | Rejected =>
      match getUserMedia env (audioStream env) with
      | Fulfilled stream => stopTracks stream ;; ret true
      | Rejected => ret false
      end
  end.

Definition requestFullscreenCapability (env : PermEnv) : bool :=
  hasRequestFullscreen env || hasWebkitRequestFullscreen env
  || hasMsRequestFullscreen env.

(** The [try] block of [requestPermissions]; none of its calls throws, so
    the [catch] block never runs. *)
Definition tryPermissions (env : PermEnv) : M bool :=
  cameraGranted <- checkCameraPermission env ;;
  asked <-
    (if negb cameraGranted then
       emit (ShowAlert CameraRequired) ;;
       match getUserMedia env (bothStreams env) with
       | Fulfilled stream => stopTracks stream ;; ret true
       | Rejected =>
           emit (ShowAlert CameraDenied) ;;
           setInitializationStep stepError ;;
           ret false
       end
     else ret true) ;;
  if negb asked then ret false
  else
    micGranted <- checkMicrophonePermission env ;;
    if negb micGranted then
      emit (ShowAlert MicrophoneRequired) ;;
      setInitializationStep stepError ;;
      ret false
    else if negb (requestFullscreenCapability env) then
      emit (ShowAlert FullscreenUnsupported) ;;
      setInitializationStep stepError ;;
      ret false
    else if negb (hasGetUserMedia env) then
      emit (ShowAlert MediaUnsupported) ;;
      setInitializationStep stepError ;;
      ret false
    else
      setPermissionsGranted true ;;
      setInitializationStep stepReady ;;
      ret true.

Definition requestPermissions (env : PermEnv) : M bool :=
  setIsLoading true ;;
  setInitializationStep stepPermissions ;;
  r <- tryPermissions env ;;
  setIsLoading false ;;
  ret r.

(** [initializeExam], the body of the mount effect. *)
Definition initializeExam (rt : Route) (r : Settled Response) (env : PermEnv)
  : M unit :=
  fetchTestData rt r ;;
  permissionsOk <- requestPermissions env ;;
  if negb permissionsOk then ret tt
  else setShowSecureEnvironment true.

(** ** The props of the component *)

Definition handleExamStart (rt : Route) : M unit :=
  emit (LogMessage "Exam started with data:") ;;
  emit (Navigate ("/exam/" ++ paramText (testId rt) ++ "/questions") false).

Definition handleExitSecure (rt : Route) : M unit :=
  setShowSecureEnvironment false ;;
  setPermissionsGranted false ;;
  emit (Navigate ("/dashboard/" ++ paramText (userId rt)) true).

Definition severityText (sev : Severity) : string :=
  match sev with warning => "warning" | critical => "critical" end.

Definition handleSecurityViolation (rt : Route) (violation : string)
    (sev : Severity) : M unit :=
  emit (LogMessage ("Security violation [" ++ severityText sev ++ "]:")) ;;
  emit (PostViolation violation sev) ;;
  match sev with
  | critical =>
      emit (ShowAlert (CriticalViolation violation)) ;;
      handleExitSecure rt
  | warning => ret tt
  end.

(** ** The buttons of the error screen *)

Definition handleRetry (rt : Route) (r : Settled Response) : M unit :=
  setError "" ;;
  setInitializationStep stepLoading ;;
  fetchTestData rt r.

Definition handleGoBack (rt : Route) : M unit :=
  emit (Navigate ("/dashboard/" ++ paramText (userId rt)) false).

(** ** What the page renders *)

Inductive View :=
| SecureEnvironment | LoadingScreen | ErrorScreen | PermissionsScreen
| ReadyScreen.

Definition InitStep_eqb (a b : InitStep) : bool :=
  match a, b with
  | stepLoading, stepLoading | stepPermissions, stepPermissions
  | stepReady, stepReady | stepError, stepError => true
  | _, _ => false
  end.

(** The cascade of [if] statements that ends the function. *)
Definition render (p : Page) : View :=
  if showSecureEnvironment p then SecureEnvironment
  else if InitStep_eqb (initializationStep p) stepLoading || isLoading p
  then LoadingScreen
  else if InitStep_eqb (initializationStep p) stepError
          || negb (String.eqb (error p) "")
  then ErrorScreen
  else if InitStep_eqb (initializationStep p) stepPermissions
  then PermissionsScreen
  else ReadyScreen.

(** ** The calls of the component, received by the page *)

Definition receive (rt : Route) (e : Effect) : M unit :=
  match e with
  | OnSecurityViolation descr sev => handleSecurityViolation rt descr sev
  | OnExitSecure => handleExitSecure rt
  | OnStartExam => handleExamStart rt
  | _ => ret tt
  end.

Definition deliver (rt : Route) (l : list Effect) : M unit :=
  forEach l (receive rt).

(** ** Properties of the page *)

Lemma page_exec_bind {A B} (c : M A) (k : A -> M B) p :
  exec (bind c k) p = exec (k (eval c p)) (exec c p).
Proof. unfold exec, eval, bind. destruct (c p). reflexivity. Qed.

Definition answered {A} (r : Settled A) : bool :=
  match r with Fulfilled _ => true | Rejected => false end.

(** The camera can be used: the permission is granted already, or the
    user grants the request that follows. *)
Definition cameraOk (env : PermEnv) : bool :=
  match queryCamera env with
  | Fulfilled s =>
      isGranted s || answered (getUserMedia env (bothStreams env))
  | Rejected =>
      answered (getUserMedia env (videoStream env))
      || answered (getUserMedia env (bothStreams env))
  end.

(** The microphone permission is granted already; it is asked for only
    where the permissions API cannot be queried. *)
Definition microphoneOk (env : PermEnv) : bool :=
  match queryMicrophone env with
  | Fulfilled s => isGranted s
  | Rejected => answered (getUserMedia env (audioStream env))
  end.

Definition permissionsOk (env : PermEnv) : bool :=
  cameraOk env && microphoneOk env && requestFullscreenCapability env
  && hasGetUserMedia env.

Ltac break_env env :=
  destruct env as [[[]|] [[]|] [?|] [?|] [?|] [] [] [] []].

(** What the permission check leaves behind. *)
Lemma requestPermissions_state env p :
  let p' := exec (requestPermissions env) p in
  eval (requestPermissions env) p = permissionsOk env /\
  p' = mkPage (showSecureEnvironment p)
         (permissionsOk env || permissionsGranted p) false (formData p)
         (testData p) (error p)
         (if permissionsOk env then stepReady else stepError) (calls p').
Proof. destruct p. break_env env; split; reflexivity. Qed.

(** X23: [requestPermissions] resolves to [true] exactly when the camera
    permission is granted or the camera request is, the microphone
    permission is granted (a microphone that awaits the user's answer is
    never asked for and counts as refused), a fullscreen entry point
    exists and [getUserMedia] is defined.  It always ends with nothing
    loading, in step ['ready'] with [permissionsGranted] set on success
    and in step ['error'] otherwise; it never shows the secure
    environment itself. *)
Theorem request_permissions_result env p :
  let p' := exec (requestPermissions env) p in
  eval (requestPermissions env) p = permissionsOk env /\
  isLoading p' = false /\
  initializationStep p' =
    (if permissionsOk env then stepReady else stepError) /\
  permissionsGranted p' = (permissionsOk env || permissionsGranted p) /\
  showSecureEnvironment p' = showSecureEnvironment p.
Proof.
  destruct (requestPermissions_state env p) as [He Hp]. cbn zeta.
  split; [exact He|]. rewrite Hp. repeat split.
Qed.

(** The test is loaded: the route names one, the response is ok and its
    body can be read. *)
Definition fetchOk (rt : Route) (r : Settled Response) : bool :=
  negb (missing (testId rt)) &&
  match r with
  | Fulfilled response => ok response && answered (json response)
  | Rejected => false
  end.

(** What loading the test leaves behind, the calls apart. *)
Lemma fetchTestData_state rt r p :
  let p' := exec (fetchTestData rt r) p in
  (fetchOk rt r = true ->
   exists test,
     p' = mkPage (showSecureEnvironment p) (permissionsGranted p) false
            (mkForm (paramText (testId rt)) (limit (formData p))) [test]
            (error p) (initializationStep p) (calls p')) /\
  (fetchOk rt r = false ->
   exists msg,
     msg <> "" /\
     p' = mkPage (showSecureEnvironment p) (permissionsGranted p)
            (if missing (testId rt) then isLoading p else false)
            (formData p) (testData p) msg stepError (calls p')).
Proof.
  destruct p, rt as [u t]. unfold fetchOk, fetchTestData.
  cbn [testId]. destruct (missing t); cbn [negb andb].
  - split; [discriminate|]. intros _. eexists. split; [|reflexivity].
    discriminate.
  - destruct r as [[[] [test|]]|]; cbn [ok json answered andb];
      (split; [intros H; try discriminate H; eexists; reflexivity|]);
      intros H; try discriminate H;
      (eexists; split; [|reflexivity]); discriminate.
Qed.

(** X24: the mount effect shows the secure environment exactly when the
    permission check passes, whether or not the test could be loaded: after
    a failed load with the permissions in order, the page renders the
    component with no test data, the error message set but never shown.
    When the check fails the page renders the error screen. *)
Theorem initialize_exam_ignores_fetch_failure nav rt r env :
  let p := exec (initializeExam rt r env) (init nav rt) in
  showSecureEnvironment p = permissionsOk env /\
  render p = (if permissionsOk env then SecureEnvironment else ErrorScreen) /\
  (fetchOk rt r = false -> testData p = [] /\ error p <> "").
Proof.
  cbn zeta. unfold initializeExam. rewrite page_exec_bind, page_exec_bind.
  set (p1 := exec (fetchTestData rt r) (init nav rt)).
  destruct (requestPermissions_state env p1) as [He Hp]. cbn zeta in Hp.
  rewrite He.
  set (p2 := exec (requestPermissions env) p1) in *.
  assert (H1 : showSecureEnvironment p1 = false).
  { subst p1. destruct (fetchOk rt r) eqn:E.
    - destruct (proj1 (fetchTestData_state rt r (init nav rt)) E) as [t Ht].
      cbn zeta in Ht. rewrite Ht. reflexivity.
    - destruct (proj2 (fetchTestData_state rt r (init nav rt)) E)
        as (msg & _ & Ht).
      cbn zeta in Ht. rewrite Ht. reflexivity. }
  assert (H2 : fetchOk rt r = false -> testData p1 = [] /\ error p1 <> "").
  { intros E. subst p1.
    destruct (proj2 (fetchTestData_state rt r (init nav rt)) E)
      as (msg & Hmsg & Ht).
    cbn zeta in Ht. rewrite Ht. split; [reflexivity | exact Hmsg]. }
  rewrite Hp, H1.
  destruct (permissionsOk env); cbn [negb orb];
    (split; [reflexivity|]); (split; [reflexivity|]); exact H2.
Qed.

Lemma initialize_exam_ignores_fetch_failure_witness :
  fetchOk (mkRoute (Some "u1") (Some "t1")) Rejected = false /\
  permissionsOk
    (mkPermEnv (Fulfilled granted) (Fulfilled granted) Rejected Rejected
       Rejected true false false true) = true /\
  testData
    (exec (initializeExam (mkRoute (Some "u1") (Some "t1")) Rejected
             (mkPermEnv (Fulfilled granted) (Fulfilled granted) Rejected
                Rejected Rejected true false false true))
       (init None (mkRoute (Some "u1") (Some "t1")))) = [].
Proof.
  assert (Hf : fetchOk (mkRoute (Some "u1") (Some "t1")) Rejected = false)
    by reflexivity.
  split; [exact Hf|]. split; [reflexivity|].
  exact (proj1 (proj2 (proj2
           (initialize_exam_ignores_fetch_failure None
              (mkRoute (Some "u1") (Some "t1")) Rejected
              (mkPermEnv (Fulfilled granted) (Fulfilled granted) Rejected
                 Rejected Rejected true false false true))) Hf)).
Defined.

(** X25: "Retry" only loads the test again; it never runs the permission
    check.  From the error screen it therefore cannot reach the secure
    environment: when the test loads, the page is left on the loading
    screen with nothing loading, and when it does not, on the error
    screen. *)
Theorem retry_skips_permissions rt r p :
  render p = ErrorScreen ->
  let p' := exec (handleRetry rt r) p in
  showSecureEnvironment p' = false /\
  permissionsGranted p' = permissionsGranted p /\
  isLoading p' = false /\
  render p' = (if fetchOk rt r then LoadingScreen else ErrorScreen).
Proof.
  intros H.
  assert (K : showSecureEnvironment p = false /\ isLoading p = false).
  { unfold render in H.
    destruct (showSecureEnvironment p); [discriminate H|].
    destruct (isLoading p); [|split; reflexivity].
    rewrite orb_true_r in H. discriminate H. }
  destruct K as [K1 K2]. clear H.
  cbn zeta. unfold handleRetry. rewrite page_exec_bind, page_exec_bind.
  set (p1 := exec (setInitializationStep stepLoading) (exec (setError "") p)).
  assert (H1 : p1 = mkPage false (permissionsGranted p) false (formData p)
                      (testData p) "" stepLoading (calls p)).
  { subst p1. destruct p. cbn in K1, K2. subst. reflexivity. }
  destruct (fetchOk rt r) eqn:E.
  - destruct (proj1 (fetchTestData_state rt r p1) E) as [t Ht].
    cbn zeta in Ht. rewrite Ht, H1. repeat split.
  - destruct (proj2 (fetchTestData_state rt r p1) E) as (msg & Hmsg & Ht).
    cbn zeta in Ht. rewrite Ht, H1. cbn.
    destruct (missing (testId rt)); repeat split.
Qed.

Lemma retry_skips_permissions_witness :
  render
    (exec (initializeExam (mkRoute (Some "u1") (Some "t1")) Rejected
             (mkPermEnv Rejected Rejected Rejected Rejected Rejected
                true false false true))
       (init None (mkRoute (Some "u1") (Some "t1")))) = ErrorScreen /\
  render
    (exec (handleRetry (mkRoute (Some "u1") (Some "t1"))
             (Fulfilled (mkResponse true (Fulfilled (mkTest "t1" "Mock")))))
       (exec (initializeExam (mkRoute (Some "u1") (Some "t1")) Rejected
                (mkPermEnv Rejected Rejected Rejected Rejected Rejected
                   true false false true))
          (init None (mkRoute (Some "u1") (Some "t1"))))) = LoadingScreen.
Proof.
  assert (H : render
                (exec (initializeExam (mkRoute (Some "u1") (Some "t1"))
                         Rejected
                         (mkPermEnv Rejected Rejected Rejected Rejected
                            Rejected true false false true))
                   (init None (mkRoute (Some "u1") (Some "t1"))))
              = ErrorScreen) by reflexivity.
  split; [exact H|].
  exact (proj2 (proj2 (proj2
           (retry_skips_permissions (mkRoute (Some "u1") (Some "t1"))
              (Fulfilled (mkResponse true (Fulfilled (mkTest "t1" "Mock"))))
              _ H)))).
Defined.

(** *** Delivery of the component's calls *)

Lemma deliver_app rt l1 l2 p :
  exec (deliver rt (l1 ++ l2)) p = exec (deliver rt l2) (exec (deliver rt l1) p).
Proof.
  revert p. induction l1 as [|e l1 IH]; intros p; [reflexivity|].
  cbn [app deliver forEach]. rewrite !page_exec_bind. apply IH.
Qed.

(** A call to the browser, not to a prop. *)
Definition isBrowserCall (e : Effect) : bool :=
  match e with
  | OnSecurityViolation _ _ | OnExitSecure | OnStartExam => false
  | _ => true
  end.

Lemma deliver_browser_calls rt l p :
  forallb isBrowserCall l = true -> exec (deliver rt l) p = p.
Proof.
  revert p. induction l as [|e l IH]; intros p H; [reflexivity|].
  cbn in H. apply andb_true_iff in H. destruct H as [He Hl].
  cbn [deliver forEach]. rewrite page_exec_bind.
  replace (exec (receive rt e) p) with p; [apply IH, Hl|].
  destruct e; try discriminate He; reflexivity.
Qed.

End ExamEnv.

(* ================================================================== *)
(** * The component inside the page *)

(** The calls that [c] adds to the log of the component. *)
Definition callsOf {A} (c : M A) (m : Machine) : list Effect :=
  skipn (List.length (log m)) (log (exec c m)).

Lemma cleanupCalls_browser c m :
  forallb ExamEnv.isBrowserCall (cleanupCalls c m) = true.
Proof.
  unfold cleanupCalls. rewrite !forallb_app.
  assert (H : forall l, forallb ExamEnv.isBrowserCall (map TrackStop l) = true)
    by (induction l; [reflexivity | exact IHl]).
  destruct (c_cameraStream c), (c_screenStream c),
    (hasExitFullscreen (browser m) && fullscreenElement (browser m)),
    (heartbeatRef m); rewrite ?H; reflexivity.
Qed.

(** X26: one Critical violation makes the page leave twice.
    [addViolation] reports the violation through [onSecurityViolation],
    whose handler alerts and calls [handleExitSecure], and then terminates,
    which calls [onExitSecure], that is [handleExitSecure] again: the page
    navigates to the dashboard twice, with the secure environment hidden
    and the permissions withdrawn. *)
Theorem critical_violation_exits_twice rt c ty d m p :
  let p' :=
    ExamEnv.exec
      (ExamEnv.deliver rt (callsOf (addViolation c ty critical d) m)) p in
  ExamEnv.calls p' =
    ExamEnv.calls p ++
    [ ExamEnv.LogMessage "Security violation [critical]:";
      ExamEnv.PostViolation d critical;
      ExamEnv.ShowAlert (ExamEnv.CriticalViolation d);
      ExamEnv.Navigate ("/dashboard/" ++ ExamEnv.paramText (ExamEnv.userId rt))
        true;
      ExamEnv.Navigate ("/dashboard/" ++ ExamEnv.paramText (ExamEnv.userId rt))
        true ] /\
  ExamEnv.showSecureEnvironment p' = false /\
  ExamEnv.permissionsGranted p' = false.
Proof.
  cbn zeta. unfold callsOf. rewrite addViolation_log.
  rewrite skipn_app, skipn_all, Nat.sub_diag. cbn [skipn app].
  unfold terminationCalls.
  change (OnSecurityViolation d critical :: ?l)
    with ([OnSecurityViolation d critical] ++ l).
  rewrite !ExamEnv.deliver_app.
  rewrite (ExamEnv.deliver_browser_calls rt (cleanupCalls c m))
    by apply cleanupCalls_browser.
  rewrite (ExamEnv.deliver_browser_calls rt
             [Alert (SecurityViolationDetected d)]) by reflexivity.
  rewrite (ExamEnv.deliver_browser_calls rt
             match violationTimeoutRef m with
             | Some id => [ClearTimeout id]
             | None => []
             end) by (destruct (violationTimeoutRef m); reflexivity).
  destruct p. cbn. repeat split.
  repeat rewrite <- app_assoc. reflexivity.
Qed.
